(** * BetterMend QuickCart backend (server.js): a shallow embedding and its properties

    The server is an Express application with four routes over two JSON
    files, [data/products.json] and [data/carts.json].  The embedding below
    follows [server.js] statement by statement:

    - [Module JS] models the part of the JavaScript runtime the handlers
      rely on (dynamic values, truthiness, [typeof], [Number], [parseInt],
      [String.prototype.trim], array methods, [Date.prototype.toISOString]
      and [JSON.stringify]/[JSON.parse]);
    - [Module Server] holds the translation of [readJsonOrEmpty],
      [writeJson], [generateCartId] and of the four route handlers, written
      in a state-and-exception monad over the [world] (the two files, the
      system clock and the random source);
    - [Module Spec] defines the notions the statements use, and
      [Module Examples] the worlds and requests of the scenarios;
    - [Module Numbers] proves facts about the rounding of doubles and
      [Module Runtime] about the rest of the runtime model (JSON round
      trip, calendar, timestamps), [Module Catalog] the properties of the
      two product routes, [Module Submission] those of [POST /carts]
      and [GET /carts], and [Module Coverage] further properties of the
      handlers.

    Conventions of the model.  A string is a sequence of code units below
    256.  A number is NaN, an infinity or a double, given by its rational
    value: literals and products are rounded to the nearest double.  A
    file is absent, unreadable, not JSON, or the JSON document it holds; a
    write succeeds, or fails and leaves the file as it was or with a text
    that is not JSON.  The clock and [Math.random] are sequences of
    readings, consumed one per call, so that two calls in one request may
    see different times.  A handler maps the request and the world to the
    response and the world afterwards. *)

From Stdlib Require Import ZArith QArith Qround Qpower Qreduction List String Ascii Bool Lia Lqa.
Import ListNotations.
Local Open Scope string_scope.
Local Open Scope Z_scope.

(** * The JavaScript runtime, as far as the server uses it *)
Module JS.

(** ** Strings

    A JavaScript string is a sequence of code units.  It is modelled by a
    Rocq [string] whose characters stand for the code units 0..255. *)

(** [WhiteSpace] and [LineTerminator] code units below 256: TAB, LF, VT, FF,
    CR, SP and NBSP. *)
Definition is_white_space (c : ascii) : bool :=
  let n := N_of_ascii c in
  ((9 <=? n) && (n <=? 13) || (n =? 32) || (n =? 160))%N.

Fixpoint trimStart (s : string) : string :=
  match s with
  | EmptyString => EmptyString
  | String c s' => if is_white_space c then trimStart s' else s
  end.

Fixpoint trimEnd (s : string) : string :=
  match s with
  | EmptyString => EmptyString
  | String c s' =>
      match trimEnd s' with
      | EmptyString => if is_white_space c then EmptyString else String c EmptyString
      | r => String c r
      end
  end.

(** [String.prototype.trim] *)
Definition trim (s : string) : string := trimEnd (trimStart s).

(** [s.replace(/-/g, '')] *)
Fixpoint remove_dashes (s : string) : string :=
  match s with
  | EmptyString => EmptyString
  | String c s' => if Ascii.eqb c "-" then remove_dashes s' else String c (remove_dashes s')
  end.

(** [s.slice(0, n)] for [0 <= n] *)
Fixpoint str_take (n : nat) (s : string) : string :=
  match n, s with
  | S n', String c s' => String c (str_take n' s')
  | _, _ => EmptyString
  end.

Definition is_digit (c : ascii) : bool :=
  let n := N_of_ascii c in ((48 <=? n) && (n <=? 57))%N.

Definition digit_val (c : ascii) : Z := Z.of_N (N_of_ascii c) - 48.

(** The decimal digit character of [d mod 10]. *)
Definition digit_char (d : Z) : ascii := ascii_of_N (48 + Z.to_N (d mod 10)).

(** Decimal digits of a non-negative integer, most significant first
    ([fuel] bounds the number of digits). *)
Fixpoint dec_digits (fuel : nat) (n : Z) (acc : string) : string :=
  match fuel with
  | O => acc
  | S f =>
      let acc' := String (digit_char n) acc in
      if n <? 10 then acc' else dec_digits f (n / 10) acc'
  end.

(** [String(n)] for an integer [n] (template literals on integers). *)
Definition Z_to_string (n : Z) : string :=
  if n <? 0
  then String "-" (dec_digits (S (Z.to_nat (Z.log2 (- n)))) (- n) "")
  else dec_digits (S (Z.to_nat (Z.log2 n))) n "".

(** ** Numbers

    A Number is NaN, an infinity or a finite IEEE 754 double, which is
    given by its rational value; [to_double] below rounds a rational to
    the nearest double.  [-0] is identified with [0] (the two are
    indistinguishable to [===], [<=] and [JSON.stringify]). *)
Inductive number : Type :=
| NaN
| Infinity (negative : bool)
| Fin (q : Q).

Definition num (z : Z) : number := Fin (inject_Z z).

(** [Number.isFinite] *)
Definition isFinite (n : number) : bool :=
  match n with Fin _ => true | _ => false end.

(** [a === b] on Numbers *)
Definition num_eq (a b : number) : bool :=
  match a, b with
  | Fin x, Fin y => Qeq_bool x y
  | Infinity s, Infinity t => Bool.eqb s t
  | _, _ => false
  end.

(** [a <= b] on Numbers *)
Definition num_le (a b : number) : bool :=
  match a, b with
  | NaN, _ | _, NaN => false
  | Fin x, Fin y => Qle_bool x y
  | Infinity true, _ => true
  | _, Infinity false => true
  | _, _ => false
  end.

Definition negate (n : number) : number :=
  match n with
  | NaN => NaN
  | Infinity s => Infinity (negb s)
  | Fin q => Fin (Qred (- q))
  end.

(** *** binary64 (IEEE 754; ECMA-262, 6.1.6.1)

    A double is [m * 2 ^ e] for integers [|m| < 2 ^ 53] and
    [-1074 <= e <= 971].  The Number value of a real is the nearest
    double, the one with an even [m] when two are as near; from
    [2 ^ 1024 - 2 ^ 970] on it is an infinity. *)
Definition two_to (e : Z) : Q := Qpower 2 e.

Definition is_double (x : Q) : Prop :=
  exists m e : Z,
    -1074 <= e <= 971 /\ Z.abs m < 2 ^ 53 /\ (x == inject_Z m * two_to e)%Q.

(** [floor (log2 x)] for [0 < x] *)
Definition binade (x : Q) : Z :=
  let k := Z.log2 (Qnum x) - Z.log2 (Zpos (Qden x)) in
  if Qle_bool (two_to k) x then k else k - 1.

(** The exponent [e] of the doubles [m * 2 ^ e] around [x]: 53 bits of
    [m] in the normal range, the least exponent below it. *)
Definition ulp_exponent (x : Q) : Z := Z.max (binade x - 52) (-1074).

(** The integer nearest to [x], the even one of the two when [x] is half
    way. *)
Definition nearest_even (x : Q) : Z :=
  let m := Qfloor x in
  match Qcompare (x - inject_Z m) (1 # 2) with
  | Lt => m
  | Gt => m + 1
  | Eq => if Z.even m then m else m + 1
  end.

Definition round_positive (x : Q) : number :=
  let e := ulp_exponent x in
  let v := (inject_Z (nearest_even (x / two_to e)) * two_to e)%Q in
  if Qle_bool (two_to 1024) v then Infinity false else Fin (Qred v).

(** The Number value of the rational [x] *)
Definition to_double (x : Q) : number :=
  let x := Qred x in
  match Qcompare x 0 with
  | Eq => Fin 0
  | Gt => round_positive x
  | Lt => negate (round_positive (- x))
  end.

(** [a * b], [a + b] and [Math.floor(a)] on Numbers *)
Definition times (a b : number) : number :=
  match a, b with
  | NaN, _ | _, NaN => NaN
  | Fin x, Fin y => to_double (x * y)
  | Infinity s, Infinity t => Infinity (xorb s t)
  | Infinity s, Fin y | Fin y, Infinity s =>
      match Qcompare y 0 with
      | Eq => NaN
      | Gt => Infinity s
      | Lt => Infinity (negb s)
      end
  end.

Definition plus (a b : number) : number :=
  match a, b with
  | NaN, _ | _, NaN => NaN
  | Fin x, Fin y => to_double (x + y)
  | Infinity s, Infinity t => if Bool.eqb s t then a else NaN
  | Infinity _, Fin _ => a
  | Fin _, Infinity _ => b
  end.

Definition Math_floor (a : number) : number :=
  match a with
  | Fin q => Fin (inject_Z (Qfloor q))
  | _ => a
  end.

(** [String(n)] for [NaN], the infinities and the integers below
    [10 ^ 21] in absolute value, which are printed in decimal. *)
Definition integer_ToString (n : number) : string :=
  match n with
  | NaN => "NaN"
  | Infinity false => "Infinity"
  | Infinity true => "-Infinity"
  | Fin q => Z_to_string (Qfloor q)
  end.

(** *** [StringToNumber] (ECMA-262, 7.1.4.1.1)

    [StringNumericLiteral]: optional white space around a signed decimal
    literal (with optional fraction and exponent), [Infinity], or an
    unsigned hexadecimal, octal or binary integer literal.  The empty (or
    all-blank) string is [0]; anything else is [NaN].  The mathematical
    value of the literal is rounded to a double. *)

(** Leading decimal digits of [s]: their value, their number, the rest. *)
Fixpoint span_digits (s : string) (acc : Z) (cnt : nat) : Z * nat * string :=
  match s with
  | String c s' =>
      if is_digit c then span_digits s' (10 * acc + digit_val c) (S cnt)
      else (acc, cnt, s)
  | EmptyString => (acc, cnt, s)
  end.

Definition radix_digit (radix : Z) (c : ascii) : option Z :=
  let n := Z.of_N (N_of_ascii c) in
  let d := if (48 <=? n) && (n <=? 57) then n - 48
           else if (97 <=? n) && (n <=? 102) then n - 87
           else if (65 <=? n) && (n <=? 70) then n - 55
           else radix in
  if d <? radix then Some d else None.

(** All of [s] as digits in [radix]; [None] unless [s] is one digit or more. *)
Fixpoint radix_digits (radix : Z) (s : string) (acc : Z) (seen : bool) : option Z :=
  match s with
  | EmptyString => if seen then Some acc else None
  | String c s' =>
      match radix_digit radix c with
      | Some d => radix_digits radix s' (radix * acc + d) true
      | None => None
      end
  end.

Definition exponent_part (s : string) : option Z :=
  match s with
  | EmptyString => Some 0
  | String c s' =>
      if Ascii.eqb c "e" || Ascii.eqb c "E" then
        let '(sign, ds) :=
          match s' with
          | String "+" r => (1, r)
          | String "-" r => (-1, r)
          | _ => (1, s')
          end in
        match span_digits ds 0 0 with
        | (e, S _, EmptyString) => Some (sign * e)
        | _ => None
        end
      else None
  end.

Definition unsigned_decimal (s : string) : option number :=
  if String.eqb s "Infinity" then Some (Infinity false) else
  let '(ip, ni, r1) := span_digits s 0 0 in
  let '(fp, nf, r2) :=
    match r1 with
    | String "." r => span_digits r 0 0
    | _ => (0, O, r1)
    end in
  match (ni + nf)%nat, exponent_part r2 with
  | S _, Some e =>
      Some (to_double ((inject_Z (ip * 10 ^ Z.of_nat nf + fp) / inject_Z (10 ^ Z.of_nat nf))
                       * Qpower (inject_Z 10) e))
  | _, _ => None
  end.

Definition integer_literal (n : Z) : number := to_double (inject_Z n).

Definition numeric_literal (s : string) : option number :=
  match s with
  | String "0" (String x r) =>
      if Ascii.eqb x "x" || Ascii.eqb x "X" then option_map integer_literal (radix_digits 16 r 0 false)
      else if Ascii.eqb x "o" || Ascii.eqb x "O" then option_map integer_literal (radix_digits 8 r 0 false)
      else if Ascii.eqb x "b" || Ascii.eqb x "B" then option_map integer_literal (radix_digits 2 r 0 false)
      else unsigned_decimal s
  | String "+" r => unsigned_decimal r
  | String "-" r => option_map negate (unsigned_decimal r)
  | _ => unsigned_decimal s
  end.

Definition StringToNumber (s : string) : number :=
  match trim s with
  | EmptyString => num 0
  | t => match numeric_literal t with Some n => n | None => NaN end
  end.

(** [parseInt(s, 10)]: leading white space, an optional sign, then the
    longest prefix of decimal digits, whose value is rounded to a double;
    [NaN] when there is none. *)
Definition parseInt10 (s : string) : number :=
  let t := trimStart s in
  let '(sign, ds) :=
    match t with
    | String "+" r => (1, r)
    | String "-" r => (-1, r)
    | _ => (1, t)
    end in
  match span_digits ds 0 0 with
  | (n, S _, _) => to_double (inject_Z (sign * n))
  | _ => NaN
  end.

(** ** Values

    The values that reach the handlers are what [JSON.parse] builds
    (request bodies, file contents) and what the handlers build themselves;
    [undefined] and non-finite numbers arise from missing properties and
    from coercions.  An object is the ordered list of its own properties,
    each name once. *)
#[warnings="-register-all"]
Inductive value : Type :=
| VUndefined
| VNull
| VBool (b : bool)
| VNum (n : number)
| VStr (s : string)
| VArr (elems : list value)
| VObj (props : list (string * value)).

(** What a handler can throw. *)
Inductive error : Type := TypeError | RangeError | SyntaxError | IOError.

Inductive outcome (A : Type) : Type :=
| Ok (a : A)
| Throw (e : error).
Arguments Ok {A} a.
Arguments Throw {A} e.

Definition obind {A B} (m : outcome A) (f : A -> outcome B) : outcome B :=
  match m with
  | Ok a => f a
  | Throw e => Throw e
  end.

(** [ToBoolean] *)
Definition truthy (v : value) : bool :=
  match v with
  | VUndefined | VNull => false
  | VBool b => b
  | VNum NaN => false
  | VNum (Infinity _) => true
  | VNum (Fin q) => negb (Qeq_bool q 0)
  | VStr s => negb (String.eqb s "")
  | VArr _ | VObj _ => true
  end.

Definition typeof (v : value) : string :=
  match v with
  | VUndefined => "undefined"
  | VNull => "object"
  | VBool _ => "boolean"
  | VNum _ => "number"
  | VStr _ => "string"
  | VArr _ | VObj _ => "object"
  end.

Fixpoint lookup (k : string) (props : list (string * value)) : value :=
  match props with
  | [] => VUndefined
  | (k', v) :: rest => if String.eqb k k' then v else lookup k rest
  end.

(** [v.k] for the property names the server reads ([customer_id], [items],
    [cart_id], [product_id], [quantity], [id], [created_at]): an own
    property of an object; [undefined] on arrays, strings, numbers and
    booleans, which have no property of these names; a [TypeError] on
    [null] and [undefined]. *)
Definition get (v : value) (k : string) : outcome value :=
  match v with
  | VUndefined | VNull => Throw TypeError
  | VObj props => Ok (lookup k props)
  | _ => Ok VUndefined
  end.

(** [Number(v)] ([ToNumber]).  An array is first converted to the string
    that joins its elements with commas: two elements or more give a
    string with a comma, hence [NaN]; a single element gives its own
    string, where [null] and [undefined] print as the empty string, a
    boolean as [true]/[false] (not numeric) and a number as a literal
    that reads back as the same number.  Plain objects print as
    ["[object Object]"]. *)
Fixpoint ToNumber (v : value) : number :=
  match v with
  | VUndefined => NaN
  | VNull => num 0
  | VBool b => num (if b then 1 else 0)
  | VNum n => n
  | VStr s => StringToNumber s
  | VArr [] => num 0
  | VArr [x] =>
      match x with
      | VUndefined | VNull => num 0
      | VBool _ => NaN
      | _ => ToNumber x
      end
  | VArr _ => NaN
  | VObj _ => NaN
  end.

(** [a === b] where [b] was built by the request at hand and [a] comes
    from elsewhere (a file): primitives are compared by value, while two
    objects or arrays are equal only when they are the same allocation,
    which they are not. *)
Definition strict_eq (a b : value) : bool :=
  match a, b with
  | VUndefined, VUndefined => true
  | VNull, VNull => true
  | VBool x, VBool y => Bool.eqb x y
  | VNum x, VNum y => num_eq x y
  | VStr x, VStr y => String.eqb x y
  | _, _ => false
  end.

(** ** Arrays *)

Notation "'let?' x ':=' m 'in' k" := (obind m (fun x => k))
  (at level 10, x name, m at level 100, k at level 200).

(** The receiver of [find], [findIndex] or [filter]: only arrays have these
    methods; on [null]/[undefined] the property access throws, on anything
    else the property is [undefined] and the call throws. *)
Definition array_receiver (v : value) : outcome (list value) :=
  match v with
  | VArr l => Ok l
  | _ => Throw TypeError
  end.

(** [Array.prototype.find] *)
Fixpoint find (f : value -> outcome bool) (l : list value) : outcome value :=
  match l with
  | [] => Ok VUndefined
  | x :: rest => let? hit := f x in if hit then Ok x else find f rest
  end.

(** [Array.prototype.findIndex], counting from [i]; [-1] when nothing matches. *)
Fixpoint findIndex_from (i : Z) (f : value -> outcome bool) (l : list value) : outcome Z :=
  match l with
  | [] => Ok (-1)
  | x :: rest => let? hit := f x in if hit then Ok i else findIndex_from (i + 1) f rest
  end.

Definition findIndex := findIndex_from 0.

(** [Array.prototype.filter] *)
Fixpoint filter (f : value -> outcome bool) (l : list value) : outcome (list value) :=
  match l with
  | [] => Ok []
  | x :: rest =>
      let? hit := f x in
      let? kept := filter f rest in
      Ok (if hit then x :: kept else kept)
  end.

(** [Array.prototype.map] *)
Fixpoint map (f : value -> outcome value) (l : list value) : outcome (list value) :=
  match l with
  | [] => Ok []
  | x :: rest =>
      let? y := f x in
      let? ys := map f rest in
      Ok (y :: ys)
  end.

(** [a[i] = x] for an index inside the array *)
Fixpoint set_nth (i : nat) (x : value) (l : list value) : list value :=
  match l, i with
  | [], _ => []
  | _ :: rest, O => x :: rest
  | y :: rest, S i' => y :: set_nth i' x rest
  end.

(** ** JSON

    [JSON.parse(JSON.stringify(v))]: what is read back from a file into
    which [v] was written.  Properties whose value is [undefined] are
    left out, [undefined] inside an array and non-finite numbers become
    [null]. *)
Fixpoint JSON_roundtrip (v : value) : value :=
  match v with
  | VNum n => if isFinite n then v else VNull
  | VArr l =>
      VArr (List.map (fun x => match x with
                               | VUndefined => VNull
                               | _ => JSON_roundtrip x
                               end) l)
  | VObj props =>
      VObj ((fix members (ps : list (string * value)) : list (string * value) :=
               match ps with
               | [] => []
               | (k, VUndefined) :: rest => members rest
               | (k, x) :: rest => (k, JSON_roundtrip x) :: members rest
               end) props)
  | _ => v
  end.


(** The values that are JSON documents: no [undefined], no non-finite
    number. *)
Fixpoint json (v : value) : bool :=
  match v with
  | VUndefined => false
  | VNull | VBool _ | VStr _ => true
  | VNum n => isFinite n
  | VArr l => forallb json l
  | VObj props => forallb (fun kv => json (snd kv)) props
  end.

(** ** Dates (ECMA-262, 21.4.1)

    A time value is an integral number of milliseconds since the epoch,
    UTC. *)
Definition msPerDay : Z := 86400000.

Definition Day (t : Z) : Z := t / msPerDay.
Definition TimeWithinDay (t : Z) : Z := t mod msPerDay.

Definition DayFromYear (y : Z) : Z :=
  365 * (y - 1970) + (y - 1969) / 4 - (y - 1901) / 100 + (y - 1601) / 400.

Definition DaysInYear (y : Z) : Z := DayFromYear (y + 1) - DayFromYear y.

(** The largest [y] with [DayFromYear y <= Day t]: an estimate from the
    mean length of a year, moved by one year where needed (see
    [YearFromTime_spec]). *)
Definition YearFromTime (t : Z) : Z :=
  let d := Day t in
  let y := 1970 + (400 * d) / 146097 in
  if d <? DayFromYear y then y - 1
  else if DayFromYear (y + 1) <=? d then y + 1
  else y.

Definition InLeapYear (t : Z) : Z := DaysInYear (YearFromTime t) - 365.

Definition DayWithinYear (t : Z) : Z := Day t - DayFromYear (YearFromTime t).

(** Month number, 0 for January. *)
Definition MonthFromTime (t : Z) : Z :=
  let d := DayWithinYear t in
  let leap := InLeapYear t in
  if d <? 31 then 0
  else if d <? 59 + leap then 1
  else if d <? 90 + leap then 2
  else if d <? 120 + leap then 3
  else if d <? 151 + leap then 4
  else if d <? 181 + leap then 5
  else if d <? 212 + leap then 6
  else if d <? 243 + leap then 7
  else if d <? 273 + leap then 8
  else if d <? 304 + leap then 9
  else if d <? 334 + leap then 10
  else 11.

(** Day of the month, from 1. *)
Definition DateFromTime (t : Z) : Z :=
  let d := DayWithinYear t in
  let leap := InLeapYear t in
  match MonthFromTime t with
  | 0 => d + 1
  | 1 => d - 30
  | 2 => d - 58 - leap
  | 3 => d - 89 - leap
  | 4 => d - 119 - leap
  | 5 => d - 150 - leap
  | 6 => d - 180 - leap
  | 7 => d - 211 - leap
  | 8 => d - 242 - leap
  | 9 => d - 272 - leap
  | 10 => d - 303 - leap
  | _ => d - 333 - leap
  end.

Definition HourFromTime (t : Z) : Z := (t / 3600000) mod 24.
Definition MinFromTime (t : Z) : Z := (t / 60000) mod 60.
Definition SecFromTime (t : Z) : Z := (t / 1000) mod 60.
Definition msFromTime (t : Z) : Z := t mod 1000.

Definition pad2 (n : Z) : string :=
  String (digit_char (n / 10)) (String (digit_char n) "").
Definition pad3 (n : Z) : string := String (digit_char (n / 100)) (pad2 n).
Definition pad4 (n : Z) : string := String (digit_char (n / 1000)) (pad3 n).
Definition pad6 (n : Z) : string :=
  String (digit_char (n / 100000)) (String (digit_char (n / 10000)) (pad4 n)).

(** Years 0 to 9999 print with four digits, the others with a sign and
    six digits. *)
Definition iso_year (y : Z) : string :=
  if (0 <=? y) && (y <=? 9999) then pad4 y
  else if y <? 0 then String "-" (pad6 (- y))
  else String "+" (pad6 y).

(** A Date object: its time value, or [None] for an invalid date. *)
Definition Date : Type := option Z.

(** [TimeClip], as applied by [new Date(value)] *)
Definition TimeClip (t : Z) : Date :=
  if Z.abs t <=? 8640000000000000 then Some t else None.

(** [Date.prototype.toISOString]: [YYYY-MM-DDTHH:mm:ss.sssZ]; a
    [RangeError] on an invalid date. *)
Definition iso_string (t : Z) : string :=
  iso_year (YearFromTime t) ++ "-" ++ pad2 (MonthFromTime t + 1) ++ "-"
  ++ pad2 (DateFromTime t) ++ "T" ++ pad2 (HourFromTime t) ++ ":"
  ++ pad2 (MinFromTime t) ++ ":" ++ pad2 (SecFromTime t) ++ "."
  ++ pad3 (msFromTime t) ++ "Z".

Definition toISOString (d : Date) : outcome string :=
  match d with
  | None => Throw RangeError
  | Some t => Ok (iso_string t)
  end.

(** *** Reading a timestamp back

    [Date.parse] on the format that [toISOString] writes,
    [YYYY-MM-DDTHH:mm:ss.sssZ] with a four-digit year or a signed six-digit
    year; [None] stands for [NaN], and for the other formats, which the
    server never stores. *)
Fixpoint split_at (n : nat) (s : string) : option (string * string) :=
  match n, s with
  | O, _ => Some (EmptyString, s)
  | S n', String c s' =>
      match split_at n' s' with
      | Some (a, b) => Some (String c a, b)
      | None => None
      end
  | S _, EmptyString => None
  end.

(** The next [n] characters as a decimal number, and what follows them. *)
Definition field_of (n : nat) (s : string) : option (Z * string) :=
  match split_at n s with
  | Some (a, b) =>
      match span_digits a 0 0 with
      | (v, _, EmptyString) => Some (v, b)
      | _ => None
      end
  | None => None
  end.

Definition expect (c : ascii) (s : string) : option string :=
  match s with
  | String c' s' => if Ascii.eqb c c' then Some s' else None
  | EmptyString => None
  end.

(** Days of the year before month [m] (0 for January). *)
Definition days_before_month (leap m : Z) : Z :=
  match m with
  | 0 => 0
  | 1 => 31
  | 2 => 59 + leap
  | 3 => 90 + leap
  | 4 => 120 + leap
  | 5 => 151 + leap
  | 6 => 181 + leap
  | 7 => 212 + leap
  | 8 => 243 + leap
  | 9 => 273 + leap
  | 10 => 304 + leap
  | 11 => 334 + leap
  | _ => 365 + leap
  end.

Definition MakeDay (year month date : Z) : Z :=
  DayFromYear year + days_before_month (DaysInYear year - 365) month + date - 1.

Definition MakeTime (hour min sec ms : Z) : Z :=
  hour * 3600000 + min * 60000 + sec * 1000 + ms.

Definition MakeDate (day time : Z) : Z := day * msPerDay + time.

Definition obind' {A B} (o : option A) (f : A -> option B) : option B :=
  match o with Some a => f a | None => None end.

(** The fields that follow the year. *)
Definition parse_fields (sign y : Z) (r : string) : Date :=
  obind' (expect "-" r) (fun r =>
  obind' (field_of 2 r) (fun '(m, r) =>
  obind' (expect "-" r) (fun r =>
  obind' (field_of 2 r) (fun '(d, r) =>
  obind' (expect "T" r) (fun r =>
  obind' (field_of 2 r) (fun '(h, r) =>
  obind' (expect ":" r) (fun r =>
  obind' (field_of 2 r) (fun '(mi, r) =>
  obind' (expect ":" r) (fun r =>
  obind' (field_of 2 r) (fun '(sec, r) =>
  obind' (expect "." r) (fun r =>
  obind' (field_of 3 r) (fun '(ms, r) =>
  obind' (expect "Z" r) (fun r =>
    let year := sign * y in
    let leap := DaysInYear year - 365 in
    if String.eqb r ""
       && negb ((sign =? -1) && (y =? 0))
       && (1 <=? m) && (m <=? 12)
       && (1 <=? d) && (d <=? days_before_month leap m - days_before_month leap (m - 1))
       && ((h <=? 23) || ((h =? 24) && (mi =? 0) && (sec =? 0) && (ms =? 0)))
       && (mi <=? 59) && (sec <=? 59)
    then TimeClip (MakeDate (MakeDay year (m - 1) d) (MakeTime h mi sec ms))
    else None))))))))))))).

Definition Date_parse (s : string) : Date :=
  match s with
  | EmptyString => None
  | String c r =>
      if Ascii.eqb c "+" then
        obind' (field_of 6 r) (fun '(y, r') => parse_fields 1 y r')
      else if Ascii.eqb c "-" then
        obind' (field_of 6 r) (fun '(y, r') => parse_fields (-1) y r')
      else
        obind' (field_of 4 s) (fun '(y, r') => parse_fields 1 y r')
  end.

End JS.

(** * The server *)
Module Server.
Import JS.

(** ** The world a request runs in *)

(** What [fs.readFile] followed by [JSON.parse] meets at a path: no file
    ([ENOENT]), a read that fails otherwise, a file that is not JSON, or a
    JSON document. *)
Inductive file : Type :=
| Missing
| Failing
| Garbled
| Document (v : value).

Inductive path : Type := PRODUCTS_FILE | CARTS_FILE.

(** The files, whether [mkdir] and [writeFile] succeed, how a write
    fails when it does, and the readings that the clock and [Math.random]
    will give, in the order asked.  A write that fails may do so before
    the file is opened ([mkdir] fails, or the file cannot be opened), which
    leaves the file as it is, or after ([writeFile] opens with flag [w],
    which truncates the file, and then cannot write all of the text),
    which leaves an empty or partial text: [write_tears] tells which.
    The readings of [Math.random] are doubles in [0, 1). *)
Record world : Type := World {
  products_file : file;
  carts_file : file;
  disk_writable : bool;
  write_tears : bool;
  clock : nat -> Z;
  random : nat -> Q
}.

Definition read (p : path) (w : world) : file :=
  match p with
  | PRODUCTS_FILE => products_file w
  | CARTS_FILE => carts_file w
  end.

Definition write (p : path) (f : file) (w : world) : world :=
  match p with
  | PRODUCTS_FILE =>
      World f (carts_file w) (disk_writable w) (write_tears w) (clock w) (random w)
  | CARTS_FILE =>
      World (products_file w) f (disk_writable w) (write_tears w) (clock w) (random w)
  end.

(** Computations that read and change the world and may throw. *)
Definition M (A : Type) : Type := world -> outcome A * world.

Definition ret {A} (a : A) : M A := fun w => (Ok a, w).
Definition throw {A} (e : error) : M A := fun w => (Throw e, w).
Definition bind {A B} (m : M A) (f : A -> M B) : M B :=
  fun w => match m w with
           | (Ok a, w') => f a w'
           | (Throw e, w') => (Throw e, w')
           end.
Definition lift {A} (o : outcome A) : M A := fun w => (o, w).

Notation "x <- m ;; k" := (bind m (fun x => k))
  (at level 61, m at next level, right associativity).

(** The world once the clock has been read, and once a random number has
    been drawn. *)
Definition tick (w : world) : world :=
  World (products_file w) (carts_file w) (disk_writable w) (write_tears w)
        (fun n => clock w (S n)) (random w).

Definition draw (w : world) : world :=
  World (products_file w) (carts_file w) (disk_writable w) (write_tears w)
        (clock w) (fun n => random w (S n)).

(** [Date.now()], and the time value of [new Date()] *)
Definition now : M Z := fun w => (Ok (clock w O), tick w).

(** [Math.random()] *)
Definition Math_random : M Q := fun w => (Ok (random w O), draw w).

(** ** Promises

    Calling an [async] function gives a promise for the outcome of its
    body; [await] gives that outcome. *)
Inductive promise (A : Type) : Type := Promise (body : M A).
Arguments Promise {A} body.

Definition await {A} (p : promise A) : M A :=
  match p with Promise body => body end.

(** [p.method(...args)] where [p] is a promise and no argument is a
    function.  [Promise.prototype] has the methods [then], [catch] and
    [finally], which without a callback hand the outcome on.  A name that
    neither it nor [Object.prototype] has, such as [slice], is an
    [undefined] property, and calling it throws a [TypeError].  The
    promise is then dropped: it settles on its own, after the handler has
    answered, and what Node does of a rejection that nobody handles (it
    ends the process) is outside the world that is modelled here. *)
Definition promise_call {A} (p : promise A) (method : string) (args : list number)
  : M (promise A) :=
  if existsb (String.eqb method) ["then"; "catch"; "finally"]
  then ret p
  else throw TypeError.

(** ** Responses *)
Record response : Type := Response { status : Z; body : value }.

(** [res.status(code).json(body)].  [res.json] writes the body with
    [JSON.stringify], and the body of a response is what a client reads.
    The handlers build their bodies from booleans, strings, array lengths
    and values read from the JSON files, which are written as they are;
    the one exception is the entry of line 117, whose [product_id] can be
    [NaN] or an infinity, and the answer of line 122 is given what
    [JSON.stringify] makes of its body. *)
Definition respond (code : Z) (b : value) : M response := ret (Response code b).

(** [try { ... } catch (err) { console.error(...); res.status(500).json(...) }] *)
Definition try_catch (m : M response) : world -> response * world :=
  fun w => match m w with
           | (Ok r, w') => (r, w')
           | (Throw _, w') =>
               (Response 500 (VObj [("success", VBool false);
                                    ("error", VStr "internal_server_error")]), w')
           end.

(** ** server.js, lines 33-52 *)

Definition readJsonOrEmpty (filePath : path) : promise value :=
  Promise (fun w =>
    match read filePath w with
    | Document v => (Ok v, w)
    | Missing => (Ok (VArr []), w)
    | Failing => (Throw IOError, w)
    | Garbled => (Throw SyntaxError, w)
    end).

(** A text that [writeFile] has begun and not finished is empty or a
    proper prefix of the text of [data]; [data] is an array where the
    server writes, and no proper prefix of the text of an array is JSON. *)
Definition writeJson (filePath : path) (data : value) : promise unit :=
  Promise (fun w =>
    if disk_writable w then
      match data with
      | VUndefined => (Throw TypeError, w)
      | _ => (Ok tt, write filePath (Document (JSON_roundtrip data)) w)
      end
    else if write_tears w then (Throw IOError, write filePath Garbled w)
    else (Throw IOError, w)).

Definition generateCartId : M string :=
  t <- now ;;
  iso <- lift (toISOString (Some t)) ;;
  let date := remove_dashes (str_take 10 iso) in
  r <- Math_random ;;
  let rnd := plus (Math_floor (times (Fin r) (num 9000))) (num 1000) in
  ret ("CART-" ++ date ++ "-" ++ integer_ToString rnd).

(** ** Requests *)

(** A value of [req.query], as the query-string parser builds it: absent,
    a string, or an array or object of such values. *)
#[warnings="-register-all"]
Inductive query_value : Type :=
| QAbsent
| QStr (s : string)
| QArr (elems : list query_value)
| QObj (props : list (string * query_value)).

Definition query_truthy (q : query_value) : bool :=
  match q with
  | QAbsent => false
  | QStr s => negb (String.eqb s "")
  | QArr _ | QObj _ => true
  end.

(** [ToString]: an array joins its elements with commas. *)
Fixpoint query_ToString (q : query_value) : string :=
  match q with
  | QAbsent => "undefined"
  | QStr s => s
  | QArr l =>
      (fix join (xs : list query_value) : string :=
         match xs with
         | [] => ""
         | [x] => match x with QAbsent => "" | _ => query_ToString x end
         | x :: rest =>
             (match x with QAbsent => "" | _ => query_ToString x end) ++ "," ++ join rest
         end) l
  | QObj _ => "[object Object]"
  end.

(** [v === q] for a stored value [v] and a query value [q]: equal strings
    (an array or object of the query is a fresh allocation). *)
Definition eq_query (v : value) (q : query_value) : bool :=
  match v, q with
  | VStr x, QStr y => String.eqb x y
  | VUndefined, QAbsent => true
  | _, _ => false
  end.

Definition is_string (v : value) : bool := String.eqb (typeof v) "string".

(** The characters of a string value. *)
Definition chars (v : value) : string :=
  match v with VStr s => s | _ => "" end.

Definition isArray (v : value) : bool :=
  match v with VArr _ => true | _ => false end.

Definition elements (v : value) : list value :=
  match v with VArr l => l | _ => [] end.

Definition len (l : list value) : value := VNum (num (Z.of_nat (List.length l))).

Definition failure (code : Z) (err : string) : M response :=
  respond code (VObj [("success", VBool false); ("error", VStr err)]).

(** ** GET /products (lines 57-66) *)

(** Line 59: [parseInt(req.query.limit, 10) || 10]. *)
Definition query_limit (limit_param : query_value) : number :=
  let n := parseInt10 (query_ToString limit_param) in
  if truthy (VNum n) then n else num 10.

(** In [await readJsonOrEmpty(PRODUCTS_FILE).slice(0, limit)] the member
    access and the call bind tighter than [await]: [slice] is called on
    the promise, and it is the result of that call that is awaited. *)
Definition get_products (limit_param : query_value) : world -> response * world :=
  try_catch (
    let limit := query_limit limit_param in
    sliced <- promise_call (readJsonOrEmpty PRODUCTS_FILE) "slice" [num 0; limit] ;;
    products <- await sliced ;;
    respond 200 (VObj [("success", VBool true);
                       ("total", len (elements products));
                       ("products", products)])).

(** ** GET /products/:id (lines 71-82) *)
Definition get_product (id_param : string) : world -> response * world :=
  try_catch (
    products <- await (readJsonOrEmpty PRODUCTS_FILE) ;;
    let id := ToNumber (VStr id_param) in
    product <- lift (let? l := array_receiver products in
                     find (fun p => let? pid := get p "id" in
                                    Ok (num_eq (ToNumber pid) id)) l) ;;
    if negb (truthy product) then failure 404 "product_not_found"
    else respond 200 (VObj [("success", VBool true); ("product", product)])).

(** ** POST /carts (lines 88-166) *)

Definition invalid (i : Z) (reason : string) (more : list (string * value)) : value :=
  VObj ([("index", VNum (num i)); ("reason", VStr reason)] ++ more).

(** The loop of lines 103-120, from index [i] on, with the entries pushed
    so far. *)
Fixpoint validate_items (products : value) (items : list value) (i : Z)
    (invalidItems : list value) : outcome (list value) :=
  match items with
  | [] => Ok invalidItems
  | it :: rest =>
      let? product_id := get it "product_id" in
      let? absent :=
        if String.eqb (typeof product_id) "undefined" then Ok true
        else let? quantity := get it "quantity" in
             Ok (String.eqb (typeof quantity) "undefined") in
      if absent then
        validate_items products rest (i + 1)
          (invalidItems ++ [invalid i "product_id and quantity are required" []])
      else
        let? quantity := get it "quantity" in
        let qty := ToNumber quantity in
        if negb (isFinite qty) || num_le qty (num 0) then
          validate_items products rest (i + 1)
            (invalidItems ++ [invalid i "quantity must be a positive number" []])
        else
          let? product_id := get it "product_id" in
          let pid := ToNumber product_id in
          let? found :=
            (let? l := array_receiver products in
             find (fun p => let? id := get p "id" in
                            Ok (num_eq (ToNumber id) pid)) l) in
          if negb (truthy found) then
            validate_items products rest (i + 1)
              (invalidItems ++ [invalid i "product_not_found" [("product_id", VNum pid)]])
          else validate_items products rest (i + 1) invalidItems
  end.

(** The callback of line 140. *)
Definition normalize_item (it : value) : outcome value :=
  let? product_id := get it "product_id" in
  let? quantity := get it "quantity" in
  Ok (VObj [("product_id", VNum (ToNumber product_id));
            ("quantity", VNum (ToNumber quantity))]).

(** Line 129: the identifier under which the cart is stored. *)
Definition resolveCartId (body : value) : M string :=
  cart_id <- lift (get body "cart_id") ;;
  if truthy cart_id && is_string cart_id && negb (String.eqb (trim (chars cart_id)) "")
  then ret (trim (chars cart_id))
  else generateCartId.

(** Lines 137-145 *)
Definition newCart (cartId : string) (customer_id : value) (items : list value)
    (created_at : value) (createdAt expiresAt : string) : value :=
  VObj [("cart_id", VStr cartId);
        ("customer_id", customer_id);
        ("items", VArr items);
        ("status", VStr "saved");
        ("created_at", created_at);
        ("updated_at", VStr createdAt);
        ("expires_at", VStr expiresAt)].

(** Lines 147-151 *)
Definition upsert (existingIndex : Z) (cart : value) (carts : list value) : list value :=
  if 0 <=? existingIndex
  then set_nth (Z.to_nat existingIndex) cart carts
  else (carts ++ [cart])%list.

Definition accepted (existingIndex : Z) (cartId : string) : response :=
  Response (if 0 <=? existingIndex then 200 else 201)
    (VObj [("success", VBool true);
           ("cart_id", VStr cartId);
           ("status", VStr "saved");
           ("message", VStr (if 0 <=? existingIndex then "Cart updated" else "Cart saved"))]).

(** Lines 125-161, "Persist cart": what the handler does once the request
    has passed validation. *)
Definition persist_cart (body customer_id items : value) : M response :=
  carts <- await (readJsonOrEmpty CARTS_FILE) ;;
  cartId <- resolveCartId body ;;
  stored <- lift (array_receiver carts) ;;
  existingIndex <- lift (findIndex (fun c => let? id := get c "cart_id" in
                                             Ok (strict_eq id (VStr cartId))) stored) ;;
  t1 <- now ;;
  createdAt <- lift (toISOString (Some t1)) ;;
  t2 <- now ;;
  expiresAt <- lift (toISOString (TimeClip (t2 + 1000 * 60 * 60 * 24 * 7))) ;;
  new_items <- lift (map normalize_item (elements items)) ;;
  created_at <- (if 0 <=? existingIndex
                 then lift (get (nth (Z.to_nat existingIndex) stored VUndefined) "created_at")
                 else ret (VStr createdAt)) ;;
  let cart := newCart cartId customer_id new_items created_at createdAt expiresAt in
  _ <- await (writeJson CARTS_FILE (VArr (upsert existingIndex cart stored))) ;;
  ret (accepted existingIndex cartId).

Definition invalid_items (details : list value) : response :=
  Response 400 (VObj [("success", VBool false); ("error", VStr "invalid_items");
                      ("details", VArr details)]).

Definition post_carts (req_body : value) : world -> response * world :=
  try_catch (
    let body := if truthy req_body then req_body else VObj [] in
    customer_id <- lift (get body "customer_id") ;;
    if negb (truthy customer_id) || negb (is_string customer_id)
       || String.eqb (trim (chars customer_id)) ""
    then failure 400 "missing_customer_id" else
    items <- lift (get body "items") ;;
    if negb (isArray items) || (Z.of_nat (List.length (elements items)) =? 0)
    then failure 400 "items_required" else
    products <- await (readJsonOrEmpty PRODUCTS_FILE) ;;
    invalidItems <- lift (validate_items products (elements items) 0 []) ;;
    if truthy (len invalidItems)
    then respond 400 (JSON_roundtrip (VObj [("success", VBool false);
                                            ("error", VStr "invalid_items");
                                            ("details", VArr invalidItems)]))
    else persist_cart body customer_id items).

(** ** GET /carts (lines 171-185) *)
Definition get_carts (customer_id_param : query_value) : world -> response * world :=
  try_catch (
    let userId := customer_id_param in
    if negb (query_truthy userId) then failure 400 "missing_user_id" else
    carts <- await (readJsonOrEmpty CARTS_FILE) ;;
    userCarts <- lift (let? l := array_receiver carts in
                       filter (fun c => let? cid := get c "customer_id" in
                                        Ok (eq_query cid userId)) l) ;;
    respond 200 (VObj [("success", VBool true);
                       ("total", len userCarts);
                       ("carts", VArr userCarts)])).

End Server.

(** * Notions used in the statements *)
Module Spec.
Import JS Server.

(** A value whose properties can be read: anything but [null] and
    [undefined]. *)
Definition readable (v : value) : bool :=
  match v with
  | VUndefined | VNull => false
  | _ => true
  end.

(** [v.k] of a readable value. *)
Definition field (v : value) (k : string) : value :=
  match v with
  | VObj props => lookup k props
  | _ => VUndefined
  end.

(** The array that [readJsonOrEmpty] returns for a file, when it does. *)
Definition records (f : file) : option (list value) :=
  match f with
  | Missing => Some []
  | Document (VArr l) => Some l
  | _ => None
  end.

(** The product's identifier equals [id] once both are coerced to
    numbers. *)
Definition product_matches (id : number) (p : value) : bool :=
  num_eq (ToNumber (field p "id")) id.

(** The body the handler works on (line 90). *)
Definition request_body (req_body : value) : value :=
  if truthy req_body then req_body else VObj [].

(** The identifier [generateCartId] builds from a clock reading and a
    random draw. *)
Definition generated_id (t : Z) (r : Q) : string :=
  "CART-" ++ remove_dashes (str_take 10 (iso_string t)) ++ "-"
  ++ integer_ToString (plus (Math_floor (times (Fin r) (num 9000))) (num 1000)).

(** The stored record is the one of cart [c]. *)
Definition has_cart_id (c : string) (v : value) : bool :=
  strict_eq (field v "cart_id") (VStr c).

Definition week : Z := 1000 * 60 * 60 * 24 * 7.

(** The file holds nothing, or a JSON document. *)
Definition json_file (f : file) : Prop :=
  match f with
  | Document v => json v = true
  | _ => True
  end.

(** A stored record that is readable and is not the one of cart [c]. *)
Definition other_cart (c : string) (v : value) : Prop :=
  readable v = true /\ has_cart_id c v = false.

(** The callback of line 132. *)
Definition same_cart_id (cartId : string) (c : value) : outcome bool :=
  let? id := get c "cart_id" in Ok (strict_eq id (VStr cartId)).

(** The clock readings of lines 134 and 135: the first and the second
    reading after the cart identifier has been resolved. *)
Definition createdAt_reading (req_body : value) (w : world) : Z :=
  clock (snd (resolveCartId (request_body req_body) w)) 0.

Definition expiresAt_reading (req_body : value) (w : world) : Z :=
  clock (snd (resolveCartId (request_body req_body) w)) 1.

(** The cart identifier that line 129 resolves. *)
Definition resolved_cart_id (req_body : value) (w : world) : outcome string :=
  fst (resolveCartId (request_body req_body) w).

(** The request passes the checks of lines 93-123: a customer identifier
    that is a string and not blank, a non-empty array of items, and no
    entry pushed by the validation loop. *)
Definition valid_submission (req_body : value) (w : world) : Prop :=
  let body := request_body req_body in
  exists s items products,
    field body "customer_id" = VStr s /\ trim s <> "" /\
    field body "items" = VArr items /\ items <> [] /\
    await (readJsonOrEmpty PRODUCTS_FILE) w = (Ok products, w) /\
    validate_items products items 0 [] = Ok [].

(** The cart file is absent or a JSON array of readable records, the disk
    can be written, and the expiry date of the request at hand is one a
    [Date] can hold. *)
Definition storage_ready (req_body : value) (w : world) : Prop :=
  (exists stored, records (carts_file w) = Some stored
                  /\ Forall (fun x => readable x = true) stored) /\
  json_file (carts_file w) /\
  disk_writable w = true /\
  Z.abs (expiresAt_reading req_body w + week) <= 8640000000000000.

(** The stored record is one of customer [q] (the test of line 179). *)
Definition belongs_to (q : query_value) (c : value) : bool :=
  eq_query (field c "customer_id") q.

Definition carts_found (found : list value) : response :=
  Response 200 (VObj [("success", VBool true); ("total", len found);
                      ("carts", VArr found)]).



(** Two submissions in a row that resolve to the same cart identifier:
    201 then 200, and afterwards a single record of that cart, created at
    the first submission and updated at the second. *)
Definition resubmission_claim (req1 req2 : value) (w0 : world) : Prop :=
  let r1 := fst (post_carts req1 w0) in
  let w1 := snd (post_carts req1 w0) in
  let r2 := fst (post_carts req2 w1) in
  let w2 := snd (post_carts req2 w1) in
  forall c,
    resolved_cart_id req1 w0 = Ok c -> resolved_cart_id req2 w1 = Ok c ->
    status r1 = 201 /\ status r2 = 200 /\
    exists stored cart,
      records (carts_file w2) = Some stored /\
      List.filter (has_cart_id c) stored = [cart] /\
      field cart "created_at" = VStr (iso_string (createdAt_reading req1 w0)) /\
      field cart "updated_at" = VStr (iso_string (createdAt_reading req2 w1)) /\
      field cart "expires_at" = VStr (iso_string (expiresAt_reading req2 w1 + week)).

(** A supplied identifier that is not blank is returned as it was sent. *)
Definition cart_id_kept_verbatim (req_body : value) (w : world) : Prop :=
  forall s,
    field (request_body req_body) "cart_id" = VStr s -> trim s <> "" ->
    field (body (fst (post_carts req_body w))) "cart_id" = VStr s.

(** The expiry date of a stored record is its update date plus seven
    days. *)
Definition expires_a_week_after_update (cart : value) : Prop :=
  exists u e,
    Date_parse (chars (field cart "updated_at")) = Some u /\
    Date_parse (chars (field cart "expires_at")) = Some e /\
    e = u + week.

(** The string identifiers of the stored records, in storage order. *)
Definition cart_ids (l : list value) : list string :=
  flat_map (fun v => match field v "cart_id" with
                     | VStr s => [s]
                     | _ => []
                     end) l.

(** A 400 answer with its error code. *)
Definition rejection (err : string) : response :=
  Response 400 (VObj [("success", VBool false); ("error", VStr err)]).

(** The customer identifier passes the check of line 93. *)
Definition names_a_customer (req_body : value) : Prop :=
  exists s, field (request_body req_body) "customer_id" = VStr s /\ trim s <> "".

(** The checks of lines 105-119, which an item has passed when the loop
    pushes nothing for it. *)
Definition passes (products it : value) : Prop :=
  let pid := ToNumber (field it "product_id") in
  let qty := ToNumber (field it "quantity") in
  readable it = true /\ isFinite qty = true /\ num_le qty (num 0) = false /\
  exists l p, products = VArr l /\ In p l /\ product_matches pid p = true.

(** What is stored for a request item that has passed the checks of
    lines 105-119 against the catalog: the two properties as numbers
    (line 140), written through [JSON.stringify]; the quantity is finite
    and positive and the product is one of the catalog. *)
Definition stored_item (catalog : list value) (it stored : value) : Prop :=
  let pid := ToNumber (field it "product_id") in
  let qty := ToNumber (field it "quantity") in
  stored = VObj [("product_id", if isFinite pid then VNum pid else VNull);
                 ("quantity", VNum qty)] /\
  isFinite qty = true /\ num_le qty (num 0) = false /\
  exists p, In p catalog /\ product_matches pid p = true.

(** The two files and the state of the disk are those of [w]. *)
Definition same_files (w w' : world) : Prop :=
  products_file w' = products_file w /\ carts_file w' = carts_file w
  /\ disk_writable w' = disk_writable w /\ write_tears w' = write_tears w.

(** The answers of lines 155-161. *)
Definition cart_saved (c : string) : response :=
  Response 201 (VObj [("success", VBool true); ("cart_id", VStr c);
                      ("status", VStr "saved"); ("message", VStr "Cart saved")]).

Definition cart_updated (c : string) : response :=
  Response 200 (VObj [("success", VBool true); ("cart_id", VStr c);
                      ("status", VStr "saved"); ("message", VStr "Cart updated")]).

(** The record is not the one of cart [c]. *)
Definition of_another_cart (c : string) (v : value) : bool := negb (has_cart_id c v).

(** An answer as the handlers build them: [success] with status 200 or
    201, or no success with status 400, 404 or 500 and an error code. *)
Definition well_formed (r : response) : Prop :=
  (field (body r) "success" = VBool true /\ (status r = 200 \/ status r = 201))
  \/ (field (body r) "success" = VBool false
      /\ (status r = 400 \/ status r = 404 \/ status r = 500)
      /\ exists e, field (body r) "error" = VStr e).

(** Every answer that [m] returns satisfies [P]. *)
Definition answers (P : response -> Prop) (m : M response) : Prop :=
  forall w r w', m w = (Ok r, w') -> P r.

(** The file is there but cannot be read, or is not JSON. *)
Definition unreadable (f : file) : Prop := f = Failing \/ f = Garbled.

(** The world after [m] is related by [R] to the world before it,
    whatever [m] gives. *)
Definition keeps {A} (R : world -> world -> Prop) (m : M A) : Prop :=
  forall w, R w (snd (m w)).

(** A computation that never changes the catalog or the state of the
    disk, and changes the cart file only when it ends in the answer of an
    accepted submission, or when it throws after a write has torn the
    file. *)
Definition careful (m : M response) : Prop :=
  forall w,
    products_file (snd (m w)) = products_file w /\
    disk_writable (snd (m w)) = disk_writable w /\
    (carts_file (snd (m w)) = carts_file w
     \/ (exists i c, fst (m w) = Ok (accepted i c))
     \/ (disk_writable w = false /\ write_tears w = true
         /\ carts_file (snd (m w)) = Garbled /\ exists e, fst (m w) = Throw e)).

Definition internal_server_error : response :=
  Response 500 (VObj [("success", VBool false); ("error", VStr "internal_server_error")]).

Definition product_not_found : response :=
  Response 404 (VObj [("success", VBool false); ("error", VStr "product_not_found")]).

Definition product_found (p : value) : response :=
  Response 200 (VObj [("success", VBool true); ("product", p)]).



End Spec.

(** * Example worlds and requests *)
Module Examples.
Import JS Server Spec.

Definition product (id : Z) (name : string) : value :=
  VObj [("id", VNum (num id)); ("name", VStr name)].

(** The catalog of the scenarios: products 1 and 2. *)
Definition catalog : file := Document (VArr [product 1 "soap"; product 2 "towel"]).

(** A clock that starts on 2023-11-14T22:13:20.000Z and advances by one
    millisecond per reading; a random source that yields one half. *)
Definition ticking (n : nat) : Z := 1700000000000 + Z.of_nat n.
Definition half (n : nat) : Q := 1 # 2.

Definition fresh_world : world := World catalog Missing true false ticking half.

(** The same world with a clock that stands still. *)
Definition standing (n : nat) : Z := 1700000000000.
Definition steady_world : world := World catalog Missing true false standing half.

Definition item (product_id quantity : Z) : value :=
  VObj [("product_id", VNum (num product_id)); ("quantity", VNum (num quantity))].

Definition order (customer_id : string) (items : list value) : value :=
  VObj [("customer_id", VStr customer_id); ("items", VArr items)].

Definition order_for (cart_id customer_id : string) (items : list value) : value :=
  VObj [("cart_id", VStr cart_id); ("customer_id", VStr customer_id);
        ("items", VArr items)].

(** The request of the first scenario: product 9 is not in the catalog. *)
Definition unknown_product_request : value := order "u1" [item 1 2; item 9 1].

(** The request of the second scenario. *)
Definition plain_request : value := order "u1" [item 1 2].

(** A request with a [null] among its items. *)
Definition null_item_request : value := order "u1" [item 9 1; VNull].

(** A stored cart of customer [alice]. *)
Definition alice_cart : value :=
  VObj [("cart_id", VStr "C-1");
        ("customer_id", VStr "alice");
        ("items", VArr [item 1 1]);
        ("status", VStr "saved");
        ("created_at", VStr "2023-11-01T08:00:00.000Z");
        ("updated_at", VStr "2023-11-01T08:00:00.000Z");
        ("expires_at", VStr "2023-11-08T08:00:00.000Z")].

(** The second scenario's follow-up: the same cart under the identifier
    that the first call returned. *)
Definition follow_up_request : value := order_for "CART-20231114-5500" "u1" [item 1 2].

(** A customer identifier with a space on either side. *)
Definition padded_request : value := order " u1 " [item 1 2].

(** A cart identifier with a space on either side. *)
Definition padded_cart_request : value := order_for " my-cart " "u1" [item 1 2].

(** Customer [bob] submits under the identifier of the cart of [alice]. *)
Definition bob_request : value := order_for "C-1" "bob" [item 2 3].

(** A cart that customer [u1] saved two weeks before the scenario. *)
Definition saved_cart : value :=
  VObj [("cart_id", VStr "CART-20231114-5500");
        ("customer_id", VStr "u1");
        ("items", VArr [item 2 1]);
        ("status", VStr "saved");
        ("created_at", VStr "2023-11-01T08:00:00.000Z");
        ("updated_at", VStr "2023-11-01T08:00:00.000Z");
        ("expires_at", VStr "2023-11-08T08:00:00.000Z")].

Definition saved_world : world :=
  World catalog (Document (VArr [saved_cart])) true false ticking half.

Definition stocked_world : world :=
  World catalog (Document (VArr [alice_cart])) true false ticking half.

(** Worlds in which the storage fails: a cart file that is not JSON, a
    disk that refuses the write, a disk on which the write begins and
    fails, and nothing that can be read. *)
Definition damaged_world : world := World catalog Garbled true false ticking half.

Definition read_only_world : world :=
  World catalog (Document (VArr [alice_cart])) false false ticking half.

Definition tearing_world : world :=
  World catalog (Document (VArr [alice_cart])) false true ticking half.

Definition unreadable_world : world := World Garbled Failing false false ticking half.

End Examples.

(** * The arithmetic of doubles *)
Module Numbers.
Import JS.
Local Open Scope Q_scope.

Lemma to_double_comp (x y : Q) : x == y -> to_double x = to_double y.
Proof. intros H. unfold to_double. rewrite (Qred_complete _ _ H). reflexivity. Qed.

Lemma two_to_pos (e : Z) : 0 < two_to e.
Proof. apply Qpower_0_lt. reflexivity. Qed.

Lemma nearest_even_comp (x y : Q) : x == y -> nearest_even x = nearest_even y.
Proof.
  intros H. unfold nearest_even. rewrite (Qfloor_comp _ _ H).
  assert (Hc : (x - inject_Z (Qfloor y) ?= 1 # 2) = (y - inject_Z (Qfloor y) ?= 1 # 2)).
  { apply Qcompare_comp; [rewrite H; reflexivity | reflexivity]. }
  rewrite Hc. reflexivity.
Qed.

Lemma nearest_even_Z (z : Z) : nearest_even (inject_Z z) = z.
Proof.
  unfold nearest_even. rewrite Qfloor_Z.
  assert (Hc : (inject_Z z - inject_Z z ?= 1 # 2) = Lt).
  { apply Qlt_alt. setoid_replace (inject_Z z - inject_Z z) with 0 by ring. reflexivity. }
  rewrite Hc. reflexivity.
Qed.

Lemma nearest_even_bounds (x : Q) :
  x - (1 # 2) <= inject_Z (nearest_even x) <= x + (1 # 2).
Proof.
  unfold nearest_even.
  pose proof (Qfloor_le x) as Hl. pose proof (Qlt_floor x) as Hu.
  rewrite inject_Z_plus in Hu. change (inject_Z 1) with 1 in Hu.
  destruct (Qcompare_spec (x - inject_Z (Qfloor x)) (1 # 2)) as [He|Hlt|Hgt];
    [destruct (Z.even (Qfloor x))| |];
    rewrite ?inject_Z_plus; change (inject_Z 1) with 1;
    set (f := inject_Z (Qfloor x)) in *; clearbody f; lra.
Qed.

(** [2 ^ binade x <= x] *)
Lemma binade_le (x : Q) : 0 < x -> two_to (binade x) <= x.
Proof.
  intros Hx. unfold binade.
  set (k := (Z.log2 (Qnum x) - Z.log2 (Z.pos (Qden x)))%Z).
  destruct (Qle_bool (two_to k) x) eqn:Hle; [apply Qle_bool_iff; exact Hle|].
  destruct x as [n d]. unfold Qlt in Hx; simpl in Hx. rewrite Z.mul_1_r in Hx.
  cbn [Qnum Qden] in k.
  assert (Hn : (2 ^ Z.log2 n <= n)%Z) by (apply Z.log2_spec; exact Hx).
  assert (Hd : (Z.pos d < 2 ^ (Z.log2 (Z.pos d) + 1))%Z).
  { pose proof (Z.log2_spec (Z.pos d) ltac:(lia)) as H. rewrite <- Z.add_1_r in H. lia. }
  replace (k - 1)%Z with (Z.log2 n - (Z.log2 (Z.pos d) + 1))%Z by (unfold k; lia).
  unfold two_to. rewrite Qpower_minus by discriminate.
  pose proof (Z.log2_nonneg n) as Hn0. pose proof (Z.log2_nonneg (Z.pos d)) as Hd0.
  rewrite <- !(Zpower_Qpower 2) by lia.
  set (A := (2 ^ Z.log2 n)%Z) in *. set (B := (2 ^ (Z.log2 (Z.pos d) + 1))%Z) in *.
  assert (HA : (0 < A)%Z) by (apply Z.pow_pos_nonneg; lia).
  apply Qle_shift_div_r; [change 0 with (inject_Z 0); rewrite <- Zlt_Qlt; lia|].
  rewrite (Qmake_Qdiv n d). unfold Qdiv. rewrite <- Qmult_assoc, (Qmult_comm (/ _)), Qmult_assoc.
  apply Qle_shift_div_l; [change 0 with (inject_Z 0); rewrite <- Zlt_Qlt; lia|].
  rewrite <- !inject_Z_mult, <- Zle_Qle. nia.
Qed.

Lemma binade_le_log2 (n : Z) : (0 < n)%Z -> binade (inject_Z n) = Z.log2 n.
Proof.
  intros Hn. unfold binade. simpl. rewrite Z.sub_0_r.
  assert (H : Qle_bool (two_to (Z.log2 n)) (inject_Z n) = true).
  { apply Qle_bool_iff. unfold two_to.
    rewrite <- (Zpower_Qpower 2) by apply Z.log2_nonneg.
    rewrite <- Zle_Qle. apply Z.log2_spec; exact Hn. }
  rewrite H. reflexivity.
Qed.

Lemma ulp_exponent_cases (x : Q) :
  0 < x -> two_to (ulp_exponent x) <= x / two_to 52 \/ ulp_exponent x = (-1074)%Z.
Proof.
  intros Hx. unfold ulp_exponent.
  destruct (Z.max_spec (binade x - 52) (-1074)) as [[_ ->]|[_ ->]]; [right; reflexivity|left].
  unfold two_to at 1. rewrite Qpower_minus by discriminate.
  apply Qle_shift_div_l; [apply two_to_pos|].
  unfold Qdiv. rewrite <- Qmult_assoc, (Qmult_comm (/ _)), Qmult_inv_r, Qmult_1_r.
  - apply binade_le; exact Hx.
  - intros H. pose proof (two_to_pos 52) as Hp. unfold two_to in Hp. rewrite H in Hp.
    discriminate Hp.
Qed.

(** The rounded value is at most half a unit in the last place above. *)
Lemma round_positive_upper (x : Q) :
  0 < x ->
  inject_Z (nearest_even (x / two_to (ulp_exponent x))) * two_to (ulp_exponent x)
  <= x + x / two_to 53 + two_to (-1075).
Proof.
  intros Hx. set (e := ulp_exponent x). set (t := two_to e).
  assert (Ht : 0 < t) by apply two_to_pos.
  destruct (nearest_even_bounds (x / t)) as [_ Hm].
  assert (Hv : inject_Z (nearest_even (x / t)) * t <= x + t * (1 # 2)).
  { apply (Qmult_le_compat_r _ _ t) in Hm; [|lra].
    assert (Hxt : x / t * t == x) by (field; lra).
    rewrite Qmult_plus_distr_l, Hxt in Hm. lra. }
  assert (H53 : two_to 53 == 2 * two_to 52) by reflexivity.
  assert (H52 : 0 < two_to 52) by apply two_to_pos.
  assert (H1075 : two_to (-1074) * (1 # 2) == two_to (-1075)) by reflexivity.
  assert (Hp : 0 < two_to (-1075)) by apply two_to_pos.
  assert (Hq : 0 <= x / two_to 53).
  { apply Qle_shift_div_l; [apply two_to_pos | lra]. }
  destruct (ulp_exponent_cases x Hx) as [Hle|He]; fold e in Hle || fold e in He.
  - fold t in Hle.
    assert (Hhalf : x / two_to 52 * (1 # 2) == x / two_to 53).
    { rewrite H53. field. lra. }
    lra.
  - unfold t. rewrite He in *. fold t in Hv. unfold t in Hv. rewrite He in Hv. lra.
Qed.

Lemma nearest_even_nonneg (x : Q) : 0 <= x -> (0 <= nearest_even x)%Z.
Proof.
  intros Hx. unfold nearest_even.
  assert (H : (0 <= Qfloor x)%Z) by (apply (Qfloor_resp_le 0 x Hx)).
  destruct (_ ?= _); [destruct (Z.even _)| |]; lia.
Qed.

Lemma Qred_inject_Z (n : Z) : Qred (inject_Z n) = inject_Z n.
Proof.
  pose proof (Qred_correct (inject_Z n)) as He. pose proof (gcd_Qred (inject_Z n)) as Hg.
  destruct (Qred (inject_Z n)) as [a b]. unfold Qeq in He; simpl in *.
  rewrite Z.mul_1_r in He.
  assert (Hb : (Z.pos b | 1)%Z).
  { rewrite <- Hg. apply Z.gcd_greatest; [exists n; lia | apply Z.divide_refl]. }
  apply Z.divide_1_r_nonneg in Hb; [|lia].
  injection Hb as ->. unfold inject_Z. f_equal. lia.
Qed.

Lemma two_to_nonneg (e : Z) : (0 <= e)%Z -> two_to e == inject_Z (2 ^ e).
Proof. intros He. unfold two_to. rewrite (Zpower_Qpower 2) by exact He. reflexivity. Qed.

Lemma two_to_neg (e : Z) : (e <= 0)%Z -> two_to e == / inject_Z (2 ^ (- e)).
Proof.
  intros He. unfold two_to. replace e with (- - e)%Z at 1 by lia.
  rewrite Qpower_opp, (Zpower_Qpower 2) by lia. reflexivity.
Qed.

(** The Number values of some literals: the nearest double, an infinity
    from [2 ^ 1024 - 2 ^ 970] on, zero below half of the least double,
    and the even neighbour half way between two doubles. *)
Example to_double_samples :
  to_double (1 # 10) = Fin (3602879701896397 # 36028797018963968)
  /\ to_double (100000000000000000001 # 100000000000000000000) = Fin 1
  /\ to_double (inject_Z (10 ^ 400)) = Infinity false
  /\ to_double (- inject_Z (10 ^ 400)) = Infinity true
  /\ to_double (1 # Pos.pow 10 400) = Fin 0
  /\ to_double (inject_Z 9007199254740993) = Fin (inject_Z 9007199254740992)
  /\ to_double (inject_Z 9007199254740995) = Fin (inject_Z 9007199254740996)
  /\ to_double (inject_Z (2 ^ 1024 - 2 ^ 970) - (1 # 2)) = Fin (inject_Z (2 ^ 1024 - 2 ^ 971))
  /\ to_double (inject_Z (2 ^ 1024 - 2 ^ 970)) = Infinity false
  /\ to_double (two_to (-1075)) = Fin 0
  /\ to_double (3 * two_to (-1075)) = Fin (Qred (2 * two_to (-1074))).
Proof. repeat split; vm_compute; reflexivity. Qed.

(** Integers up to [2 ^ 53] are doubles. *)
Lemma round_positive_Z (n : Z) :
  (0 < n <= 2 ^ 53)%Z -> round_positive (inject_Z n) = num n.
Proof.
  intros Hn. destruct (Z.eq_dec n (2 ^ 53)) as [-> | Hne]; [vm_compute; reflexivity|].
  assert (Hlog : (0 <= Z.log2 n <= 52)%Z).
  { split; [apply Z.log2_nonneg|]. apply Z.lt_succ_r. apply Z.log2_lt_pow2; lia. }
  unfold round_positive, ulp_exponent. rewrite binade_le_log2 by lia.
  rewrite Z.max_l by lia.
  set (e := (Z.log2 n - 52)%Z).
  assert (Ht : two_to e == / inject_Z (2 ^ (- e))) by (apply two_to_neg; lia).
  assert (Hp : (0 < 2 ^ (- e))%Z) by (apply Z.pow_pos_nonneg; lia).
  assert (Hq : 0 < inject_Z (2 ^ (- e))) by (change 0 with (inject_Z 0); rewrite <- Zlt_Qlt; lia).
  assert (Hy : inject_Z n / two_to e == inject_Z (n * 2 ^ (- e))).
  { rewrite Ht, inject_Z_mult. field. lra. }
  rewrite (nearest_even_comp _ _ Hy), nearest_even_Z.
  assert (Hv : inject_Z (n * 2 ^ (- e)) * two_to e == inject_Z n).
  { rewrite Ht, inject_Z_mult. field. lra. }
  assert (Hsmall : Qle_bool (two_to 1024) (inject_Z (n * 2 ^ (- e)) * two_to e) = false).
  { destruct (Qle_bool _ _) eqn:Hle; [exfalso | reflexivity].
    apply Qle_bool_iff in Hle. rewrite Hv in Hle.
    assert (H1024 : two_to 1024 == inject_Z (2 ^ 1024)) by (apply two_to_nonneg; lia).
    rewrite H1024, <- Zle_Qle in Hle.
    assert ((2 ^ 53 < 2 ^ 1024)%Z) by (apply Z.pow_lt_mono_r; lia). lia. }
  rewrite Hsmall. unfold num. f_equal.
  rewrite (Qred_complete _ _ Hv). apply Qred_inject_Z.
Qed.

Lemma to_double_Z (n : Z) : (Z.abs n <= 2 ^ 53)%Z -> to_double (inject_Z n) = num n.
Proof.
  intros Hn. unfold to_double. rewrite Qred_inject_Z.
  destruct (Z.compare_spec n 0) as [-> | Hneg | Hpos].
  - reflexivity.
  - assert (Hc : (inject_Z n ?= 0) = Lt).
    { apply (proj1 (Qlt_alt _ _)). unfold Qlt; simpl; lia. }
    rewrite Hc. change (- inject_Z n) with (inject_Z (- n)).
    rewrite round_positive_Z by lia. unfold num, negate. f_equal.
    change (- inject_Z (- n)) with (inject_Z (- - n)). rewrite Z.opp_involutive.
    apply Qred_inject_Z.
  - assert (Hc : (inject_Z n ?= 0) = Gt).
    { apply (proj1 (Qgt_alt _ _)). unfold Qlt; simpl; lia. }
    rewrite Hc. apply round_positive_Z. lia.
Qed.

(** The doubles below 1 are at most [1 - 2 ^ -53]. *)
Lemma double_below_one (r : Q) : is_double r -> r < 1 -> r <= 1 - two_to (-53).
Proof.
  intros (m & e & He & Hm & Hr) Hlt.
  assert (H53 : two_to (-53) == 1 # 9007199254740992) by reflexivity.
  destruct (Qlt_le_dec (1 # 2) r) as [Hhalf | Hhalf]; [|rewrite H53; lra].
  rewrite Hr in Hlt, Hhalf.
  destruct (Z_le_gt_dec 0 e) as [Hpos | Hneg].
  - exfalso. rewrite (two_to_nonneg e Hpos), <- inject_Z_mult in Hlt, Hhalf.
    change 1 with (inject_Z 1) in Hlt. rewrite <- Zlt_Qlt in Hlt.
    assert (Hh : 0 < inject_Z (m * 2 ^ e)) by lra.
    change 0 with (inject_Z 0) in Hh. rewrite <- Zlt_Qlt in Hh. lia.
  - set (P := (2 ^ (- e))%Z).
    assert (Ht : two_to e == / inject_Z P) by (apply two_to_neg; lia).
    assert (HP : (0 < P)%Z) by (apply Z.pow_pos_nonneg; lia).
    assert (HPq : 0 < inject_Z P) by (change 0 with (inject_Z 0); rewrite <- Zlt_Qlt; lia).
    rewrite Hr, Ht. rewrite Ht in Hlt, Hhalf.
    assert (Hm1 : (m < P)%Z).
    { apply (Qmult_lt_compat_r _ _ (inject_Z P)) in Hlt; [|exact HPq].
      rewrite <- Qmult_assoc, (Qmult_comm (/ _)), Qmult_inv_r, Qmult_1_r, Qmult_1_l in Hlt
        by lra.
      rewrite <- Zlt_Qlt in Hlt. exact Hlt. }
    assert (Hm2 : (P < 2 * m)%Z).
    { apply (Qmult_lt_compat_r _ _ (inject_Z P)) in Hhalf; [|exact HPq].
      rewrite <- Qmult_assoc, (Qmult_comm (/ _)), Qmult_inv_r, Qmult_1_r in Hhalf by lra.
      assert (H2 : inject_Z P < inject_Z (2 * m)) by (rewrite inject_Z_mult; change (inject_Z 2) with 2; lra).
      rewrite <- Zlt_Qlt in H2. exact H2. }
    assert (HP53 : (P <= 2 ^ 53)%Z).
    { assert (Hlt54 : (2 ^ (- e) < 2 ^ 54)%Z) by (fold P; change (2 ^ 54)%Z with (2 * 2 ^ 53)%Z; lia).
      apply Z.pow_lt_mono_r_iff in Hlt54; [|lia|lia].
      apply Z.pow_le_mono_r; lia. }
    rewrite H53.
    apply Qle_shift_div_r; [exact HPq|].
    assert (Hmq : inject_Z m <= inject_Z P - 1).
    { change 1 with (inject_Z 1). unfold Qminus. rewrite <- inject_Z_opp, <- inject_Z_plus, <- Zle_Qle. lia. }
    assert (HPq53 : inject_Z P <= 9007199254740992).
    { change 9007199254740992 with (inject_Z (2 ^ 53)). rewrite <- Zle_Qle. exact HP53. }
    set (p := inject_Z P) in *. set (mm := inject_Z m) in *. clearbody p mm. lra.
Qed.

(** [Math.random() * 9000] is a double in [0, 9000). *)
Lemma random_product (r : Q) :
  is_double r -> 0 <= r -> r < 1 ->
  exists q, to_double (r * 9000) = Fin q /\ 0 <= q /\ q < 9000.
Proof.
  intros Hd H0 H1. pose proof (double_below_one r Hd H1) as Hr.
  assert (H53 : two_to (-53) == 1 # 9007199254740992) by reflexivity.
  rewrite H53 in Hr.
  destruct (Qeq_dec r 0) as [Hz | Hnz].
  - exists 0. split; [|lra]. rewrite (to_double_comp (r * 9000) 0) by (rewrite Hz; reflexivity).
    reflexivity.
  - unfold to_double. set (x := Qred (r * 9000)).
    assert (Hx : x == r * 9000) by apply Qred_correct.
    assert (Hpos : 0 < x) by (rewrite Hx; assert (0 < r) by (destruct (Qle_lt_or_eq _ _ H0); [assumption | exfalso; apply Hnz; symmetry; assumption]); lra).
    assert (Hc : (x ?= 0) = Gt) by (apply Qgt_alt; exact Hpos).
    rewrite Hc. unfold round_positive.
    pose proof (round_positive_upper x Hpos) as Hup.
    set (v := inject_Z (nearest_even (x / two_to (ulp_exponent x))) * two_to (ulp_exponent x)) in *.
    assert (Hv0 : 0 <= v).
    { unfold v. apply Qmult_le_0_compat; [|apply Qlt_le_weak, two_to_pos].
      change 0 with (inject_Z 0). rewrite <- Zle_Qle. apply nearest_even_nonneg.
      apply Qle_shift_div_l; [apply two_to_pos | lra]. }
    assert (H1075 : two_to (-1075) <= 1 # 10000000000000000000000000000000000000000).
    { apply Qle_bool_iff. vm_compute. reflexivity. }
    assert (Hx53 : x / two_to 53 == x * (1 # 9007199254740992)) by (unfold Qdiv; reflexivity).
    assert (Hv9 : v < 9000).
    { rewrite Hx53 in Hup. set (t := two_to (-1075)) in *. clearbody v t x. lra. }
    assert (Hsmall : Qle_bool (two_to 1024) v = false).
    { destruct (Qle_bool _ _) eqn:Hle; [exfalso | reflexivity].
      apply Qle_bool_iff in Hle.
      assert (H1024 : 9000 <= two_to 1024) by (apply Qle_bool_iff; vm_compute; reflexivity).
      set (t := two_to 1024) in *. clearbody v t. lra. }
    rewrite Hsmall. exists (Qred v). split; [reflexivity|].
    rewrite (Qred_correct v). split; [exact Hv0 | exact Hv9].
Qed.

(** Line 50: [Math.floor(Math.random() * 9000) + 1000] is an integer from
    1000 to 9999. *)
Lemma random_suffix (r : Q) :
  is_double r -> 0 <= r -> r < 1 ->
  exists n : Z,
    plus (Math_floor (times (Fin r) (num 9000))) (num 1000) = num n
    /\ (1000 <= n <= 9999)%Z.
Proof.
  intros Hd H0 H1. destruct (random_product r Hd H0 H1) as (q & Hq & Hq0 & Hq9).
  exists (Qfloor q + 1000)%Z. split.
  - cbn [times num]. change (inject_Z 9000) with 9000. rewrite Hq.
    unfold Math_floor, plus, num.
    rewrite (to_double_comp _ (inject_Z (Qfloor q + 1000))) by (rewrite inject_Z_plus; reflexivity).
    assert (Hk : (0 <= Qfloor q < 9000)%Z).
    { split; [apply (Qfloor_resp_le 0 q Hq0)|].
      apply Z.lt_nge. intros Hge.
      assert (H9 : 9000 <= inject_Z (Qfloor q))
        by (change 9000 with (inject_Z 9000); rewrite <- Zle_Qle; exact Hge).
      pose proof (Qfloor_le q). lra. }
    apply to_double_Z.
    assert ((2 ^ 53 = 9007199254740992)%Z) by reflexivity. lia.
  - assert (Hk : (0 <= Qfloor q < 9000)%Z).
    { split; [apply (Qfloor_resp_le 0 q Hq0)|].
      apply Z.lt_nge. intros Hge.
      assert (H9 : 9000 <= inject_Z (Qfloor q))
        by (change 9000 with (inject_Z 9000); rewrite <- Zle_Qle; exact Hge).
      pose proof (Qfloor_le q). lra. }
    lia.
Qed.

End Numbers.

(** * Facts about the runtime *)
Module Runtime.
Import JS.

(** Induction over values, through arrays and objects. *)
Lemma value_induction (P : value -> Prop) :
  P VUndefined -> P VNull -> (forall b, P (VBool b)) -> (forall n, P (VNum n)) ->
  (forall s, P (VStr s)) ->
  (forall l, Forall P l -> P (VArr l)) ->
  (forall props, Forall (fun kv => P (snd kv)) props -> P (VObj props)) ->
  forall v, P v.
Proof.
  intros Hu Hn Hb Hnum Hs Ha Ho.
  fix IH 1. intros [ | | b | n | s | l | props ];
    [exact Hu | exact Hn | apply Hb | apply Hnum | apply Hs | | ].
  - apply Ha. induction l as [|x l IHl]; constructor; [apply IH | exact IHl].
  - apply Ho. induction props as [|[k x] props IHp]; constructor; [apply IH | exact IHp].
Qed.

Lemma JSON_roundtrip_json (v : value) : json v = true -> JSON_roundtrip v = v.
Proof.
  induction v as [ | | b | n | s | l IH | props IH ] using value_induction;
    simpl; intros Hj; try reflexivity.
  - rewrite Hj. reflexivity.
  - f_equal. induction IH as [|x l Hx _ IHl]; simpl in *; [reflexivity|].
    apply andb_prop in Hj as [Hjx Hjl].
    rewrite (IHl Hjl). rewrite (Hx Hjx). destruct x; try reflexivity. discriminate.
  - f_equal. induction IH as [|[k x] props Hx _ IHp]; simpl in *; [reflexivity|].
    apply andb_prop in Hj as [Hjx Hjl].
    rewrite (IHp Hjl). rewrite (Hx Hjx). destruct x; try reflexivity. discriminate.
Qed.

Lemma JSON_roundtrip_elements (l : list value) :
  forallb json l = true ->
  List.map (fun x => match x with VUndefined => VNull | _ => JSON_roundtrip x end) l = l.
Proof.
  intros Hj. assert (H := JSON_roundtrip_json (VArr l) Hj). simpl in H. congruence.
Qed.

Lemma json_roundtrip (v : value) : v <> VUndefined -> json (JSON_roundtrip v) = true.
Proof.
  induction v as [ | | b | n | s | l IH | props IH ] using value_induction;
    simpl; intros Hv; try reflexivity; try congruence.
  - destruct n; reflexivity.
  - induction IH as [|x l Hx _ IHl]; simpl; [reflexivity|].
    rewrite IHl by discriminate. rewrite andb_true_r.
    destruct x; try reflexivity; apply Hx; discriminate.
  - induction IH as [|[k x] props Hx _ IHp]; simpl in *; [reflexivity|].
    assert (Hrest := IHp ltac:(discriminate)).
    destruct x; simpl; try exact Hrest; try (rewrite Hrest; rewrite andb_true_r);
      try reflexivity; try (apply Hx; discriminate).
Qed.

(** ** The calendar *)

(** [YearFromTime t] is the year whose days include [Day t]. *)
Lemma YearFromTime_spec (t : Z) :
  DayFromYear (YearFromTime t) <= Day t < DayFromYear (YearFromTime t + 1).
Proof.
  unfold YearFromTime. set (d := Day t). clearbody d.
  set (y := 1970 + 400 * d / 146097).
  assert (Hy : 146097 * (y - 1970) <= 400 * d < 146097 * (y - 1970) + 146097).
  { unfold y. generalize (Z.div_mod (400 * d) 146097 ltac:(lia)).
    generalize (Z.mod_pos_bound (400 * d) 146097 ltac:(lia)). lia. }
  clearbody y.
  unfold DayFromYear.
  destruct (d <? _) eqn:H1; [apply Z.ltb_lt in H1 | apply Z.ltb_ge in H1].
  - unfold DayFromYear in *. (Z.div_mod_to_equations; lia).
  - destruct (_ <=? d) eqn:H2; [apply Z.leb_le in H2 | apply Z.leb_gt in H2];
      unfold DayFromYear in *; (Z.div_mod_to_equations; lia).
Qed.

Lemma DaysInYear_cases (y : Z) : DaysInYear y = 365 \/ DaysInYear y = 366.
Proof. unfold DaysInYear, DayFromYear. Z.div_mod_to_equations; lia. Qed.

Lemma DayWithinYear_bounds (t : Z) :
  0 <= DayWithinYear t < 365 + InLeapYear t.
Proof.
  unfold DayWithinYear, InLeapYear, DaysInYear.
  generalize (YearFromTime_spec t). lia.
Qed.

Lemma MakeDay_of_time (t : Z) :
  MakeDay (YearFromTime t) (MonthFromTime t) (DateFromTime t) = Day t.
Proof.
  unfold MakeDay. fold (InLeapYear t).
  generalize (DayWithinYear_bounds t).
  unfold DateFromTime, MonthFromTime.
  generalize (DaysInYear_cases (YearFromTime t)). unfold InLeapYear at 1.
  set (leap := InLeapYear t). 
  unfold DayWithinYear. set (d := Day t - DayFromYear (YearFromTime t)).
  intros Hl Hd.
  repeat match goal with
  | |- context [if ?a <? ?b then _ else _] =>
      let H := fresh "H" in
      destruct (a <? b) eqn:H; [apply Z.ltb_lt in H | apply Z.ltb_ge in H]
  end; cbn [days_before_month]; unfold d; lia.
Qed.

Lemma month_and_date_bounds (t : Z) :
  0 <= MonthFromTime t <= 11 /\
  1 <= DateFromTime t
    <= days_before_month (InLeapYear t) (MonthFromTime t + 1)
       - days_before_month (InLeapYear t) (MonthFromTime t).
Proof.
  pose proof (DayWithinYear_bounds t) as Hd.
  assert (Hleap : InLeapYear t = 0 \/ InLeapYear t = 1).
  { unfold InLeapYear. generalize (DaysInYear_cases (YearFromTime t)). lia. }
  unfold DateFromTime, MonthFromTime.
  set (leap := InLeapYear t) in *. set (d := DayWithinYear t) in *. clearbody leap d.
  destruct Hleap as [-> | ->];
  repeat match goal with
  | |- context [if (?a <? ?b)%Z then _ else _] =>
      let H := fresh "H" in
      destruct (a <? b)%Z eqn:H; [apply Z.ltb_lt in H | apply Z.ltb_ge in H]
  end; cbn in *; lia.
Qed.

Lemma time_within_day (t : Z) :
  0 <= HourFromTime t <= 23 /\ 0 <= MinFromTime t <= 59 /\
  0 <= SecFromTime t <= 59 /\ 0 <= msFromTime t <= 999 /\
  MakeDate (Day t)
    (MakeTime (HourFromTime t) (MinFromTime t) (SecFromTime t) (msFromTime t)) = t.
Proof.
  unfold HourFromTime, MinFromTime, SecFromTime, msFromTime, MakeDate, MakeTime, Day, msPerDay.
  Z.div_mod_to_equations. lia.
Qed.

Lemma year_of_valid_time (t : Z) :
  Z.abs t <= 8640000000000000 -> -271822 <= YearFromTime t <= 275761.
Proof.
  intros Ht. unfold YearFromTime, Day, msPerDay.
  repeat match goal with
  | |- context [if ?c then _ else _] => destruct c
  end; Z.div_mod_to_equations; lia.
Qed.

Lemma digit_char_spec (d : Z) :
  is_digit (digit_char d) = true /\ digit_val (digit_char d) = d mod 10 /\
  Ascii.eqb (digit_char d) "-" = false /\ Ascii.eqb (digit_char d) "+" = false.
Proof.
  unfold digit_char. generalize (Z.mod_pos_bound d 10 eq_refl).
  set (k := d mod 10). clearbody k. intros Hk.
  assert (H : k = 0 \/ k = 1 \/ k = 2 \/ k = 3 \/ k = 4 \/ k = 5 \/ k = 6 \/ k = 7
              \/ k = 8 \/ k = 9) by lia.
  repeat destruct H as [-> | H]; try subst k; repeat split; reflexivity.
Qed.

Lemma span_digit (d acc : Z) (cnt : nat) (s : string) :
  span_digits (String (digit_char d) s) acc cnt
  = span_digits s (10 * acc + d mod 10) (S cnt).
Proof.
  simpl. destruct (digit_char_spec d) as (-> & -> & _). reflexivity.
Qed.

Lemma field_of_pad2 (n : Z) (rest : string) :
  0 <= n < 100 -> field_of 2 (pad2 n ++ rest) = Some (n, rest).
Proof.
  intros Hn. unfold field_of, pad2. cbn [append split_at].
  rewrite !span_digit. cbn [span_digits].
  do 2 f_equal. Z.div_mod_to_equations. lia.
Qed.

Lemma field_of_pad3 (n : Z) (rest : string) :
  0 <= n < 1000 -> field_of 3 (pad3 n ++ rest) = Some (n, rest).
Proof.
  intros Hn. unfold field_of, pad3, pad2. cbn [append split_at].
  rewrite !span_digit. cbn [span_digits].
  do 2 f_equal. Z.div_mod_to_equations. lia.
Qed.

Lemma field_of_pad4 (n : Z) (rest : string) :
  0 <= n < 10000 -> field_of 4 (pad4 n ++ rest) = Some (n, rest).
Proof.
  intros Hn. unfold field_of, pad4, pad3, pad2. cbn [append split_at].
  rewrite !span_digit. cbn [span_digits].
  do 2 f_equal. Z.div_mod_to_equations. lia.
Qed.

Lemma field_of_pad6 (n : Z) (rest : string) :
  0 <= n < 1000000 -> field_of 6 (pad6 n ++ rest) = Some (n, rest).
Proof.
  intros Hn. unfold field_of, pad6, pad4, pad3, pad2. cbn [append split_at].
  rewrite !span_digit. cbn [span_digits].
  do 2 f_equal. Z.div_mod_to_equations. lia.
Qed.

Lemma expect_literal (c : ascii) (r : string) :
  expect c (String c "" ++ r) = Some r.
Proof. simpl. rewrite Ascii.eqb_refl. reflexivity. Qed.

Lemma parse_fields_iso (sign y t : Z) :
  sign * y = YearFromTime t ->
  sign = 1 \/ (sign = -1 /\ y <> 0) ->
  Z.abs t <= 8640000000000000 ->
  parse_fields sign y
    ("-" ++ pad2 (MonthFromTime t + 1) ++ "-" ++ pad2 (DateFromTime t) ++ "T"
     ++ pad2 (HourFromTime t) ++ ":" ++ pad2 (MinFromTime t) ++ ":"
     ++ pad2 (SecFromTime t) ++ "." ++ pad3 (msFromTime t) ++ "Z")
  = Some t.
Proof.
  intros Hy Hsign Ht.
  destruct (month_and_date_bounds t) as (Hm & Hd).
  destruct (time_within_day t) as (Hh & Hmi & Hs & Hms & Hmake).
  assert (Hleap : InLeapYear t = 0 \/ InLeapYear t = 1).
  { unfold InLeapYear. generalize (DaysInYear_cases (YearFromTime t)). lia. }
  assert (Hdate : 1 <= DateFromTime t <= 31).
  { revert Hd. set (m := MonthFromTime t) in *. set (D := DateFromTime t).
    set (leap := InLeapYear t) in *. clearbody m D leap.
    assert (Hcases : m = 0 \/ m = 1 \/ m = 2 \/ m = 3 \/ m = 4 \/ m = 5 \/ m = 6
                     \/ m = 7 \/ m = 8 \/ m = 9 \/ m = 10 \/ m = 11) by lia.
    destruct Hleap as [-> | ->];
      repeat destruct Hcases as [-> | Hcases]; try subst m; cbn; lia. }
  unfold parse_fields.
  rewrite expect_literal; cbn [obind'].
  rewrite field_of_pad2 by lia; cbn [obind'].
  rewrite expect_literal; cbn [obind'].
  rewrite field_of_pad2 by lia; cbn [obind'].
  rewrite expect_literal; cbn [obind'].
  rewrite field_of_pad2 by lia; cbn [obind'].
  rewrite expect_literal; cbn [obind'].
  rewrite field_of_pad2 by lia; cbn [obind'].
  rewrite expect_literal; cbn [obind'].
  rewrite field_of_pad2 by lia; cbn [obind'].
  rewrite expect_literal; cbn [obind'].
  rewrite field_of_pad3 by lia; cbn [obind'].
  change "Z" with (String "Z" "" ++ "").
  rewrite expect_literal; cbn [obind'].
  cbv zeta. rewrite Hy. fold (InLeapYear t).
  replace (MonthFromTime t + 1 - 1) with (MonthFromTime t) by lia.
  rewrite MakeDay_of_time, Hmake.
  match goal with
  | |- (if ?c then _ else _) = _ => assert (Hc : c = true); [|rewrite Hc]
  end.
  { repeat (apply andb_true_intro; split); try reflexivity; try (apply Z.leb_le; lia).
    - apply negb_true_iff. destruct Hsign as [-> | [-> Hne]]; [reflexivity|].
      apply Z.eqb_neq in Hne. rewrite Hne. reflexivity.
    - apply orb_true_intro; left. apply Z.leb_le; lia. }
  unfold TimeClip. apply Z.leb_le in Ht. rewrite Ht. reflexivity.
Qed.

Lemma Date_parse_unsigned (c : ascii) (r : string) :
  Ascii.eqb c "+" = false -> Ascii.eqb c "-" = false ->
  Date_parse (String c r)
  = obind' (field_of 4 (String c r)) (fun '(y, r') => parse_fields 1 y r').
Proof. intros Hp Hm. unfold Date_parse. rewrite Hp, Hm. reflexivity. Qed.

(** Reading back what [toISOString] wrote gives the time value. *)
Lemma Date_parse_iso_string (t : Z) :
  Z.abs t <= 8640000000000000 -> Date_parse (iso_string t) = Some t.
Proof.
  intros Ht. pose proof (year_of_valid_time t Ht) as Hy.
  unfold iso_string, iso_year.
  destruct ((0 <=? YearFromTime t) && (YearFromTime t <=? 9999)) eqn:Hrange.
  - apply andb_prop in Hrange as [H0 H9]. apply Z.leb_le in H0, H9.
    destruct (digit_char_spec (YearFromTime t / 1000)) as (_ & _ & Hm & Hp).
    change (pad4 (YearFromTime t) ++ ?x)
      with (String (digit_char (YearFromTime t / 1000)) (pad3 (YearFromTime t) ++ x)).
    rewrite (Date_parse_unsigned _ _ Hp Hm).
    change (String (digit_char (YearFromTime t / 1000)) (pad3 (YearFromTime t) ++ ?x))
      with (pad4 (YearFromTime t) ++ x).
    rewrite field_of_pad4 by lia. cbn [obind'].
    apply parse_fields_iso; auto. lia.
  - destruct (YearFromTime t <? 0) eqn:Hneg.
    + apply Z.ltb_lt in Hneg. unfold Date_parse. cbn [append].
      change (Ascii.eqb "-" "+") with false. change (Ascii.eqb "-" "-") with true. cbv iota.
      rewrite field_of_pad6 by lia. cbn [obind'].
      apply parse_fields_iso; auto; lia.
    + apply Z.ltb_ge in Hneg. unfold Date_parse. cbn [append].
      change (Ascii.eqb "+" "+") with true. cbv iota.
      rewrite field_of_pad6 by lia. cbn [obind'].
      apply parse_fields_iso; auto; lia.
Qed.

Lemma iso_date_digits (t : Z) :
  0 <= YearFromTime t <= 9999 ->
  remove_dashes (str_take 10 (iso_string t))
  = pad4 (YearFromTime t) ++ pad2 (MonthFromTime t + 1) ++ pad2 (DateFromTime t).
Proof.
  intros [H0 H9]. unfold iso_string, iso_year.
  apply Z.leb_le in H0, H9. rewrite H0, H9. cbn [andb].
  unfold pad4, pad3, pad2. cbn [append str_take remove_dashes].
  change (Ascii.eqb "-" "-") with true. cbv iota.
  repeat match goal with
  | |- context [Ascii.eqb (digit_char ?d) "-"] =>
      let H := fresh in
      destruct (digit_char_spec d) as (_ & _ & H & _); rewrite H; clear H
  end.
  reflexivity.
Qed.

Lemma four_digits (n : Z) : 1000 <= n <= 9999 -> Z_to_string n = pad4 n.
Proof.
  intros Hn. unfold Z_to_string.
  assert (Hpos : (n <? 0) = false) by (apply Z.ltb_ge; lia). rewrite Hpos.
  assert (Hlog : 9 <= Z.log2 n).
  { change 9 with (Z.log2 512). apply Z.log2_le_mono. lia. }
  destruct (Z.to_nat (Z.log2 n)) as [|[|[|[|k]]]] eqn:Hk; try lia.
  cbn [dec_digits].
  assert (H1 : (n <? 10) = false) by (apply Z.ltb_ge; lia).
  assert (H2 : (n / 10 <? 10) = false) by (apply Z.ltb_ge; Z.div_mod_to_equations; lia).
  assert (H3 : (n / 10 / 10 <? 10) = false) by (apply Z.ltb_ge; Z.div_mod_to_equations; lia).
  assert (H4 : (n / 10 / 10 / 10 <? 10) = true) by (apply Z.ltb_lt; Z.div_mod_to_equations; lia).
  rewrite H1, H2, H3, H4.
  unfold pad4, pad3, pad2.
  replace (n / 10 / 10 / 10) with (n / 1000) by (Z.div_mod_to_equations; lia).
  replace (n / 10 / 10) with (n / 100) by (Z.div_mod_to_equations; lia).
  reflexivity.
Qed.

End Runtime.

(** * GET /products and GET /products/:id *)
Module Catalog.
Import JS Server Spec Examples.

(** C3: [GET /products] never lists anything.  Whatever the [limit]
    parameter and whatever the files hold, the handler calls [slice] on the
    promise returned by [readJsonOrEmpty], the call throws, and the
    response is 500 [internal_server_error]; the world is left as it was. *)
Theorem get_products_always_fails (limit_param : query_value) (w : world) :
  get_products limit_param w = (internal_server_error, w).
Proof.
  unfold get_products, try_catch, bind, promise_call; simpl existsb.
  reflexivity.
Qed.

(** The limit of line 59 is 10 for an absent, non-numeric or zero
    parameter; a negative number is kept. *)
Example query_limits :
  query_limit QAbsent = num 10 /\ query_limit (QStr "abc") = num 10
  /\ query_limit (QStr "0") = num 10 /\ query_limit (QStr "3") = num 3
  /\ query_limit (QStr "-5") = num (-5).
Proof. repeat split. Qed.

Lemma readable_get (v : value) (k : string) :
  readable v = true -> get v k = Ok (field v k).
Proof. destruct v; simpl; congruence. Qed.





(** The identifier and the stored ids are compared as doubles: an
    identifier with more digits than a double holds finds the product
    whose id is the nearest double. *)
Example long_identifier_is_rounded :
  fst (get_product "1.00000000000000000001" fresh_world) = product_found (product 1 "soap")
  /\ fst (get_product "9007199254740993" fresh_world) = product_not_found
  /\ fst (get_product "0x2" fresh_world) = product_found (product 2 "towel").
Proof. repeat split; vm_compute; reflexivity. Qed.



End Catalog.

(** * POST /carts *)
Module Submission.
Import JS Server Spec Examples Numbers Runtime Catalog.

Lemma truthy_readable (v : value) : truthy v = true -> readable v = true.
Proof. destruct v; simpl; congruence. Qed.

Lemma request_body_readable (req : value) : readable (request_body req) = true.
Proof.
  unfold request_body. destruct (truthy req) eqn:H; [now apply truthy_readable | reflexivity].
Qed.

(** [generateCartId] reads the clock, then draws a random number. *)
Lemma generateCartId_run (w : world) :
  generateCartId w = (Ok (generated_id (clock w 0) (random w 0)), draw (tick w)).
Proof. reflexivity. Qed.

(** Line 129 either trims the supplied identifier, leaving the world as
    it is, or generates one. *)
Lemma resolveCartId_cases (body : value) (w : world) :
  readable body = true ->
  (exists s, field body "cart_id" = VStr s /\ trim s <> "" /\
             resolveCartId body w = (Ok (trim s), w))
  \/ ((forall s, field body "cart_id" = VStr s -> trim s = "") /\
      resolveCartId body w = (Ok (generated_id (clock w 0) (random w 0)), draw (tick w))).
Proof.
  intros Hb. unfold resolveCartId, bind, lift. rewrite (readable_get _ _ Hb).
  destruct (field body "cart_id") as [ | | b | n | s | l | ps ] eqn:Hf;
    try (right; split; [intros s' Hs'; discriminate Hs' |];
         match goal with |- context [is_string ?v] => change (is_string v) with false end;
         rewrite andb_false_r; reflexivity).
  change (is_string (VStr s)) with true. change (chars (VStr s)) with s.
  destruct (String.eqb (trim s) "") eqn:Ht.
  - right. apply String.eqb_eq in Ht. split.
    + intros s' [= <-]. exact Ht.
    + rewrite andb_false_r. reflexivity.
  - left. exists s. apply String.eqb_neq in Ht. repeat split; auto.
    assert (Hs : truthy (VStr s) = true).
    { simpl. destruct s; [exfalso; apply Ht; reflexivity | reflexivity]. }
    rewrite Hs. reflexivity.
Qed.

(** [findIndex] with the callback of line 132: no record of the cart, or
    the position of the first one. *)
Lemma findIndex_from_spec (c : string) (l : list value) (k i : Z) :
  findIndex_from k (same_cart_id c) l = Ok i ->
  (i = -1 /\ Forall (other_cart c) l)
  \/ exists before old after,
       l = (before ++ old :: after)%list /\ i = k + Z.of_nat (List.length before) /\
       Forall (other_cart c) before /\ readable old = true /\ has_cart_id c old = true.
Proof.
  revert k. induction l as [|x l IH]; simpl; intros k H.
  - left. injection H as <-. split; [reflexivity | constructor].
  - unfold same_cart_id at 1 in H.
    destruct (readable x) eqn:Hr.
    2:{ destruct x; discriminate. }
    rewrite (readable_get _ _ Hr) in H. simpl in H.
    fold (has_cart_id c x) in H.
    destruct (has_cart_id c x) eqn:Hx.
    + injection H as <-. right. exists [], x, l. simpl. repeat split; auto. lia.
    + destruct (IH _ H) as [[-> Hall] | (before & old & after & -> & -> & Hb & Ho & Hc)].
      * left. split; [reflexivity|]. constructor; [split|]; assumption.
      * right. exists (x :: before), old, after. simpl. repeat split; auto.
        -- lia.
        -- constructor; [split|]; assumption.
Qed.

(** ** Stepping through a handler *)

Lemma bind_ok {A B} (m : M A) (f : A -> M B) (w w' : world) (b : B) :
  bind m f w = (Ok b, w') ->
  exists a w1, m w = (Ok a, w1) /\ f a w1 = (Ok b, w').
Proof.
  unfold bind. destruct (m w) as [[a|e] w1]; [|discriminate].
  intros H. exists a, w1. split; [reflexivity | exact H].
Qed.

Lemma lift_ok {A} (o : outcome A) (w w' : world) (a : A) :
  lift o w = (Ok a, w') -> o = Ok a /\ w' = w.
Proof. unfold lift. intros [= -> ->]. split; reflexivity. Qed.

Lemma read_ok (p : path) (w w' : world) (v : value) :
  await (readJsonOrEmpty p) w = (Ok v, w') ->
  w' = w /\ (read p w = Missing /\ v = VArr [] \/ read p w = Document v).
Proof.
  simpl. destruct (read p w); intros [= <- <-]; auto.
Qed.

Lemma write_ok (p : path) (data : value) (w w' : world) (u : unit) :
  await (writeJson p data) w = (Ok u, w') ->
  disk_writable w = true /\ data <> VUndefined /\
  w' = write p (Document (JSON_roundtrip data)) w.
Proof.
  simpl. destruct u, (disk_writable w); [|destruct (write_tears w); discriminate].
  destruct data; try discriminate; intros [= <-]; repeat split; discriminate.
Qed.

Tactic Notation "run" hyp(H) "as" ident(a) ident(w1) ident(Hm) :=
  apply bind_ok in H as (a & w1 & Hm & H).

(** What [persist_cart] has done when it returns. *)
Lemma persist_cart_inv (body customer_id items : value) (w w' : world) (r : response) :
  persist_cart body customer_id items w = (Ok r, w') ->
  exists stored cartId w1 i new_items created_at,
    records (carts_file w) = Some stored /\
    resolveCartId body w = (Ok cartId, w1) /\
    findIndex (same_cart_id cartId) stored = Ok i /\
    Z.abs (clock w1 1 + week) <= 8640000000000000 /\
    map normalize_item (elements items) = Ok new_items /\
    (if 0 <=? i
     then get (nth (Z.to_nat i) stored VUndefined) "created_at" = Ok created_at
     else created_at = VStr (iso_string (clock w1 0))) /\
    disk_writable w1 = true /\
    r = accepted i cartId /\
    w' = write CARTS_FILE
           (Document (JSON_roundtrip
              (VArr (upsert i (newCart cartId customer_id new_items created_at
                                 (iso_string (clock w1 0))
                                 (iso_string (clock w1 1 + week))) stored))))
           (tick (tick w1)).
Proof.
  intros H. unfold persist_cart in H.
  run H as carts w0 Hread. apply read_ok in Hread as [-> Hfile].
  run H as cartId w1 Hid.
  run H as stored w2 Harr. apply lift_ok in Harr as [Harr ->].
  run H as i w2 Hidx. apply lift_ok in Hidx as [Hidx ->].
  run H as t1 w2 Ht1. injection Ht1 as <- <-.
  run H as createdAt w2 Hc. apply lift_ok in Hc as [[= <-] ->].
  run H as t2 w2 Ht2. injection Ht2 as <- <-.
  run H as expiresAt w2 He. apply lift_ok in He as [He ->].
  run H as new_items w2 Hitems. apply lift_ok in Hitems as [Hitems ->].
  run H as created_at w2 Hcreated.
  run H as u w3 Hwrite. apply write_ok in Hwrite as (Hdisk & _ & ->).
  injection H as <- <-.
  exists stored, cartId, w1, i, new_items, created_at.
  assert (Hrec : records (carts_file w) = Some stored).
  { destruct carts; try discriminate. injection Harr as <-. simpl in Hfile.
    destruct Hfile as [[-> [= ->]] | ->]; reflexivity. }
  assert (Hclip : Z.abs (clock w1 1 + week) <= 8640000000000000 /\
                  expiresAt = iso_string (clock w1 1 + week)).
  { revert He. unfold TimeClip. simpl clock. fold week.
    destruct (Z.abs (clock w1 1 + week) <=? 8640000000000000) eqn:Hle; [|discriminate].
    intros [= <-]. split; [apply Z.leb_le; exact Hle | reflexivity]. }
  destruct Hclip as [Hclip ->].
  assert (Hcr : (if 0 <=? i
                 then get (nth (Z.to_nat i) stored VUndefined) "created_at" = Ok created_at
                 else created_at = VStr (iso_string (clock w1 0))) /\ w2 = tick (tick w1)).
  { destruct (0 <=? i).
    - apply lift_ok in Hcreated as [Hget ->]. split; [exact Hget | reflexivity].
    - injection Hcreated as <- <-. split; reflexivity. }
  destruct Hcr as [Hcr ->].
  repeat split; assumption.
Qed.

Lemma persist_cart_status (body customer_id items : value) (w w' : world) (r : response) :
  persist_cart body customer_id items w = (Ok r, w') -> status r = 200 \/ status r = 201.
Proof.
  intros H. apply persist_cart_inv in H as (stored & cartId & w1 & i & ni & ca & H).
  destruct H as (_ & _ & _ & _ & _ & _ & _ & -> & _).
  unfold accepted; simpl. destruct (0 <=? i); auto.
Qed.

(** How a request fares: rejected by validation, failed, or persisted. *)
Lemma post_carts_cases (req_body : value) (w w' : world) (r : response) :
  post_carts req_body w = (r, w') ->
  (status r = 400 /\ w' = w)
  \/ r = internal_server_error
  \/ (exists s items products,
        let body := request_body req_body in
        field body "customer_id" = VStr s /\ trim s <> "" /\
        field body "items" = VArr items /\ items <> [] /\
        await (readJsonOrEmpty PRODUCTS_FILE) w = (Ok products, w) /\
        validate_items products items 0 [] = Ok [] /\
        persist_cart body (VStr s) (VArr items) w = (Ok r, w')).
Proof.
  unfold post_carts, try_catch. fold (request_body req_body).
  set (body := request_body req_body).
  match goal with |- context [match ?m w with _ => _ end] => destruct (m w) as [[r0|e] w0] eqn:H end.
  2:{ intros [= <- <-]. right; left; reflexivity. }
  intros [= -> ->].
  run H as customer_id w1 Hcid. apply lift_ok in Hcid as [Hcid ->].
  rewrite (readable_get _ _ (request_body_readable req_body)) in Hcid.
  fold body in Hcid. assert (customer_id = field body "customer_id") as -> by congruence.
  clear Hcid.
  destruct (negb (truthy (field body "customer_id")) || negb (is_string (field body "customer_id"))
            || String.eqb (trim (chars (field body "customer_id"))) "") eqn:Hcheck.
  { injection H as <- <-. left; split; reflexivity. }
  apply orb_false_elim in Hcheck as [Hcheck Hblank].
  apply orb_false_elim in Hcheck as [_ Hstr].
  destruct (field body "customer_id") as [ | | b | n | s | l | ps ] eqn:Hfield; try discriminate.
  simpl chars in *. apply String.eqb_neq in Hblank.
  run H as items w1 Hitems. apply lift_ok in Hitems as [Hitems ->].
  rewrite (readable_get _ _ (request_body_readable req_body)) in Hitems.
  fold body in Hitems. assert (items = field body "items") as -> by congruence.
  clear Hitems.
  destruct (negb (isArray (field body "items"))
            || (Z.of_nat (List.length (elements (field body "items"))) =? 0)) eqn:Hcheck.
  { injection H as <- <-. left; split; reflexivity. }
  apply orb_false_elim in Hcheck as [Harr Hlen].
  destruct (field body "items") as [ | | b | n | s' | items | ps ] eqn:Hfitems; try discriminate.
  simpl elements in *.
  run H as products w1 Hprod. pose proof (read_ok _ _ _ _ Hprod) as [-> _].
  run H as invalidItems w1 Hval. apply lift_ok in Hval as [Hval ->].
  destruct invalidItems as [|bad rest].
  - simpl in H. right; right. exists s, items, products. fold body.
    repeat split; auto.
    intros ->. discriminate.
  - assert (Ht : truthy (len (bad :: rest)) = true).
    { reflexivity. }
    rewrite Ht in H. injection H as <- <-. left; split; reflexivity.
Qed.

(** A 400 answer comes from one of the three checks, before any write. *)
Lemma post_carts_rejected (req_body : value) (w : world) :
  status (fst (post_carts req_body w)) = 400 -> snd (post_carts req_body w) = w.
Proof.
  destruct (post_carts req_body w) as [r w'] eqn:H. simpl. intros Hs.
  apply post_carts_cases in H as [[_ ->] | [-> | (s & items & products & H)]].
  - reflexivity.
  - discriminate.
  - destruct H as (_ & _ & _ & _ & _ & _ & H).
    apply persist_cart_status in H. lia.
Qed.

Lemma set_nth_middle (x old : value) (before after : list value) :
  set_nth (List.length before) x (before ++ old :: after) = (before ++ x :: after)%list.
Proof. induction before as [|b before IH]; simpl; [reflexivity | now rewrite IH]. Qed.

Lemma nth_in_middle (old d : value) (before after : list value) :
  nth (List.length before) (before ++ old :: after) d = old.
Proof. induction before as [|b before IH]; simpl; [reflexivity | exact IH]. Qed.

Lemma records_json (f : file) (l : list value) :
  json_file f -> records f = Some l -> forallb json l = true.
Proof.
  destruct f as [ | | | v]; simpl; try discriminate.
  - intros _ [= <-]. reflexivity.
  - destruct v; try discriminate. intros H [= <-]. exact H.
Qed.

(** The fields of a cart as read back from the file. *)
Lemma stored_fields (c s : string) (items : list value) (created_at : value)
    (createdAt expiresAt : string) :
  let cart := JSON_roundtrip (newCart c (VStr s) items created_at createdAt expiresAt) in
  field cart "cart_id" = VStr c /\
  field cart "customer_id" = VStr s /\
  field cart "status" = VStr "saved" /\
  field cart "updated_at" = VStr createdAt /\
  field cart "expires_at" = VStr expiresAt /\
  (forall x, created_at = VStr x -> field cart "created_at" = VStr x) /\
  readable cart = true.
Proof.
  simpl. repeat split; try (destruct created_at; reflexivity).
  intros x ->. reflexivity.
Qed.

Lemma resolveCartId_files (body : value) (w w1 : world) (o : outcome string) :
  readable body = true ->
  resolveCartId body w = (o, w1) ->
  products_file w1 = products_file w /\ carts_file w1 = carts_file w
  /\ disk_writable w1 = disk_writable w.
Proof.
  intros Hb H.
  destruct (resolveCartId_cases body w Hb) as [(s & _ & _ & Hs) | [_ Hg]].
  - rewrite Hs in H. injection H as _ <-. repeat split.
  - rewrite Hg in H. injection H as _ <-. repeat split.
Qed.

(** What a request that is answered 200 or 201 has done. *)
Lemma post_carts_stored (req_body : value) (w w' : world) (r : response) :
  post_carts req_body w = (r, w') ->
  status r = 200 \/ status r = 201 ->
  json_file (carts_file w) ->
  exists s items stored c i created_at,
    let body := request_body req_body in
    let cart := JSON_roundtrip
                  (newCart c (VStr s) items created_at
                     (iso_string (createdAt_reading req_body w))
                     (iso_string (expiresAt_reading req_body w + week))) in
    field body "customer_id" = VStr s /\
    trim s <> "" /\
    map normalize_item (elements (field body "items")) = Ok items /\
    records (carts_file w) = Some stored /\
    resolved_cart_id req_body w = Ok c /\
    r = accepted i c /\
    products_file w' = products_file w /\
    disk_writable w' = disk_writable w /\
    Z.abs (expiresAt_reading req_body w + week) <= 8640000000000000 /\
    ((i = -1 /\ Forall (other_cart c) stored /\
      created_at = VStr (iso_string (createdAt_reading req_body w)) /\
      records (carts_file w') = Some (stored ++ [cart])%list)
     \/
     (exists before old after,
        0 <= i /\ stored = (before ++ old :: after)%list /\
        Forall (other_cart c) before /\ readable old = true /\
        has_cart_id c old = true /\
        created_at = field old "created_at" /\
        records (carts_file w') = Some (before ++ cart :: after)%list)).
Proof.
  intros Hrun Hok Hjson.
  apply post_carts_cases in Hrun as [[H4 _] | [-> | (s & items & products & H)]];
    [ destruct Hok; lia | destruct Hok; discriminate | ].
  destruct H as (Hcid & Hs & Hitems & _ & _ & _ & H).
  apply persist_cart_inv in H
    as (stored & c & w1 & i & new_items & created_at & Hrec & Hid & Hidx & Hclip & Hmap
        & Hcreated & _ & -> & ->).
  assert (Hj := records_json _ _ Hjson Hrec).
  exists s, new_items, stored, c, i, created_at.
  unfold createdAt_reading, expiresAt_reading, resolved_cart_id. rewrite Hid. simpl fst; simpl snd.
  rewrite Hitems. simpl elements.
  destruct (resolveCartId_files _ _ _ _ (request_body_readable req_body) Hid) as (Hp & _ & Hd).
  repeat split; try assumption.
  apply findIndex_from_spec in Hidx
    as [[-> Hall] | (before & old & after & -> & -> & Hb & Ho & Hc)].
  - left. simpl in Hcreated. repeat split; try assumption.
    unfold upsert; simpl Z.leb; cbv iota.
    simpl carts_file. unfold records. cbn [JSON_roundtrip].
    rewrite map_app. rewrite (JSON_roundtrip_elements _ Hj).
    subst created_at. reflexivity.
  - right. exists before, old, after.
    assert (Hpos : (0 <=? 0 + Z.of_nat (List.length before)) = true) by (apply Z.leb_le; lia).
    rewrite Hpos in Hcreated.
    replace (Z.to_nat (0 + Z.of_nat (List.length before))) with (List.length before) in * by lia.
    rewrite nth_in_middle in Hcreated. rewrite (readable_get _ _ Ho) in Hcreated.
    assert (created_at = field old "created_at") as Hca by congruence.
    repeat split; try assumption; try lia.
    unfold upsert. rewrite Hpos.
    replace (Z.to_nat (0 + Z.of_nat (List.length before))) with (List.length before) by lia.
    rewrite set_nth_middle.
    simpl carts_file. unfold records. cbn [JSON_roundtrip].
    rewrite forallb_app in Hj. apply andb_prop in Hj as [Hjb Hja].
    simpl in Hja. apply andb_prop in Hja as [_ Hja].
    rewrite map_app. simpl List.map.
    rewrite (JSON_roundtrip_elements _ Hjb), (JSON_roundtrip_elements _ Hja).
    reflexivity.
Qed.

(** ** Valid submissions are accepted *)

Lemma bind_step {A B} (m : M A) (f : A -> M B) (w w1 : world) (a : A) :
  m w = (Ok a, w1) -> bind m f w = f a w1.
Proof. unfold bind. intros ->. reflexivity. Qed.

(** The validation loop reads a property of every item: when it
    returns, no item is [null]. *)
Lemma validate_items_readable (products : value) (items : list value) (i : Z)
    (acc out : list value) :
  validate_items products items i acc = Ok out ->
  Forall (fun it => readable it = true) items.
Proof.
  revert i acc. induction items as [|it items IH]; intros i acc H; constructor.
  - destruct it; try reflexivity; discriminate.
  - simpl in H.
    destruct (get it "product_id") as [pid|]; [|discriminate]. cbn [obind] in H.
    match type of H with
    | obind ?o _ = _ => destruct o as [[|]|]; [| |discriminate]; cbn [obind] in H
    end.
    + eapply IH; eassumption.
    + destruct (get it "quantity") as [qty|]; [|discriminate]. cbn [obind] in H.
      destruct (negb (isFinite (ToNumber qty)) || num_le (ToNumber qty) (num 0)).
      * eapply IH; eassumption.
      * match type of H with
        | obind ?o _ = _ => destruct o as [found|]; [|discriminate]; cbn [obind] in H
        end.
        destruct (negb (truthy found)); eapply IH; eassumption.
Qed.

Lemma normalize_items_total (items : list value) :
  Forall (fun it => readable it = true) items ->
  exists l, map normalize_item items = Ok l.
Proof.
  induction 1 as [|it items Hit _ [l IH]]; simpl.
  - exists []. reflexivity.
  - unfold normalize_item at 1. rewrite !(readable_get _ _ Hit). simpl.
    rewrite IH. simpl. eexists. reflexivity.
Qed.

Lemma findIndex_total (c : string) (l : list value) (k : Z) :
  Forall (fun x => readable x = true) l ->
  exists i, findIndex_from k (same_cart_id c) l = Ok i.
Proof.
  intros H. revert k. induction H as [|x l Hx _ IH]; intros k; simpl.
  - exists (-1). reflexivity.
  - unfold same_cart_id at 1. rewrite (readable_get _ _ Hx). simpl.
    destruct (strict_eq (field x "cart_id") (VStr c)); [exists k; reflexivity | apply IH].
Qed.

Lemma resolveCartId_total (body : value) (w : world) :
  readable body = true ->
  exists c, resolveCartId body w = (Ok c, snd (resolveCartId body w)).
Proof.
  intros Hb. destruct (resolveCartId_cases body w Hb) as [(s & _ & _ & ->) | [_ ->]];
    eexists; reflexivity.
Qed.

(** A request that has passed validation is persisted when the cart file
    is absent or an array of readable records, the disk can be written and
    the expiry date is one a [Date] can hold. *)
Lemma persist_cart_total (body customer_id : value) (items stored : list value) (w : world) :
  readable body = true ->
  Forall (fun it => readable it = true) items ->
  records (carts_file w) = Some stored ->
  Forall (fun x => readable x = true) stored ->
  disk_writable w = true ->
  Z.abs (clock (snd (resolveCartId body w)) 1 + week) <= 8640000000000000 ->
  exists r w', persist_cart body customer_id (VArr items) w = (Ok r, w').
Proof.
  intros Hb Hitems Hrec Hstored Hdisk Hclip.
  destruct (resolveCartId_total body w Hb) as [c Hid].
  set (w1 := snd (resolveCartId body w)) in *.
  destruct (resolveCartId_files _ _ _ _ Hb Hid) as (_ & _ & Hd1).
  destruct (findIndex_total c stored 0 Hstored) as [i Hidx].
  destruct (normalize_items_total items Hitems) as [new_items Hmap].
  assert (Hread : await (readJsonOrEmpty CARTS_FILE) w = (Ok (VArr stored), w)).
  { simpl. destruct (carts_file w) as [ | | |v]; try discriminate.
    - injection Hrec as <-; reflexivity.
    - destruct v; try discriminate. injection Hrec as <-; reflexivity. }
  unfold persist_cart.
  rewrite (bind_step _ _ _ _ _ Hread).
  rewrite (bind_step _ _ _ _ _ Hid).
  unfold lift at 1. rewrite (bind_step _ _ _ w1 stored) by reflexivity.
  unfold lift at 1. rewrite (bind_step _ _ _ w1 i) by (f_equal; exact Hidx).
  rewrite (bind_step _ _ _ (tick w1) (clock w1 0)) by reflexivity.
  unfold lift at 1. rewrite (bind_step _ _ _ (tick w1) (iso_string (clock w1 0))) by reflexivity.
  rewrite (bind_step _ _ _ (tick (tick w1)) (clock w1 1)) by reflexivity.
  unfold lift at 1.
  rewrite (bind_step _ _ _ (tick (tick w1)) (iso_string (clock w1 1 + week))).
  2:{ unfold TimeClip. fold week. apply Z.leb_le in Hclip. rewrite Hclip. reflexivity. }
  unfold lift at 1. rewrite (bind_step _ _ _ (tick (tick w1)) new_items) by (f_equal; exact Hmap).
  assert (Hcreated : exists created_at,
    (if 0 <=? i
     then lift (get (nth (Z.to_nat i) stored VUndefined) "created_at")
     else ret (VStr (iso_string (clock w1 0)))) (tick (tick w1))
    = (Ok created_at, tick (tick w1))).
  { destruct (0 <=? i) eqn:Hi; [|eexists; reflexivity].
    apply findIndex_from_spec in Hidx
      as [[-> _] | (before & old & after & -> & -> & _ & Ho & _)]; [discriminate|].
    replace (Z.to_nat (0 + Z.of_nat (List.length before))) with (List.length before) by lia.
    rewrite nth_in_middle. rewrite (readable_get _ _ Ho). eexists; reflexivity. }
  destruct Hcreated as [created_at Hcreated].
  rewrite (bind_step _ _ _ _ _ Hcreated).
  match goal with
  | |- exists r w', bind (await (writeJson ?p ?d)) _ ?w0 = _ =>
      assert (Hwrite : await (writeJson p d) w0 = (Ok tt, write p (Document (JSON_roundtrip d)) w0))
  end.
  { simpl. rewrite Hd1, Hdisk. reflexivity. }
  rewrite (bind_step _ _ _ _ _ Hwrite).
  eexists; eexists; reflexivity.
Qed.

(** A valid submission is answered 200 or 201 when the storage is ready. *)
Lemma post_carts_accepts (req_body : value) (w : world) :
  valid_submission req_body w ->
  storage_ready req_body w ->
  status (fst (post_carts req_body w)) = 200 \/ status (fst (post_carts req_body w)) = 201.
Proof.
  intros (s & items & products & Hcid & Hs & Hitems & Hne & Hprod & Hval)
         ((stored & Hrec & Hstored) & _ & Hdisk & Hclip).
  pose proof (request_body_readable req_body) as Hb.
  destruct (persist_cart_total (request_body req_body) (VStr s) items stored w Hb
              (validate_items_readable _ _ _ _ _ Hval) Hrec Hstored Hdisk Hclip)
    as (r & w' & Hrun).
  assert (Hpost : post_carts req_body w = (r, w')).
  { unfold post_carts, try_catch. fold (request_body req_body).
    unfold lift at 1.
    rewrite (bind_step _ _ _ w (VStr s)) by (rewrite (readable_get _ _ Hb), Hcid; reflexivity).
    change (is_string (VStr s)) with true. change (chars (VStr s)) with s.
    apply String.eqb_neq in Hs. rewrite Hs.
    assert (Ht : truthy (VStr s) = true).
    { simpl. destruct s; [discriminate | reflexivity]. }
    rewrite Ht. cbn [negb orb].
    unfold lift at 1.
    rewrite (bind_step _ _ _ w (VArr items)) by (rewrite (readable_get _ _ Hb), Hitems; reflexivity).
    cbn [isArray elements negb orb].
    assert (Hlen : (Z.of_nat (List.length items) =? 0) = false).
    { destruct items; [congruence | reflexivity]. }
    rewrite Hlen.
    rewrite (bind_step _ _ _ _ _ Hprod).
    unfold lift at 1.
    rewrite (bind_step _ _ _ w []) by (rewrite Hval; reflexivity).
    change (truthy (len [])) with false. cbv iota.
    rewrite Hrun. reflexivity. }
  rewrite Hpost. simpl. apply persist_cart_status in Hrun. exact Hrun.
Qed.

(** C5: a submission that is answered 400 leaves the cart store (and the
    rest of the world) as it was: nothing is written. *)
Theorem rejected_submission_writes_nothing (req_body : value) (w w' : world) (r : response) :
  post_carts req_body w = (r, w') ->
  status r = 400 ->
  carts_file w' = carts_file w /\ w' = w.
Proof.
  intros Hrun H400.
  assert (Hw : snd (post_carts req_body w) = w)
    by (apply post_carts_rejected; rewrite Hrun; exact H400).
  rewrite Hrun in Hw. simpl in Hw. subst w'. split; reflexivity.
Qed.

Lemma rejected_submission_writes_nothing_witness :
  carts_file (snd (post_carts unknown_product_request stocked_world)) = carts_file stocked_world
  /\ snd (post_carts unknown_product_request stocked_world) = stocked_world.
Proof.
  apply (rejected_submission_writes_nothing unknown_product_request stocked_world _
           (fst (post_carts unknown_product_request stocked_world))).
  - reflexivity.
  - reflexivity.
Defined.

Lemma has_cart_id_field (c : string) (v : value) :
  has_cart_id c v = true <-> field v "cart_id" = VStr c.
Proof.
  unfold has_cart_id. destruct (field v "cart_id"); simpl; split; try discriminate.
  - intros H. apply String.eqb_eq in H. congruence.
  - intros [= ->]. apply String.eqb_refl.
Qed.

Lemma cart_ids_app (a b : list value) : cart_ids (a ++ b) = (cart_ids a ++ cart_ids b)%list.
Proof. apply flat_map_app. Qed.

Lemma cart_ids_one (c : string) (v : value) :
  has_cart_id c v = true -> cart_ids [v] = [c].
Proof.
  intros H. apply has_cart_id_field in H. unfold cart_ids. simpl. rewrite H. reflexivity.
Qed.

Lemma cart_ids_absent (c : string) (l : list value) :
  Forall (fun x => has_cart_id c x = false) l -> ~ In c (cart_ids l).
Proof.
  induction 1 as [|x l Hx _ IH]; simpl; [tauto|].
  intros Hin. apply in_app_or in Hin as [Hin | Hin]; [|tauto].
  destruct (field x "cart_id") eqn:Hf; simpl in Hin; try tauto.
  destruct Hin as [-> | []].
  apply has_cart_id_field in Hf. congruence.
Qed.

Lemma other_carts_absent (c : string) (l : list value) :
  Forall (other_cart c) l -> Forall (fun x => has_cart_id c x = false) l.
Proof. apply Forall_impl. intros x [_ H]. exact H. Qed.

Lemma other_carts_readable (c : string) (l : list value) :
  Forall (other_cart c) l -> Forall (fun x => readable x = true) l.
Proof. apply Forall_impl. intros x [H _]. exact H. Qed.

Lemma cart_ids_none (c : string) (l : list value) :
  ~ In c (cart_ids l) -> Forall (fun x => has_cart_id c x = false) l.
Proof.
  induction l as [|x l IH]; intros Hnot; constructor.
  - destruct (has_cart_id c x) eqn:Hx; [exfalso | reflexivity].
    apply Hnot. change (x :: l) with ([x] ++ l)%list.
    rewrite cart_ids_app, (cart_ids_one _ _ Hx). left; reflexivity.
  - apply IH. intros Hin. apply Hnot.
    change (x :: l) with ([x] ++ l)%list. rewrite cart_ids_app.
    apply in_or_app; right; exact Hin.
Qed.

Lemma filter_none (c : string) (l : list value) :
  Forall (fun x => has_cart_id c x = false) l -> List.filter (has_cart_id c) l = [].
Proof.
  induction 1 as [|x l Hx _ IH]; simpl; [reflexivity|]. rewrite Hx; exact IH.
Qed.

(** C6: a submission answered 200 or 201 keeps the cart identifiers of
    the store distinct, and afterwards the one record of the resolved
    identifier is the record built from the request (lines 137-145).  When
    a stored record has the identifier, it is replaced where it stands by
    that record, which keeps its [created_at], and the answer is 200;
    otherwise the record is appended and the answer is 201. *)
Theorem upsert_keeps_cart_ids_distinct (req_body : value) (w w' : world) (r : response)
    (stored : list value) :
  post_carts req_body w = (r, w') ->
  status r = 200 \/ status r = 201 ->
  json_file (carts_file w) ->
  records (carts_file w) = Some stored ->
  NoDup (cart_ids stored) ->
  exists c s items created_at stored',
    let cart := JSON_roundtrip
                  (newCart c (VStr s) items created_at
                     (iso_string (createdAt_reading req_body w))
                     (iso_string (expiresAt_reading req_body w + week))) in
    resolved_cart_id req_body w = Ok c /\
    field (request_body req_body) "customer_id" = VStr s /\
    map normalize_item (elements (field (request_body req_body) "items")) = Ok items /\
    has_cart_id c cart = true /\
    records (carts_file w') = Some stored' /\
    NoDup (cart_ids stored') /\
    List.filter (has_cart_id c) stored' = [cart] /\
    ((exists before old after,
        stored = (before ++ old :: after)%list /\ has_cart_id c old = true /\
        Forall (fun x => has_cart_id c x = false) before /\
        created_at = field old "created_at" /\
        stored' = (before ++ cart :: after)%list /\
        status r = 200)
     \/ (Forall (fun x => has_cart_id c x = false) stored /\
         created_at = VStr (iso_string (createdAt_reading req_body w)) /\
         stored' = (stored ++ [cart])%list /\
         status r = 201)).
Proof.
  intros Hrun Hok Hjson Hrec Hnodup.
  destruct (post_carts_stored _ _ _ _ Hrun Hok Hjson)
    as (s & items & stored0 & c & i & created_at & H).
  cbv zeta in H.
  destruct H as (Hs & _ & Hmap & Hrec0 & Hid & -> & _ & _ & _ & Hcases).
  rewrite Hrec in Hrec0. injection Hrec0 as <-.
  exists c, s, items, created_at.
  assert (Hcart : has_cart_id c
                    (JSON_roundtrip
                       (newCart c (VStr s) items created_at
                          (iso_string (createdAt_reading req_body w))
                          (iso_string (expiresAt_reading req_body w + week)))) = true).
  { apply has_cart_id_field. apply stored_fields. }
  set (cart := JSON_roundtrip (newCart _ _ _ _ _ _)) in *. clearbody cart.
  destruct Hcases as [(-> & Hall & Hcreated & Hrec')
                     |(before & old & after & Hi & -> & Hb & _ & Hold & Hcreated & Hrec')].
  - exists (stored ++ [cart])%list. cbv zeta.
    pose proof (other_carts_absent _ _ Hall) as Hnone.
    split; [exact Hid|]. split; [exact Hs|]. split; [exact Hmap|]. split; [exact Hcart|].
    split; [exact Hrec'|]. split; [|split].
    + rewrite cart_ids_app, (cart_ids_one _ _ Hcart).
      apply (NoDup_Add (a := c) (l := cart_ids stored)).
      * rewrite <- (app_nil_r (cart_ids stored)) at 1. apply Add_app.
      * split; [exact Hnodup | apply cart_ids_absent, Hnone].
    + rewrite List.filter_app, (filter_none _ _ Hnone). cbn [List.filter app].
      rewrite Hcart. reflexivity.
    + right. split; [exact Hnone|]. split; [exact Hcreated|]. split; reflexivity.
  - exists (before ++ cart :: after)%list. cbv zeta.
    pose proof (other_carts_absent _ _ Hb) as Hnone.
    assert (Hids : cart_ids (before ++ old :: after)
                   = (cart_ids before ++ [c] ++ cart_ids after)%list).
    { change (old :: after) with ([old] ++ after)%list.
      rewrite !cart_ids_app, (cart_ids_one _ _ Hold). reflexivity. }
    assert (Hafter : Forall (fun x => has_cart_id c x = false) after).
    { apply cart_ids_none. rewrite Hids in Hnodup.
      apply NoDup_remove_2 in Hnodup. intros Hin. apply Hnodup.
      apply in_or_app; right; exact Hin. }
    split; [exact Hid|]. split; [exact Hs|]. split; [exact Hmap|]. split; [exact Hcart|].
    split; [exact Hrec'|]. split; [|split].
    + change (cart :: after) with ([cart] ++ after)%list.
      rewrite !cart_ids_app, (cart_ids_one _ _ Hcart). rewrite <- Hids. exact Hnodup.
    + rewrite List.filter_app, (filter_none _ _ Hnone). cbn [List.filter app].
      rewrite Hcart, (filter_none _ _ Hafter). reflexivity.
    + left. exists before, old, after.
      split; [reflexivity|]. split; [exact Hold|]. split; [exact Hnone|].
      split; [exact Hcreated|]. split; [reflexivity|].
      unfold accepted; simpl. apply Z.leb_le in Hi. rewrite Hi. reflexivity.
Qed.

Lemma upsert_keeps_cart_ids_distinct_witness :
  exists c s items created_at stored',
    let cart := JSON_roundtrip
                  (newCart c (VStr s) items created_at
                     (iso_string (createdAt_reading bob_request stocked_world))
                     (iso_string (expiresAt_reading bob_request stocked_world + week))) in
    resolved_cart_id bob_request stocked_world = Ok c /\
    field (request_body bob_request) "customer_id" = VStr s /\
    map normalize_item (elements (field (request_body bob_request) "items")) = Ok items /\
    has_cart_id c cart = true /\
    records (carts_file (snd (post_carts bob_request stocked_world))) = Some stored' /\
    NoDup (cart_ids stored') /\
    List.filter (has_cart_id c) stored' = [cart] /\
    ((exists before old after,
        [alice_cart] = (before ++ old :: after)%list /\ has_cart_id c old = true /\
        Forall (fun x => has_cart_id c x = false) before /\
        created_at = field old "created_at" /\
        stored' = (before ++ cart :: after)%list /\
        status (fst (post_carts bob_request stocked_world)) = 200)
     \/ (Forall (fun x => has_cart_id c x = false) [alice_cart] /\
         created_at = VStr (iso_string (createdAt_reading bob_request stocked_world)) /\
         stored' = ([alice_cart] ++ [cart])%list /\
         status (fst (post_carts bob_request stocked_world)) = 201)).
Proof.
  apply (upsert_keeps_cart_ids_distinct bob_request stocked_world
           (snd (post_carts bob_request stocked_world))
           (fst (post_carts bob_request stocked_world)) [alice_cart]).
  - reflexivity.
  - left; reflexivity.
  - reflexivity.
  - reflexivity.
  - repeat constructor. simpl. tauto.
Defined.



(** The cart of [alice] ends up as a cart of [bob]. *)
Example bob_takes_over_the_cart_of_alice :
  exists cart,
    records (carts_file (snd (post_carts bob_request stocked_world))) = Some [cart]
    /\ field cart "cart_id" = VStr "C-1"
    /\ field cart "customer_id" = VStr "bob"
    /\ field cart "created_at" = field alice_cart "created_at".
Proof. eexists. repeat split. Qed.

(** The first element with a property is where it is. *)
Lemma first_match_unique {A} (P : A -> bool) (l1 l1' l2 l2' : list A) (x x' : A) :
  (l1 ++ x :: l2 = l1' ++ x' :: l2')%list ->
  Forall (fun y => P y = false) l1 -> P x = true ->
  Forall (fun y => P y = false) l1' -> P x' = true ->
  l1 = l1' /\ x = x' /\ l2 = l2'.
Proof.
  revert l1'. induction l1 as [|a l1 IH]; intros [|a' l1'] Heq H1 Hx H1' Hx'; simpl in Heq.
  - injection Heq as -> ->. auto.
  - injection Heq as -> _. inversion H1'; congruence.
  - injection Heq as -> _. inversion H1; congruence.
  - injection Heq as -> Heq. inversion H1; inversion H1'; subst.
    destruct (IH _ Heq) as (-> & -> & ->); auto.
Qed.

Lemma filter_absent (c : string) (l : list value) :
  Forall (fun x => has_cart_id c x = false) l -> List.filter (has_cart_id c) l = [].
Proof. induction 1 as [|x l Hx _ IH]; simpl; [reflexivity | now rewrite Hx]. Qed.

(** C1, as amended: two valid submissions that resolve to the same cart
    identifier [c], the first made when no stored record has [c].  The
    first is answered 201 and the second 200, both with [c]; afterwards
    the store holds exactly one record of cart [c], whose [created_at] is
    the timestamp of the first submission and whose [updated_at] and
    [expires_at] are those of the second. *)
Theorem resubmission_updates_one_record (req1 req2 : value) (w0 w1 w2 : world)
    (r1 r2 : response) (c : string) (stored0 : list value) :
  valid_submission req1 w0 ->
  storage_ready req1 w0 ->
  records (carts_file w0) = Some stored0 ->
  resolved_cart_id req1 w0 = Ok c ->
  Forall (fun x => has_cart_id c x = false) stored0 ->
  post_carts req1 w0 = (r1, w1) ->
  valid_submission req2 w1 ->
  Z.abs (expiresAt_reading req2 w1 + week) <= 8640000000000000 ->
  resolved_cart_id req2 w1 = Ok c ->
  post_carts req2 w1 = (r2, w2) ->
  status r1 = 201 /\ field (body r1) "cart_id" = VStr c /\
  status r2 = 200 /\ field (body r2) "cart_id" = VStr c /\
  exists cart,
    records (carts_file w2) = Some (stored0 ++ [cart])%list /\
    List.filter (has_cart_id c) (stored0 ++ [cart]) = [cart] /\
    field cart "created_at" = VStr (iso_string (createdAt_reading req1 w0)) /\
    field cart "updated_at" = VStr (iso_string (createdAt_reading req2 w1)) /\
    field cart "expires_at" = VStr (iso_string (expiresAt_reading req2 w1 + week)).
Proof.
  intros Hv1 Hs1 Hrec0 Hc1 Hfresh Hrun1 Hv2 Hclip2 Hc2 Hrun2.
  (* the first submission appends the record *)
  assert (Hok1 : status r1 = 200 \/ status r1 = 201).
  { generalize (post_carts_accepts _ _ Hv1 Hs1). rewrite Hrun1. exact (fun H => H). }
  destruct Hs1 as (_ & Hjson0 & Hdisk0 & _).
  destruct (post_carts_stored _ _ _ _ Hrun1 Hok1 Hjson0)
    as (s1 & items1 & st & c1 & i1 & created1 & H).
  cbv zeta in H.
  destruct H as (_ & _ & _ & Hst & Hid1 & -> & Hprod1 & Hd1 & _ & Hcases1).
  rewrite Hrec0 in Hst. injection Hst as <-.
  rewrite Hc1 in Hid1. injection Hid1 as <-.
  destruct Hcases1 as [(-> & Hall0 & -> & Hrec1)
                      | (before & old & after & _ & -> & _ & _ & Hold & _)].
  2:{ rewrite Forall_forall in Hfresh.
      rewrite (Hfresh old) in Hold by (apply in_or_app; right; left; reflexivity).
      discriminate. }
  match type of Hrec1 with context [Some (_ ++ [?x])%list] => set (cart1 := x) in * end.
  destruct (stored_fields c s1 items1 (VStr (iso_string (createdAt_reading req1 w0)))
              (iso_string (createdAt_reading req1 w0))
              (iso_string (expiresAt_reading req1 w0 + week)))
    as (Hid1 & _ & _ & _ & _ & Hcreated1 & Hread1).
  fold cart1 in Hid1, Hcreated1, Hread1.
  apply has_cart_id_field in Hid1.
  (* the store is ready for the second one *)
  assert (Hjson1 : json_file (carts_file w1)).
  { destruct (carts_file w1) as [ | | |v]; simpl; auto.
    destruct v; try discriminate. injection Hrec1 as ->.
    change (forallb json (stored0 ++ [cart1]) = true).
    rewrite forallb_app. rewrite (records_json _ _ Hjson0 Hrec0).
    cbn [forallb andb]. rewrite andb_true_r.
    unfold cart1. apply json_roundtrip. discriminate. }
  assert (Hs2 : storage_ready req2 w1).
  { split; [|split; [exact Hjson1 | split; [congruence | exact Hclip2]]].
    exists (stored0 ++ [cart1])%list. split; [exact Hrec1|].
    apply Forall_app. split; [apply (other_carts_readable c), Hall0 | repeat constructor; exact Hread1]. }
  assert (Hok2 : status r2 = 200 \/ status r2 = 201).
  { generalize (post_carts_accepts _ _ Hv2 Hs2). rewrite Hrun2. exact (fun H => H). }
  (* the second submission replaces it *)
  destruct (post_carts_stored _ _ _ _ Hrun2 Hok2 Hjson1)
    as (s2 & items2 & st & c2 & i2 & created2 & H).
  cbv zeta in H.
  destruct H as (_ & _ & _ & Hst & Hid2 & -> & _ & _ & _ & Hcases2).
  rewrite Hrec1 in Hst. injection Hst as <-.
  rewrite Hc2 in Hid2. injection Hid2 as <-.
  destruct Hcases2 as [(_ & Hall1 & _)
                      | (before & old & after & Hi2 & Hsplit & Hb & _ & Hold & -> & Hrec2)].
  { apply Forall_app in Hall1 as [_ Hall1]. inversion Hall1 as [|? ? [_ Hx] _]; subst.
    congruence. }
  change [cart1] with (cart1 :: [])%list in Hsplit.
  destruct (first_match_unique (has_cart_id c) _ _ _ _ _ _ Hsplit
              Hfresh Hid1 (other_carts_absent _ _ Hb) Hold) as (<- & <- & <-).
  match type of Hrec2 with context [Some (_ ++ ?x :: [])%list] => set (cart2 := x) in * end.
  destruct (stored_fields c s2 items2 (field cart1 "created_at")
              (iso_string (createdAt_reading req2 w1))
              (iso_string (expiresAt_reading req2 w1 + week)))
    as (Hf1 & _ & _ & Hf4 & Hf5 & Hf6 & _).
  fold cart2 in Hf1, Hf4, Hf5, Hf6.
  apply Z.leb_le in Hi2.
  split; [reflexivity|]. split; [reflexivity|].
  split; [unfold accepted; simpl; rewrite Hi2; reflexivity|].
  split; [reflexivity|].
  exists cart2. split; [exact Hrec2|]. split; [|split; [|split]].
  - rewrite filter_app, (filter_absent _ _ Hfresh). cbn [List.filter app].
    apply has_cart_id_field in Hf1. rewrite Hf1. reflexivity.
  - apply Hf6. apply Hcreated1. reflexivity.
  - exact Hf4.
  - exact Hf5.
Qed.

Lemma resubmission_updates_one_record_witness :
  let w1 := snd (post_carts plain_request fresh_world) in
  let r1 := fst (post_carts plain_request fresh_world) in
  let w2 := snd (post_carts follow_up_request w1) in
  let r2 := fst (post_carts follow_up_request w1) in
  status r1 = 201 /\ field (body r1) "cart_id" = VStr "CART-20231114-5500" /\
  status r2 = 200 /\ field (body r2) "cart_id" = VStr "CART-20231114-5500" /\
  exists cart,
    records (carts_file w2) = Some ([] ++ [cart])%list /\
    List.filter (has_cart_id "CART-20231114-5500") ([] ++ [cart]) = [cart] /\
    field cart "created_at" = VStr (iso_string (createdAt_reading plain_request fresh_world)) /\
    field cart "updated_at" = VStr (iso_string (createdAt_reading follow_up_request w1)) /\
    field cart "expires_at"
    = VStr (iso_string (expiresAt_reading follow_up_request w1 + week)).
Proof.
  intros w1 r1 w2 r2.
  apply (resubmission_updates_one_record plain_request follow_up_request
           fresh_world w1 w2 r1 r2 "CART-20231114-5500" []).
  - exists "u1", [item 1 2], (VArr [product 1 "soap"; product 2 "towel"]).
    repeat split; try reflexivity; intros H; vm_compute in H; discriminate H.
  - split; [exists []; split; [reflexivity | constructor] |].
    split; [exact I|]. split; [reflexivity|]. vm_compute. discriminate.
  - reflexivity.
  - reflexivity.
  - constructor.
  - reflexivity.
  - exists "u1", [item 1 2], (VArr [product 1 "soap"; product 2 "towel"]).
    repeat split; try reflexivity; intros H; vm_compute in H; discriminate H.
  - vm_compute. discriminate.
  - reflexivity.
  - reflexivity.
Defined.

(** C1 as stated fails when the cart is already in the store: submitted
    twice, the saved cart of [u1] is answered 200 both times and keeps the
    creation date it had. *)
Lemma resubmission_of_a_stored_cart :
  valid_submission follow_up_request saved_world
  /\ storage_ready follow_up_request saved_world
  /\ valid_submission follow_up_request (snd (post_carts follow_up_request saved_world))
  /\ status (fst (post_carts follow_up_request saved_world)) = 200
  /\ ~ resubmission_claim follow_up_request follow_up_request saved_world.
Proof.
  split; [|split; [|split; [|split]]].
  - exists "u1", [item 1 2], (VArr [product 1 "soap"; product 2 "towel"]).
    repeat split; try reflexivity; intros H; vm_compute in H; discriminate H.
  - split; [exists [saved_cart]; split; [reflexivity | repeat constructor] |].
    split; [reflexivity|]. split; [reflexivity|]. vm_compute. discriminate.
  - exists "u1", [item 1 2], (VArr [product 1 "soap"; product 2 "towel"]).
    repeat split; try reflexivity; intros H; vm_compute in H; discriminate H.
  - reflexivity.
  - intros H. destruct (H "CART-20231114-5500" eq_refl eq_refl) as [H201 _].
    vm_compute in H201. discriminate H201.
Qed.

Lemma filter_customer (q : query_value) (l : list value) :
  Forall (fun x => readable x = true) l ->
  filter (fun c => let? cid := get c "customer_id" in Ok (eq_query cid q)) l
  = Ok (List.filter (belongs_to q) l).
Proof.
  induction 1 as [|x l Hx _ IH]; simpl; [reflexivity|].
  rewrite (readable_get _ _ Hx). simpl. rewrite IH. simpl.
  fold (belongs_to q x). destruct (belongs_to q x); reflexivity.
Qed.

Lemma get_carts_filter (q : query_value) (w : world) (l : list value) :
  query_truthy q = true ->
  records (carts_file w) = Some l ->
  Forall (fun x => readable x = true) l ->
  get_carts q w = (carts_found (List.filter (belongs_to q) l), w).
Proof.
  intros Hq Hrec Hl.
  assert (Hread : await (readJsonOrEmpty CARTS_FILE) w = (Ok (VArr l), w)).
  { simpl. destruct (carts_file w) as [ | | |v]; try discriminate.
    - injection Hrec as <-; reflexivity.
    - destruct v; try discriminate. injection Hrec as <-; reflexivity. }
  unfold get_carts, try_catch. rewrite Hq. cbn [negb].
  rewrite (bind_step _ _ _ _ _ Hread).
  unfold lift, array_receiver, obind at 1. rewrite (filter_customer _ _ Hl).
  reflexivity.
Qed.

(** C10: the customer identifier is checked after trimming and stored as
    sent.  A valid submission whose [customer_id] has white space around
    it is accepted, the stored record carries the identifier with its
    white space, and [GET /carts] with the trimmed identifier answers 200
    with the stored carts that have exactly that identifier: the record
    just stored is not among them. *)
Theorem padded_customer_id_is_not_found_again (req_body : value) (w w' : world)
    (r : response) (s : string) :
  valid_submission req_body w ->
  storage_ready req_body w ->
  field (request_body req_body) "customer_id" = VStr s ->
  s <> trim s ->
  post_carts req_body w = (r, w') ->
  (status r = 201 \/ status r = 200) /\
  exists c stored' cart,
    field (body r) "cart_id" = VStr c /\
    records (carts_file w') = Some stored' /\
    In cart stored' /\
    field cart "cart_id" = VStr c /\
    field cart "customer_id" = VStr s /\
    get_carts (QStr (trim s)) w'
    = (carts_found (List.filter (belongs_to (QStr (trim s))) stored'), w') /\
    ~ In cart (List.filter (belongs_to (QStr (trim s))) stored').
Proof.
  intros Hv Hs Hcid Hpad Hrun.
  assert (Hok : status r = 200 \/ status r = 201).
  { generalize (post_carts_accepts _ _ Hv Hs). rewrite Hrun. exact (fun H => H). }
  split; [tauto|].
  destruct Hs as ((st & Hst & Hreadable) & Hjson & _ & _).
  destruct (post_carts_stored _ _ _ _ Hrun Hok Hjson)
    as (s0 & items & stored & c & i & created_at & H).
  cbv zeta in H.
  destruct H as (Hs0 & Hblank & _ & Hrec & _ & -> & _ & _ & _ & Hcases).
  rewrite Hcid in Hs0. injection Hs0 as <-.
  rewrite Hst in Hrec. injection Hrec as <-.
  match type of Hcases with context [Some (_ ++ [?x])%list] => set (cart := x) in * end.
  destruct (stored_fields c s items created_at
              (iso_string (createdAt_reading req_body w))
              (iso_string (expiresAt_reading req_body w + week)))
    as (Hf1 & Hf2 & _ & _ & _ & _ & Hread).
  fold cart in Hf1, Hf2, Hread.
  assert (Hq : query_truthy (QStr (trim s)) = true).
  { simpl. apply negb_true_iff. apply String.eqb_neq. exact Hblank. }
  assert (Hnot : forall l, ~ In cart (List.filter (belongs_to (QStr (trim s))) l)).
  { intros l Hin. apply filter_In in Hin as [_ Hin].
    unfold belongs_to in Hin. rewrite Hf2 in Hin. simpl in Hin.
    apply String.eqb_eq in Hin. contradiction. }
  exists c.
  destruct Hcases as [(_ & _ & _ & Hrec') | (before & old & after & _ & -> & _ & _ & _ & _ & Hrec')].
  - exists (st ++ [cart])%list, cart. repeat split; try assumption; try apply Hnot.
    + apply in_or_app; right; left; reflexivity.
    + apply get_carts_filter; try assumption.
      apply Forall_app. split; [assumption | repeat constructor; assumption].
  - exists (before ++ cart :: after)%list, cart. repeat split; try assumption; try apply Hnot.
    + apply in_or_app; right; left; reflexivity.
    + apply get_carts_filter; try assumption.
      apply Forall_app in Hreadable as [Hb Ha]. inversion Ha; subst.
      apply Forall_app. split; [assumption | constructor; assumption].
Qed.

Lemma padded_customer_id_is_not_found_again_witness :
  let r := fst (post_carts padded_request fresh_world) in
  let w' := snd (post_carts padded_request fresh_world) in
  (status r = 201 \/ status r = 200) /\
  exists c stored' cart,
    field (body r) "cart_id" = VStr c /\
    records (carts_file w') = Some stored' /\
    In cart stored' /\
    field cart "cart_id" = VStr c /\
    field cart "customer_id" = VStr " u1 " /\
    get_carts (QStr (trim " u1 ")) w'
    = (carts_found (List.filter (belongs_to (QStr (trim " u1 "))) stored'), w') /\
    ~ In cart (List.filter (belongs_to (QStr (trim " u1 "))) stored').
Proof.
  intros r w'.
  apply (padded_customer_id_is_not_found_again padded_request fresh_world w' r " u1 ").
  - exists " u1 ", [item 1 2], (VArr [product 1 "soap"; product 2 "towel"]).
    repeat split; try reflexivity; intros H; vm_compute in H; discriminate H.
  - split; [exists []; split; [reflexivity | constructor] |].
    split; [exact I|]. split; [reflexivity|]. vm_compute. discriminate.
  - reflexivity.
  - intros H; vm_compute in H; discriminate H.
  - reflexivity.
Defined.

(** The padded cart is stored, and asking for the carts of [u1] finds none. *)
Example padded_round_trip :
  let w' := snd (post_carts padded_request fresh_world) in
  status (fst (post_carts padded_request fresh_world)) = 201
  /\ fst (get_carts (QStr "u1") w') = carts_found []
  /\ exists cart, fst (get_carts (QStr " u1 ") w') = carts_found [cart].
Proof. repeat split. eexists. reflexivity. Qed.

(** The record that an accepted request has written: the first one of
    its cart in the store. *)
Lemma post_carts_writes (req_body : value) (w w' : world) (r : response) :
  post_carts req_body w = (r, w') ->
  status r = 200 \/ status r = 201 ->
  json_file (carts_file w) ->
  exists c s items created_at before after,
    let cart := JSON_roundtrip
                  (newCart c (VStr s) items created_at
                     (iso_string (createdAt_reading req_body w))
                     (iso_string (expiresAt_reading req_body w + week))) in
    resolved_cart_id req_body w = Ok c /\
    field (body r) "cart_id" = VStr c /\
    records (carts_file w') = Some (before ++ cart :: after)%list /\
    Forall (fun x => has_cart_id c x = false) before /\
    Z.abs (expiresAt_reading req_body w + week) <= 8640000000000000.
Proof.
  intros Hrun Hok Hjson.
  destruct (post_carts_stored _ _ _ _ Hrun Hok Hjson)
    as (s & items & stored & c & i & created_at & H).
  cbv zeta in H.
  destruct H as (_ & _ & _ & _ & Hid & -> & _ & _ & Hclip & Hcases).
  exists c, s, items, created_at.
  destruct Hcases as [(_ & Hall & _ & Hrec') | (before & old & after & _ & _ & Hb & _ & _ & _ & Hrec')].
  - exists stored, []. repeat split; try assumption. apply other_carts_absent, Hall.
  - exists before, after. repeat split; try assumption. apply other_carts_absent, Hb.
Qed.

(** C4, as amended: the record that an accepted submission writes has
    for [updated_at] the clock reading of line 134 and for [expires_at]
    the clock reading of line 135 plus seven days.  The two dates are
    seven days apart when the two readings agree. *)
Theorem expiry_is_a_week_after_the_second_reading (req_body : value) (w w' : world)
    (r : response) :
  post_carts req_body w = (r, w') ->
  status r = 200 \/ status r = 201 ->
  json_file (carts_file w) ->
  Z.abs (createdAt_reading req_body w) <= 8640000000000000 ->
  exists c cart before after,
    field (body r) "cart_id" = VStr c /\
    records (carts_file w') = Some (before ++ cart :: after)%list /\
    Forall (fun x => has_cart_id c x = false) before /\
    field cart "cart_id" = VStr c /\
    Date_parse (chars (field cart "updated_at")) = Some (createdAt_reading req_body w) /\
    Date_parse (chars (field cart "expires_at"))
    = Some (expiresAt_reading req_body w + week) /\
    (expiresAt_reading req_body w = createdAt_reading req_body w ->
     expires_a_week_after_update cart).
Proof.
  intros Hrun Hok Hjson Hclock.
  destruct (post_carts_writes _ _ _ _ Hrun Hok Hjson)
    as (c & s & items & created_at & before & after & H).
  cbv zeta in H. destruct H as (_ & Hr & Hrec & Hb & Hclip).
  match type of Hrec with context [(_ ++ ?x :: _)%list] => set (cart := x) in * end.
  destruct (stored_fields c s items created_at
              (iso_string (createdAt_reading req_body w))
              (iso_string (expiresAt_reading req_body w + week)))
    as (Hf1 & _ & _ & Hf4 & Hf5 & _).
  fold cart in Hf1, Hf4, Hf5.
  assert (Hu : Date_parse (chars (field cart "updated_at")) = Some (createdAt_reading req_body w)).
  { rewrite Hf4. apply Date_parse_iso_string, Hclock. }
  assert (He : Date_parse (chars (field cart "expires_at"))
               = Some (expiresAt_reading req_body w + week)).
  { rewrite Hf5. apply Date_parse_iso_string, Hclip. }
  exists c, cart, before, after. repeat split; try assumption.
  intros Heq. exists (createdAt_reading req_body w), (expiresAt_reading req_body w + week).
  repeat split; try assumption. lia.
Qed.

Lemma expiry_is_a_week_after_the_second_reading_witness :
  exists c cart before after,
    field (body (fst (post_carts plain_request steady_world))) "cart_id" = VStr c /\
    records (carts_file (snd (post_carts plain_request steady_world)))
    = Some (before ++ cart :: after)%list /\
    Date_parse (chars (field cart "updated_at")) = Some 1700000000000 /\
    Date_parse (chars (field cart "expires_at")) = Some (1700000000000 + week) /\
    expires_a_week_after_update cart.
Proof.
  destruct (expiry_is_a_week_after_the_second_reading plain_request steady_world
              (snd (post_carts plain_request steady_world))
              (fst (post_carts plain_request steady_world)))
    as (c & cart & before & after & Hr & Hrec & _ & _ & Hu & He & Hweek).
  - reflexivity.
  - right; reflexivity.
  - exact I.
  - vm_compute. discriminate.
  - exists c, cart, before, after. repeat split; try assumption.
    apply Hweek. reflexivity.
Defined.

(** C4 as stated fails when the clock advances between lines 134 and
    135: with a clock that gains a millisecond per reading, the stored
    record expires seven days and one millisecond after its update. *)
Lemma expiry_drifts_from_update :
  exists cart,
    records (carts_file (snd (post_carts plain_request fresh_world))) = Some [cart]
    /\ ~ expires_a_week_after_update cart.
Proof.
  eexists. split; [reflexivity|].
  intros (u & e & Hu & He & Heq).
  vm_compute in Hu, He. injection Hu as <-. injection He as <-. discriminate Heq.
Qed.

(** C7 as stated fails for an identifier with white space around it: the
    request sends [" my-cart "] and is answered with ["my-cart"]. *)
Lemma padded_cart_id_is_not_kept :
  ~ cart_id_kept_verbatim padded_cart_request fresh_world.
Proof.
  intros H. specialize (H " my-cart " eq_refl).
  assert (Hne : trim " my-cart " <> "") by (intros E; vm_compute in E; discriminate E).
  specialize (H Hne). vm_compute in H. discriminate H.
Qed.

(** C7, as amended: the record written by an accepted submission and the
    response carry the same cart identifier.  It is the supplied
    [cart_id] with the white space around it removed, when that is a
    string and not blank.  Otherwise it is the generated one, which for a
    clock reading in the years 0 to 9999 and a random number that is a
    double in [0, 1) reads [CART-YYYYMMDD-NNNN]: the UTC date of the
    reading, and the four digits of [Math.floor(random * 9000) + 1000],
    the product being rounded to a double, a number from 1000 to 9999. *)
Theorem cart_id_is_trimmed_or_generated (req_body : value) (w w' : world) (r : response) :
  post_carts req_body w = (r, w') ->
  status r = 200 \/ status r = 201 ->
  json_file (carts_file w) ->
  exists c cart before after,
    field (body r) "cart_id" = VStr c /\
    records (carts_file w') = Some (before ++ cart :: after)%list /\
    Forall (fun x => has_cart_id c x = false) before /\
    field cart "cart_id" = VStr c /\
    ((exists s, field (request_body req_body) "cart_id" = VStr s /\ trim s <> ""
                /\ c = trim s)
     \/
     ((forall s, field (request_body req_body) "cart_id" = VStr s -> trim s = "") /\
      c = generated_id (clock w 0) (random w 0) /\
      (0 <= YearFromTime (clock w 0) <= 9999 ->
       is_double (random w 0) -> (0 <= random w 0)%Q -> (random w 0 < 1)%Q ->
       let t := clock w 0 in
       exists n,
         plus (Math_floor (times (Fin (random w 0)) (num 9000))) (num 1000) = num n /\
         1000 <= n <= 9999 /\
         c = "CART-" ++ pad4 (YearFromTime t) ++ pad2 (MonthFromTime t + 1)
             ++ pad2 (DateFromTime t) ++ "-" ++ pad4 n))).
Proof.
  intros Hrun Hok Hjson.
  destruct (post_carts_writes _ _ _ _ Hrun Hok Hjson)
    as (c & s & items & created_at & before & after & H).
  cbv zeta in H. destruct H as (Hid & Hr & Hrec & Hb & _).
  match type of Hrec with context [(_ ++ ?x :: _)%list] => set (cart := x) in * end.
  destruct (stored_fields c s items created_at
              (iso_string (createdAt_reading req_body w))
              (iso_string (expiresAt_reading req_body w + week)))
    as (Hf1 & _).
  fold cart in Hf1.
  exists c, cart, before, after. repeat split; try assumption.
  unfold resolved_cart_id in Hid.
  destruct (resolveCartId_cases (request_body req_body) w (request_body_readable req_body))
    as [(s0 & Hs0 & Hne & Hres) | [Hnone Hres]]; rewrite Hres in Hid; injection Hid as <-.
  - left. exists s0. auto.
  - right. split; [exact Hnone|]. split; [reflexivity|].
    intros Hyear Hd H0 H1 t.
    destruct (random_suffix _ Hd H0 H1) as (n & Hn & Hrange).
    exists n. split; [exact Hn|]. split; [exact Hrange|].
    unfold generated_id. fold t. rewrite Hn.
    rewrite (iso_date_digits t Hyear).
    unfold integer_ToString, num. rewrite Qfloor_Z, (four_digits n Hrange).
    unfold pad4, pad3, pad2. reflexivity.
Qed.

Lemma cart_id_is_trimmed_or_generated_witness :
  exists c cart before after,
    field (body (fst (post_carts padded_cart_request fresh_world))) "cart_id" = VStr c /\
    records (carts_file (snd (post_carts padded_cart_request fresh_world)))
    = Some (before ++ cart :: after)%list /\
    field cart "cart_id" = VStr c /\
    c = trim " my-cart ".
Proof.
  destruct (cart_id_is_trimmed_or_generated padded_cart_request fresh_world
              (snd (post_carts padded_cart_request fresh_world))
              (fst (post_carts padded_cart_request fresh_world)))
    as (c & cart & before & after & Hr & Hrec & _ & Hc & Hcases).
  - reflexivity.
  - right; reflexivity.
  - exact I.
  - exists c, cart, before, after. repeat split; try assumption.
    vm_compute in Hr. injection Hr as <-. reflexivity.
Defined.

(** Without a [cart_id], the scenario's clock and random source give
    [CART-20231114-5500]. *)
Example generated_cart_id :
  field (body (fst (post_carts plain_request fresh_world))) "cart_id"
  = VStr "CART-20231114-5500".
Proof. reflexivity. Qed.

(** The product of line 50 is a double: for the random number
    [124099189731987 / 2 ^ 52] it is 248, though the product of the reals
    is just below. *)
Example rounded_random_suffix :
  generated_id 1700000000000 (124099189731987 # 4503599627370496) = "CART-20231114-1248"
  /\ Qfloor ((124099189731987 # 4503599627370496) * 9000) = 247.
Proof. split; vm_compute; reflexivity. Qed.




(** The first scenario: product 9 is unknown, and only index 1 is
    reported. *)
Example unknown_product_scenario :
  post_carts unknown_product_request fresh_world
  = (invalid_items [invalid 1 "product_not_found" [("product_id", VNum (num 9))]],
     fresh_world).
Proof. reflexivity. Qed.

(** Items that are not objects are reported like objects without the
    two properties. *)
Example malformed_items_are_reported :
  fst (post_carts (order "u1" [VNum (num 5); VStr "x"; VObj []; VArr []; VBool true])
         fresh_world)
  = invalid_items
      [invalid 0 "product_id and quantity are required" [];
       invalid 1 "product_id and quantity are required" [];
       invalid 2 "product_id and quantity are required" [];
       invalid 3 "product_id and quantity are required" [];
       invalid 4 "product_id and quantity are required" []].
Proof. reflexivity. Qed.

(** Quantities and identifiers are read as doubles: ["1e400"] is an
    infinity and ["1e-400"] is zero, which line 110 refuses; an identifier
    that is not a number is [NaN], which matches no product and is sent
    as [null]. *)
Example numbers_are_doubles :
  fst (post_carts
         (order "u1" [VObj [("product_id", VNum (num 1)); ("quantity", VStr "1e400")];
                      VObj [("product_id", VNum (num 1)); ("quantity", VStr "1e-400")];
                      VObj [("product_id", VStr "soap"); ("quantity", VNum (num 1))];
                      VObj [("product_id", VStr "1.00000000000000000001");
                            ("quantity", VStr "0.1")]])
         fresh_world)
  = invalid_items
      [invalid 0 "quantity must be a positive number" [];
       invalid 1 "quantity must be a positive number" [];
       invalid 2 "product_not_found" [("product_id", VNull)]].
Proof. vm_compute. reflexivity. Qed.

(** A [null] among the items makes the loop throw, whatever the other
    items are. *)
Lemma validate_items_null (products : value) (items : list value) (i : Z)
    (acc : list value) :
  In VNull items -> exists e, validate_items products items i acc = Throw e.
Proof.
  revert i acc. induction items as [|it items IH]; intros i acc Hin; [contradiction|].
  destruct Hin as [-> | Hin]; [exists TypeError; reflexivity|].
  cbn [validate_items].
  repeat match goal with
  | |- exists e, obind ?o _ = Throw e =>
      destruct o; cbn [obind]; [|eexists; reflexivity]
  | |- exists e, (if ?b then _ else _) = Throw e => destruct b
  | |- exists e, validate_items _ _ _ _ = Throw e => apply IH; exact Hin
  end.
Qed.

(** C2: the request of customer [u1] with the items
    [{product_id: 9, quantity: 1}] and [null] is answered 500
    [internal_server_error]: no entry is reported for either item. *)
Theorem null_item_is_answered_500 :
  post_carts null_item_request fresh_world = (internal_server_error, fresh_world).
Proof. reflexivity. Qed.

(** So is any request with a customer and a [null] among its items. *)
Proposition null_items_are_answered_500 (req_body : value) (w : world) (s : string)
    (items : list value) :
  field (request_body req_body) "customer_id" = VStr s -> trim s <> "" ->
  field (request_body req_body) "items" = VArr items ->
  In VNull items ->
  fst (post_carts req_body w) = internal_server_error.
Proof.
  intros Hcid Hs Hitems Hnull.
  pose proof (request_body_readable req_body) as Hb.
  unfold post_carts, try_catch. fold (request_body req_body).
  unfold lift at 1.
  rewrite (bind_step _ _ _ w (VStr s)) by (rewrite (readable_get _ _ Hb), Hcid; reflexivity).
  change (is_string (VStr s)) with true. change (chars (VStr s)) with s.
  apply String.eqb_neq in Hs. rewrite Hs.
  assert (Ht : truthy (VStr s) = true).
  { simpl. destruct s; [discriminate | reflexivity]. }
  rewrite Ht. cbn [negb orb].
  unfold lift at 1.
  rewrite (bind_step _ _ _ w (VArr items)) by (rewrite (readable_get _ _ Hb), Hitems; reflexivity).
  cbn [isArray elements negb orb].
  assert (Hlen : (Z.of_nat (List.length items) =? 0) = false).
  { destruct items; [contradiction | reflexivity]. }
  rewrite Hlen.
  unfold bind at 1.
  destruct (await (readJsonOrEmpty PRODUCTS_FILE) w) as [[products|e] w1]; [|reflexivity].
  unfold bind, lift.
  destruct (validate_items_null products items 0 [] Hnull) as [e ->].
  reflexivity.
Qed.

End Submission.

(** * Further properties of the handlers *)
Module Coverage.
Import JS Server Spec Examples Numbers Runtime Catalog Submission.

(** ** The order of the checks *)

(** X1: the customer check comes first: without a customer identifier that
    is a string and not blank, the answer is 400 [missing_customer_id],
    whatever the items and the files, and nothing is read or written. *)
Theorem customer_is_checked_first (req_body : value) (w : world) :
  (forall s, field (request_body req_body) "customer_id" = VStr s -> trim s = "") ->
  post_carts req_body w = (rejection "missing_customer_id", w).
Proof.
  intros Hnone. pose proof (request_body_readable req_body) as Hb.
  unfold post_carts, try_catch. fold (request_body req_body).
  unfold lift at 1.
  rewrite (bind_step _ _ _ w (field (request_body req_body) "customer_id"))
    by (rewrite (readable_get _ _ Hb); reflexivity).
  destruct (field (request_body req_body) "customer_id") as [ | | b | n | s | l | ps ] eqn:Hf;
    try (match goal with |- context [is_string ?v] => change (is_string v) with false end;
         cbn [negb]; rewrite orb_true_r; reflexivity).
  change (chars (VStr s)) with s. rewrite (Hnone s eq_refl).
  change (String.eqb "" "") with true. rewrite orb_true_r. reflexivity.
Qed.

Lemma customer_is_checked_first_witness :
  post_carts (order "   " [item 1 2]) unreadable_world
  = (rejection "missing_customer_id", unreadable_world).
Proof.
  apply (customer_is_checked_first (order "   " [item 1 2])).
  intros s H. vm_compute in H. injection H as <-. reflexivity.
Defined.

Lemma customer_accepted (req_body : value) (w : world) :
  names_a_customer req_body ->
  exists s, field (request_body req_body) "customer_id" = VStr s /\ trim s <> "" /\
  post_carts req_body w
  = try_catch (items <- lift (get (request_body req_body) "items") ;;
               if negb (isArray items) || (Z.of_nat (List.length (elements items)) =? 0)
               then failure 400 "items_required" else
               products <- await (readJsonOrEmpty PRODUCTS_FILE) ;;
               invalidItems <- lift (validate_items products (elements items) 0 []) ;;
               if truthy (len invalidItems)
               then respond 400 (JSON_roundtrip (VObj [("success", VBool false);
                                                       ("error", VStr "invalid_items");
                                                       ("details", VArr invalidItems)]))
               else persist_cart (request_body req_body) (VStr s) items) w.
Proof.
  intros (s & Hcid & Hs). exists s. split; [exact Hcid|]. split; [exact Hs|].
  pose proof (request_body_readable req_body) as Hb.
  unfold post_carts, try_catch. fold (request_body req_body).
  unfold lift at 1.
  rewrite (bind_step _ _ _ w (VStr s)) by (rewrite (readable_get _ _ Hb), Hcid; reflexivity).
  change (is_string (VStr s)) with true. change (chars (VStr s)) with s.
  apply String.eqb_neq in Hs. rewrite Hs.
  assert (Ht : truthy (VStr s) = true).
  { simpl. destruct s; [discriminate | reflexivity]. }
  rewrite Ht. reflexivity.
Qed.

(** X2: the items check comes second: with a customer, anything but a
    non-empty array of items is answered 400 [items_required], whatever the
    files, and nothing is read or written. *)
Theorem items_are_checked_before_the_catalog (req_body : value) (w : world) :
  names_a_customer req_body ->
  (forall l, field (request_body req_body) "items" = VArr l -> l = []) ->
  post_carts req_body w = (rejection "items_required", w).
Proof.
  intros Hc Hnone. pose proof (request_body_readable req_body) as Hb.
  destruct (customer_accepted req_body w Hc)
    as (s & _ & _ & ->).
  unfold try_catch. unfold lift at 1.
  rewrite (bind_step _ _ _ w (field (request_body req_body) "items"))
    by (rewrite (readable_get _ _ Hb); reflexivity).
  destruct (field (request_body req_body) "items") as [ | | b | n | s' | l | ps ];
    try reflexivity.
  rewrite (Hnone l eq_refl). reflexivity.
Qed.

Lemma items_are_checked_before_the_catalog_witness :
  post_carts (order "u1" []) unreadable_world
  = (rejection "items_required", unreadable_world).
Proof.
  apply (items_are_checked_before_the_catalog (order "u1" [])).
  - exists "u1". split; [reflexivity|]. intros H; vm_compute in H; discriminate H.
  - intros l H. vm_compute in H. injection H as <-. reflexivity.
Defined.

(** ** The validation of the items *)



(** ** What the handlers leave alone *)

Section Frames.

(** A relation between the world before and the world after that holds
    when nothing happens and composes. *)
Variable R : world -> world -> Prop.
Hypothesis R_refl : forall w, R w w.
Hypothesis R_trans : forall w1 w2 w3, R w1 w2 -> R w2 w3 -> R w1 w3.

Lemma keeps_ret {A} (a : A) : keeps R (ret a).
Proof. intros w; apply R_refl. Qed.

Lemma keeps_lift {A} (o : outcome A) : keeps R (lift o).
Proof. intros w; apply R_refl. Qed.

Lemma keeps_bind {A B} (m : M A) (f : A -> M B) :
  keeps R m -> (forall a, keeps R (f a)) -> keeps R (bind m f).
Proof.
  intros Hm Hf w. unfold bind. specialize (Hm w).
  destruct (m w) as [[a|e] w1]; simpl in *.
  - eapply R_trans; [exact Hm | apply Hf].
  - exact Hm.
Qed.

Lemma keeps_read (p : path) : keeps R (await (readJsonOrEmpty p)).
Proof.
  intros w; simpl. destruct (read p w); simpl; apply R_refl.
Qed.

Lemma keeps_try_catch (m : M response) (w : world) :
  keeps R m -> R w (snd (try_catch m w)).
Proof.
  intros Hm. unfold try_catch. specialize (Hm w).
  destruct (m w) as [[r|e] w1]; exact Hm.
Qed.

End Frames.

Lemma same_files_refl (w : world) : same_files w w.
Proof. repeat split. Qed.

Lemma same_files_trans (w1 w2 w3 : world) :
  same_files w1 w2 -> same_files w2 w3 -> same_files w1 w3.
Proof.
  intros (H1 & H2 & H3 & H4) (H5 & H6 & H7 & H8). repeat split; congruence.
Qed.

(** X4: the handlers of GET /products/:id and GET /carts leave the world as
    it is, files and clock alike, whatever the request and whatever they
    answer.  (GET /products is not among them: the promise that line 60
    drops settles after the answer.) *)
Theorem reading_never_writes (customer_id_param : query_value) (id_param : string)
    (w : world) :
  snd (get_product id_param w) = w
  /\ snd (get_carts customer_id_param w) = w.
Proof.
  set (same := fun w1 w2 : world => w2 = w1).
  assert (Hr : forall w0, same w0 w0) by reflexivity.
  assert (Ht : forall w1 w2 w3, same w1 w2 -> same w2 w3 -> same w1 w3)
    by (unfold same; congruence).
  split.
  - apply (keeps_try_catch same).
    apply keeps_bind; [exact Ht | apply keeps_read, Hr | intros products].
    apply keeps_bind; [exact Ht | apply keeps_lift, Hr | intros product].
    destruct (negb (truthy product)); apply keeps_ret, Hr.
  - apply (keeps_try_catch same).
    cbv zeta. destruct (negb (query_truthy customer_id_param)).
    + apply keeps_ret, Hr.
    + apply keeps_bind; [exact Ht | apply keeps_read, Hr | intros carts].
      apply keeps_bind; [exact Ht | apply keeps_lift, Hr | intros userCarts].
      apply keeps_ret, Hr.
Qed.

(** *** POST /carts *)

Lemma keeps_files_now : keeps same_files now.
Proof. intros w. repeat split. Qed.

Lemma keeps_files_generateCartId : keeps same_files generateCartId.
Proof.
  unfold generateCartId.
  apply keeps_bind; [exact same_files_trans | exact keeps_files_now | intros t].
  apply keeps_bind; [exact same_files_trans | apply keeps_lift, same_files_refl | intros iso].
  apply keeps_bind; [exact same_files_trans | | intros r; apply keeps_ret, same_files_refl].
  intros w. repeat split.
Qed.

Lemma keeps_files_resolveCartId (body : value) : keeps same_files (resolveCartId body).
Proof.
  unfold resolveCartId.
  apply keeps_bind; [exact same_files_trans | apply keeps_lift, same_files_refl | intros c].
  destruct (_ && _ && _).
  - apply keeps_ret, same_files_refl.
  - exact keeps_files_generateCartId.
Qed.

Lemma careful_quiet (m : M response) : keeps same_files m -> careful m.
Proof.
  intros Hm w. destruct (Hm w) as (H1 & H2 & H3 & H4). auto.
Qed.

Lemma careful_bind {A} (m : M A) (f : A -> M response) :
  keeps same_files m -> (forall a, careful (f a)) -> careful (bind m f).
Proof.
  intros Hm Hf w. unfold bind. destruct (Hm w) as (H1 & H2 & H3 & H4).
  destruct (m w) as [[a|e] w1]; simpl in *.
  - destruct (Hf a w1) as (H5 & H6 & H7).
    split; [congruence|]. split; [congruence|].
    destruct H7 as [H7|[H7|(Hd & Ht & Hg & He)]].
    + left; congruence.
    + right; left; exact H7.
    + right; right. split; [congruence|]. split; [congruence|]. auto.
  - auto.
Qed.

Lemma careful_write (data : list value) (i : Z) (c : string) :
  careful (_ <- await (writeJson CARTS_FILE (VArr data)) ;; ret (accepted i c)).
Proof.
  intros w. unfold bind. simpl. destruct (disk_writable w) eqn:Hd; simpl.
  - split; [reflexivity|]. split; [reflexivity|]. right; left. eauto.
  - destruct (write_tears w) eqn:Ht; simpl; rewrite ?Hd.
    + split; [reflexivity|]. split; [reflexivity|]. right; right. eauto.
    + auto.
Qed.

Lemma careful_persist_cart (body customer_id items : value) :
  careful (persist_cart body customer_id items).
Proof.
  unfold persist_cart.
  apply careful_bind; [apply keeps_read, same_files_refl | intros carts].
  apply careful_bind; [apply keeps_files_resolveCartId | intros cartId].
  apply careful_bind; [apply keeps_lift, same_files_refl | intros stored].
  apply careful_bind; [apply keeps_lift, same_files_refl | intros existingIndex].
  apply careful_bind; [apply keeps_files_now | intros t1].
  apply careful_bind; [apply keeps_lift, same_files_refl | intros createdAt].
  apply careful_bind; [apply keeps_files_now | intros t2].
  apply careful_bind; [apply keeps_lift, same_files_refl | intros expiresAt].
  apply careful_bind; [apply keeps_lift, same_files_refl | intros new_items].
  apply careful_bind; [ | intros created_at].
  - destruct (0 <=? existingIndex);
      [apply keeps_lift, same_files_refl | apply keeps_ret, same_files_refl].
  - apply careful_write.
Qed.

Lemma careful_post_carts (req_body : value) :
  careful
    (let body := if truthy req_body then req_body else VObj [] in
     customer_id <- lift (get body "customer_id") ;;
     if negb (truthy customer_id) || negb (is_string customer_id)
        || String.eqb (trim (chars customer_id)) ""
     then failure 400 "missing_customer_id" else
     items <- lift (get body "items") ;;
     if negb (isArray items) || (Z.of_nat (List.length (elements items)) =? 0)
     then failure 400 "items_required" else
     products <- await (readJsonOrEmpty PRODUCTS_FILE) ;;
     invalidItems <- lift (validate_items products (elements items) 0 []) ;;
     if truthy (len invalidItems)
     then respond 400 (JSON_roundtrip (VObj [("success", VBool false);
                                             ("error", VStr "invalid_items");
                                             ("details", VArr invalidItems)]))
     else persist_cart body customer_id items).
Proof.
  cbv zeta.
  apply careful_bind; [apply keeps_lift, same_files_refl | intros customer_id].
  destruct (_ || _ || _); [apply careful_quiet, keeps_ret, same_files_refl|].
  apply careful_bind; [apply keeps_lift, same_files_refl | intros items].
  destruct (_ || _); [apply careful_quiet, keeps_ret, same_files_refl|].
  apply careful_bind; [apply keeps_read, same_files_refl | intros products].
  apply careful_bind; [apply keeps_lift, same_files_refl | intros invalidItems].
  destruct (truthy _); [apply careful_quiet, keeps_ret, same_files_refl|].
  apply careful_persist_cart.
Qed.

Lemma post_carts_careful (req_body : value) (w w' : world) (r : response) :
  post_carts req_body w = (r, w') ->
  products_file w' = products_file w /\ disk_writable w' = disk_writable w /\
  (carts_file w' = carts_file w
   \/ (status r = 200 \/ status r = 201)
   \/ (r = internal_server_error /\ disk_writable w = false /\ write_tears w = true
       /\ carts_file w' = Garbled)).
Proof.
  destruct (careful_post_carts req_body w) as (H1 & H2 & H3).
  unfold post_carts, try_catch.
  match type of H1 with products_file (snd (?m w)) = _ => destruct (m w) as [[r0|e] w0] end;
    simpl in *; intros [= <- <-].
  - split; [exact H1|]. split; [exact H2|].
    destruct H3 as [H3|[(i & c & H3)|(_ & _ & _ & e & H3)]];
      [left; exact H3 | right; left | discriminate H3].
    injection H3 as ->. unfold accepted; simpl. destruct (0 <=? i); auto.
  - split; [exact H1|]. split; [exact H2|].
    destruct H3 as [H3|[(i & c & H3)|(Hd & Ht & Hg & _)]];
      [left; exact H3 | discriminate H3 | right; right; auto].
Qed.



(** ** When the storage fails *)

(** A request that passes the checks of lines 93-123 goes on to the
    "persist" part with its customer and its items. *)
Lemma valid_submission_persists (req_body : value) (w : world) :
  valid_submission req_body w ->
  exists s items,
    field (request_body req_body) "customer_id" = VStr s /\
    field (request_body req_body) "items" = VArr items /\
    Forall (fun it => readable it = true) items /\
    post_carts req_body w
    = try_catch (persist_cart (request_body req_body) (VStr s) (VArr items)) w.
Proof.
  intros (s & items & products & Hcid & Hs & Hitems & Hne & Hprod & Hval).
  exists s, items. split; [exact Hcid|]. split; [exact Hitems|].
  split; [exact (validate_items_readable _ _ _ _ _ Hval)|].
  destruct (customer_accepted req_body w) as (s' & Hcid' & _ & ->);
    [exists s; auto|].
  assert (s' = s) as -> by congruence.
  pose proof (request_body_readable req_body) as Hb.
  unfold try_catch. unfold lift at 1.
  rewrite (bind_step _ _ _ w (VArr items)) by (rewrite (readable_get _ _ Hb), Hitems; reflexivity).
  cbn [isArray elements negb orb].
  assert (Hlen : (Z.of_nat (List.length items) =? 0) = false).
  { destruct items; [congruence | reflexivity]. }
  rewrite Hlen.
  rewrite (bind_step _ _ _ _ _ Hprod).
  unfold lift at 1.
  rewrite (bind_step _ _ _ w []) by (rewrite Hval; reflexivity).
  reflexivity.
Qed.

(** With a cart file that holds readable records and dates that a [Date]
    can hold, the "persist" part reaches the write of line 153, whatever
    the state of the disk. *)
Lemma persist_cart_reaches_the_write (body customer_id : value) (items stored : list value)
    (w : world) :
  readable body = true ->
  Forall (fun it => readable it = true) items ->
  records (carts_file w) = Some stored ->
  Forall (fun x => readable x = true) stored ->
  Z.abs (clock (snd (resolveCartId body w)) 1 + week) <= 8640000000000000 ->
  exists w1 data i c,
    same_files w w1 /\
    persist_cart body customer_id (VArr items) w
    = (_ <- await (writeJson CARTS_FILE (VArr data)) ;; ret (accepted i c)) w1.
Proof.
  intros Hb Hitems Hrec Hstored Hclip.
  destruct (resolveCartId_total body w Hb) as [c Hid].
  pose proof (keeps_files_resolveCartId body w) as Hsame.
  set (w1 := snd (resolveCartId body w)) in *.
  destruct (findIndex_total c stored 0 Hstored) as [i Hidx].
  destruct (normalize_items_total items Hitems) as [new_items Hmap].
  assert (Hread : await (readJsonOrEmpty CARTS_FILE) w = (Ok (VArr stored), w)).
  { simpl. destruct (carts_file w) as [ | | |v]; try discriminate.
    - injection Hrec as <-; reflexivity.
    - destruct v; try discriminate. injection Hrec as <-; reflexivity. }
  unfold persist_cart.
  rewrite (bind_step _ _ _ _ _ Hread).
  rewrite (bind_step _ _ _ _ _ Hid).
  unfold lift at 1. rewrite (bind_step _ _ _ w1 stored) by reflexivity.
  unfold lift at 1. rewrite (bind_step _ _ _ w1 i) by (f_equal; exact Hidx).
  rewrite (bind_step _ _ _ (tick w1) (clock w1 0)) by reflexivity.
  unfold lift at 1. rewrite (bind_step _ _ _ (tick w1) (iso_string (clock w1 0))) by reflexivity.
  rewrite (bind_step _ _ _ (tick (tick w1)) (clock w1 1)) by reflexivity.
  unfold lift at 1.
  rewrite (bind_step _ _ _ (tick (tick w1)) (iso_string (clock w1 1 + week))).
  2:{ unfold TimeClip. fold week. apply Z.leb_le in Hclip. rewrite Hclip. reflexivity. }
  unfold lift at 1. rewrite (bind_step _ _ _ (tick (tick w1)) new_items) by (f_equal; exact Hmap).
  assert (Hcreated : exists created_at,
    (if 0 <=? i
     then lift (get (nth (Z.to_nat i) stored VUndefined) "created_at")
     else ret (VStr (iso_string (clock w1 0)))) (tick (tick w1))
    = (Ok created_at, tick (tick w1))).
  { destruct (0 <=? i) eqn:Hi; [|eexists; reflexivity].
    apply findIndex_from_spec in Hidx
      as [[-> _] | (before & old & after & -> & -> & _ & Ho & _)]; [discriminate|].
    replace (Z.to_nat (0 + Z.of_nat (List.length before))) with (List.length before) by lia.
    rewrite nth_in_middle. rewrite (readable_get _ _ Ho). eexists; reflexivity. }
  destruct Hcreated as [created_at Hcreated].
  rewrite (bind_step _ _ _ _ _ Hcreated).
  eexists (tick (tick w1)), _, i, c. split; [|reflexivity].
  destruct Hsame as (H1 & H2 & H3 & H4). repeat split; assumption.
Qed.

(** With a cart file that cannot be read or does not hold an array, the
    "persist" part throws before the write. *)
Lemma persist_cart_unreadable (body customer_id items : value) (w : world) :
  records (carts_file w) = None ->
  exists e w', persist_cart body customer_id items w = (Throw e, w') /\ same_files w w'.
Proof.
  intros Hnone. unfold persist_cart. unfold bind at 1. simpl.
  destruct (carts_file w) as [ | | |v] eqn:Hf; try discriminate Hnone;
    try (eexists; eexists; split; [reflexivity | apply same_files_refl]).
  unfold bind at 1. pose proof (keeps_files_resolveCartId body w) as Hk.
  destruct (resolveCartId body w) as [[c|e] w1]; simpl in Hk;
    [|eexists; eexists; split; [reflexivity | exact Hk]].
  unfold bind at 1, lift at 1.
  destruct v; try discriminate Hnone;
    (eexists; eexists; split; [reflexivity | exact Hk]).
Qed.

(** X6: when the cart of a valid submission cannot be saved, the answer is
    500.  If the cart file cannot be read or does not hold an array, or if
    the write fails before it opens the file, the file is left as it was:
    a damaged file is not overwritten.  If the write fails after it has
    opened the file, the stored carts are lost: the file is left with a
    text that is not JSON. *)
Theorem unsaved_cart_is_answered_500 (req_body : value) (w : world) :
  valid_submission req_body w ->
  disk_writable w = false \/ records (carts_file w) = None ->
  fst (post_carts req_body w) = internal_server_error
  /\ (records (carts_file w) = None \/ write_tears w = false ->
      carts_file (snd (post_carts req_body w)) = carts_file w)
  /\ (write_tears w = true ->
      (exists stored, records (carts_file w) = Some stored
                      /\ Forall (fun x => readable x = true) stored) ->
      Z.abs (expiresAt_reading req_body w + week) <= 8640000000000000 ->
      carts_file (snd (post_carts req_body w)) = Garbled).
Proof.
  intros Hvalid Hfail.
  destruct (valid_submission_persists _ _ Hvalid) as (s & items & _ & _ & Hitems & Hpost).
  assert (H500 : fst (post_carts req_body w) = internal_server_error).
  { rewrite Hpost. unfold try_catch.
    destruct (persist_cart _ _ _ w) as [[r|e] w'] eqn:Hrun; [exfalso | reflexivity].
    apply persist_cart_inv in Hrun
      as (stored & c & w1 & i & ni & ca & Hrec & Hres & _ & _ & _ & _ & Hdisk & _).
    destruct Hfail as [Hfail|Hfail]; [|congruence].
    destruct (resolveCartId_files _ _ _ _ (request_body_readable req_body) Hres)
      as (_ & _ & Hd).
    congruence. }
  split; [exact H500|]. split.
  - intros [Hnone|Hno].
    + rewrite Hpost. unfold try_catch.
      destruct (persist_cart_unreadable (request_body req_body) (VStr s) (VArr items) w Hnone)
        as (e & w' & -> & _ & Hc & _).
      exact Hc.
    + destruct (post_carts_careful req_body w _ _ (surjective_pairing _))
        as (_ & _ & [H|[[H|H]|(_ & _ & Ht & _)]]);
        [exact H | rewrite H500 in H; discriminate H | rewrite H500 in H; discriminate H
        | congruence].
  - intros Ht (stored & Hrec & Hstored) Hclip.
    assert (Hd : disk_writable w = false) by (destruct Hfail; congruence).
    destruct (persist_cart_reaches_the_write (request_body req_body) (VStr s) items stored w
                (request_body_readable req_body) Hitems Hrec Hstored Hclip)
      as (w1 & data & i & c & (_ & _ & Hd1 & Ht1) & Hrun).
    rewrite Hpost. unfold try_catch. rewrite Hrun.
    unfold bind. simpl. rewrite Hd1, Hd, Ht1, Ht. reflexivity.
Qed.

Lemma unsaved_cart_is_answered_500_witness :
  fst (post_carts plain_request tearing_world) = internal_server_error
  /\ (records (carts_file tearing_world) = None \/ write_tears tearing_world = false ->
      carts_file (snd (post_carts plain_request tearing_world)) = carts_file tearing_world)
  /\ (write_tears tearing_world = true ->
      (exists stored, records (carts_file tearing_world) = Some stored
                      /\ Forall (fun x => readable x = true) stored) ->
      Z.abs (expiresAt_reading plain_request tearing_world + week) <= 8640000000000000 ->
      carts_file (snd (post_carts plain_request tearing_world)) = Garbled).
Proof.
  apply (unsaved_cart_is_answered_500 plain_request tearing_world).
  - exists "u1", [item 1 2], (VArr [product 1 "soap"; product 2 "towel"]).
    repeat split; try reflexivity; intros H; vm_compute in H; discriminate H.
  - left. reflexivity.
Defined.

(** The three failures on the scenario's request: a cart file that is not
    JSON and a disk that refuses the write leave the cart file as it was;
    a write that begins and fails leaves it without the cart of alice. *)
Example failures_of_the_storage :
  (fst (post_carts plain_request damaged_world) = internal_server_error
   /\ carts_file (snd (post_carts plain_request damaged_world)) = Garbled)
  /\ (fst (post_carts plain_request read_only_world) = internal_server_error
      /\ carts_file (snd (post_carts plain_request read_only_world))
         = Document (VArr [alice_cart]))
  /\ (fst (post_carts plain_request tearing_world) = internal_server_error
      /\ carts_file (snd (post_carts plain_request tearing_world)) = Garbled).
Proof. repeat split; reflexivity. Qed.


(** ** What an accepted submission stores *)

(** An accepted submission, as [post_carts_stored] describes it, for a
    request known to be valid and a storage known to work. *)
Lemma accepted_submission (req_body : value) (w w' : world) (r : response) :
  valid_submission req_body w ->
  storage_ready req_body w ->
  post_carts req_body w = (r, w') ->
  (status r = 200 \/ status r = 201) /\ json_file (carts_file w).
Proof.
  intros Hvalid Hready Hrun.
  pose proof (post_carts_accepts _ _ Hvalid Hready) as Hst. rewrite Hrun in Hst.
  split; [exact Hst | apply Hready].
Qed.

Lemma existsb_other_carts (c : string) (l : list value) :
  Forall (other_cart c) l -> existsb (has_cart_id c) l = false.
Proof.
  induction 1 as [|x l [_ Hx] _ IH]; simpl; [reflexivity|]. rewrite Hx; exact IH.
Qed.

(** X7: a valid submission on a working storage is a creation exactly when
    no stored record has the resolved cart identifier: then the answer is
    201 "Cart saved" and the store has one record more; otherwise it is 200
    "Cart updated" and the store has as many records as before. *)
Theorem saved_or_updated (req_body : value) (w w' : world) (r : response)
    (stored : list value) (c : string) :
  valid_submission req_body w ->
  storage_ready req_body w ->
  records (carts_file w) = Some stored ->
  resolved_cart_id req_body w = Ok c ->
  post_carts req_body w = (r, w') ->
  exists stored',
    records (carts_file w') = Some stored' /\
    if existsb (has_cart_id c) stored
    then r = cart_updated c /\ List.length stored' = List.length stored
    else r = cart_saved c /\ List.length stored' = S (List.length stored).
Proof.
  intros Hvalid Hready Hrec Hres Hrun.
  destruct (accepted_submission _ _ _ _ Hvalid Hready Hrun) as (Hst & Hjson).
  destruct (post_carts_stored _ _ _ _ Hrun Hst Hjson)
    as (s & items & stored0 & c0 & i & created_at & _ & _ & _ & Hrec0 & Hres0 & -> & _ & _ & _
        & Hcase).
  assert (stored0 = stored) as -> by congruence.
  assert (c0 = c) as -> by congruence.
  destruct Hcase as [(-> & Hother & _ & Hrec')
                    |(before & old & after & Hi & -> & _ & _ & Hold & _ & Hrec')].
  - eexists; split; [exact Hrec'|].
    rewrite (existsb_other_carts _ _ Hother). split; [reflexivity|].
    rewrite length_app; simpl; lia.
  - eexists; split; [exact Hrec'|].
    rewrite existsb_app; simpl. rewrite Hold, orb_true_r.
    split.
    + unfold accepted, cart_updated. apply Z.leb_le in Hi. rewrite Hi. reflexivity.
    + rewrite !length_app; reflexivity.
Qed.

Lemma saved_or_updated_witness :
  exists stored',
    records (carts_file (snd (post_carts bob_request stocked_world))) = Some stored' /\
    if existsb (has_cart_id "C-1") [alice_cart]
    then fst (post_carts bob_request stocked_world) = cart_updated "C-1"
         /\ List.length stored' = List.length [alice_cart]
    else fst (post_carts bob_request stocked_world) = cart_saved "C-1"
         /\ List.length stored' = S (List.length [alice_cart]).
Proof.
  apply (saved_or_updated bob_request stocked_world
           (snd (post_carts bob_request stocked_world))
           (fst (post_carts bob_request stocked_world)) [alice_cart] "C-1").
  - exists "bob", [item 2 3], (VArr [product 1 "soap"; product 2 "towel"]).
    repeat split; try reflexivity; intros H; vm_compute in H; discriminate H.
  - split; [exists [alice_cart]; split; [reflexivity | repeat constructor] |].
    split; [reflexivity|]. split; [reflexivity|]. vm_compute. discriminate.
  - reflexivity.
  - reflexivity.
  - reflexivity.
Defined.

Lemma filter_other_carts (c : string) (l : list value) :
  Forall (other_cart c) l -> List.filter (of_another_cart c) l = l.
Proof.
  induction 1 as [|x l [_ Hx] _ IH]; simpl; [reflexivity|].
  unfold of_another_cart at 1. rewrite Hx; simpl. congruence.
Qed.

(** X8: an accepted submission keeps every stored record that is not of the
    resolved cart identifier, as it was and in its place among the others.
    *)
Theorem other_carts_are_kept (req_body : value) (w w' : world) (r : response)
    (stored : list value) (c : string) :
  post_carts req_body w = (r, w') ->
  status r = 200 \/ status r = 201 ->
  json_file (carts_file w) ->
  records (carts_file w) = Some stored ->
  resolved_cart_id req_body w = Ok c ->
  exists stored',
    records (carts_file w') = Some stored' /\
    List.filter (of_another_cart c) stored' = List.filter (of_another_cart c) stored.
Proof.
  intros Hrun Hst Hjson Hrec Hres.
  destruct (post_carts_stored _ _ _ _ Hrun Hst Hjson)
    as (s & items & stored0 & c0 & i & created_at & _ & _ & _ & Hrec0 & Hres0 & _ & _ & _ & _
        & Hcase).
  assert (stored0 = stored) as -> by congruence.
  assert (c0 = c) as -> by congruence.
  destruct (stored_fields c s items created_at
              (iso_string (createdAt_reading req_body w))
              (iso_string (expiresAt_reading req_body w + week)))
    as (Hid & _).
  apply has_cart_id_field in Hid.
  set (cart := JSON_roundtrip (newCart _ _ _ _ _ _)) in *; clearbody cart.
  assert (Hcart : of_another_cart c cart = false)
    by (unfold of_another_cart; rewrite Hid; reflexivity).
  destruct Hcase as [(_ & _ & _ & Hrec')
                    |(before & old & after & _ & -> & _ & _ & Hold & _ & Hrec')];
    (eexists; split; [exact Hrec'|]).
  - rewrite List.filter_app; cbn [List.filter]. rewrite Hcart. apply app_nil_r.
  - assert (Hold' : of_another_cart c old = false)
      by (unfold of_another_cart; rewrite Hold; reflexivity).
    rewrite !List.filter_app; cbn [List.filter]. rewrite Hcart, Hold'. reflexivity.
Qed.

Lemma other_carts_are_kept_witness :
  exists stored',
    records (carts_file (snd (post_carts plain_request stocked_world))) = Some stored' /\
    List.filter (of_another_cart "CART-20231114-5500") stored'
    = List.filter (of_another_cart "CART-20231114-5500") [alice_cart].
Proof.
  apply (other_carts_are_kept plain_request stocked_world
           (snd (post_carts plain_request stocked_world))
           (fst (post_carts plain_request stocked_world))).
  - reflexivity.
  - right. reflexivity.
  - reflexivity.
  - reflexivity.
  - reflexivity.
Defined.

(** *** The items of the stored cart *)

Lemma find_hit (f : value -> outcome bool) (l : list value) (found : value) :
  find f l = Ok found -> truthy found = true -> In found l /\ f found = Ok true.
Proof.
  induction l as [|x l IH]; simpl; intros Hfind Ht.
  - injection Hfind as <-. discriminate Ht.
  - destruct (f x) as [[|]|e] eqn:Hx; simpl in Hfind; try discriminate.
    + injection Hfind as <-. auto.
    + destruct (IH Hfind Ht); auto.
Qed.

Lemma validate_items_extends (products : value) (items : list value) (i : Z)
    (acc out : list value) :
  validate_items products items i acc = Ok out ->
  (List.length acc <= List.length out)%nat.
Proof.
  revert i acc. induction items as [|it items IH]; intros i acc; simpl.
  - intros [= <-]. lia.
  - intros H.
    repeat match type of H with
    | obind ?m _ = Ok _ => destruct m; simpl in H; [|discriminate H]
    | (if ?b then _ else _) = Ok _ => destruct b
    | (let? _ := if ?b then _ else _ in _) = Ok _ => destruct b
    end;
    apply IH in H; try rewrite length_app in H; simpl in H; lia.
Qed.

Lemma validate_items_clean (products : value) (items : list value) (i : Z)
    (acc : list value) :
  validate_items products items i acc = Ok acc -> Forall (passes products) items.
Proof.
  revert i acc. induction items as [|it items IH]; intros i acc H; [constructor|].
  assert (Hr : readable it = true) by (destruct it; try reflexivity; discriminate H).
  cbn [validate_items] in H. rewrite !(readable_get _ _ Hr) in H.
  unfold obind at 1 in H. unfold obind at 2 in H.
  assert (Hbad : forall e, validate_items products items (i + 1) (acc ++ [e]) <> Ok acc).
  { intros e He. apply validate_items_extends in He.
    rewrite length_app in He; simpl in He; lia. }
  destruct (String.eqb (typeof (field it "product_id")) "undefined").
  { unfold obind in H. exfalso; exact (Hbad _ H). }
  unfold obind at 1 in H.
  destruct (String.eqb (typeof (field it "quantity")) "undefined").
  { exfalso; exact (Hbad _ H). }
  unfold obind at 1 in H.
  destruct (isFinite (ToNumber (field it "quantity"))) eqn:Hfin;
    [|exfalso; exact (Hbad _ H)].
  destruct (num_le (ToNumber (field it "quantity")) (num 0)) eqn:Hpos;
    [exfalso; exact (Hbad _ H)|].
  cbn [negb orb] in H. unfold obind at 1 in H.
  destruct products as [ | | b | n | s | l | ps ]; try discriminate H.
  cbn [array_receiver] in H. unfold obind at 2 in H.
  destruct (find _ l) as [found|e] eqn:Hfind; [|discriminate H].
  unfold obind at 1 in H.
  destruct (truthy found) eqn:Ht; [|exfalso; exact (Hbad _ H)].
  cbn [negb] in H.
  apply find_hit in Hfind as (Hin & Hcb); [|exact Ht].
  constructor; [|exact (IH _ _ H)].
  split; [exact Hr|]. split; [exact Hfin|]. split; [exact Hpos|].
  exists l, found. split; [reflexivity|]. split; [exact Hin|].
  destruct found; try discriminate Ht; simpl in Hcb; injection Hcb as Hcb; exact Hcb.
Qed.

Lemma normalize_items_stored (catalog items l : list value) :
  Forall (passes (VArr catalog)) items ->
  map normalize_item items = Ok l ->
  Forall2 (stored_item catalog) items
    (List.map (fun x => match x with VUndefined => VNull | _ => JSON_roundtrip x end) l).
Proof.
  intros Hpass. revert l.
  induction Hpass as [|it items (Hr & Hfin & Hpos & l0 & p & Hl0 & Hin & Hm) _ IH];
    intros l; simpl.
  - intros [= <-]. constructor.
  - unfold normalize_item at 1. rewrite !(readable_get _ _ Hr). unfold obind at 2 3.
    unfold obind at 1.
    destruct (map normalize_item items) as [ys|e]; [|discriminate].
    simpl. intros [= <-]. injection Hl0 as <-.
    constructor; [|exact (IH _ eq_refl)].
    split; [|split; [exact Hfin|split; [exact Hpos|exists p; auto]]].
    simpl. rewrite Hfin. reflexivity.
Qed.

(** X9: the cart that an accepted submission stores has one item per item of
    the request, in the same order: the product identifier and the quantity
    as numbers, the quantity finite and positive, the product one of the
    catalog that was read. *)
Theorem stored_items_are_checked (req_body : value) (w w' : world) (r : response) :
  post_carts req_body w = (r, w') ->
  status r = 200 \/ status r = 201 ->
  json_file (carts_file w) ->
  exists c cart before after items catalog stored_items,
    field (body r) "cart_id" = VStr c /\
    records (carts_file w') = Some (before ++ cart :: after)%list /\
    Forall (fun x => has_cart_id c x = false) before /\
    field cart "cart_id" = VStr c /\
    field (request_body req_body) "items" = VArr items /\
    records (products_file w) = Some catalog /\
    field cart "items" = VArr stored_items /\
    Forall2 (stored_item catalog) items stored_items.
Proof.
  intros Hrun Hst Hjson.
  destruct (post_carts_cases _ _ _ _ Hrun)
    as [(H400 & _)|[->|(s0 & items & products & _ & _ & Hitems & Hne & Hprod & Hval & _)]];
    [destruct Hst; congruence | destruct Hst as [Hst|Hst]; discriminate Hst |].
  cbv zeta in Hitems.
  pose proof (validate_items_clean _ _ _ _ Hval) as Hpass.
  assert (exists catalog, products = VArr catalog /\ records (products_file w) = Some catalog)
    as (catalog & -> & Hcat).
  { destruct items as [|it items]; [congruence|].
    inversion Hpass as [|? ? (_ & _ & _ & l & _ & -> & _) _]; subst.
    exists l; split; [reflexivity|].
    apply read_ok in Hprod as (_ & [(Hm & Hv)|Hd]); simpl in *.
    - rewrite Hm. simpl. congruence.
    - rewrite Hd; reflexivity. }
  destruct (post_carts_stored _ _ _ _ Hrun Hst Hjson)
    as (s & nitems & stored & c & i & created_at & _ & _ & Hmap & _ & _ & -> & _ & _ & _
        & Hcase).
  cbv zeta in Hmap. rewrite Hitems in Hmap. cbn [elements] in Hmap.
  pose proof (normalize_items_stored _ _ _ Hpass Hmap) as Hstored.
  destruct (stored_fields c s nitems created_at
              (iso_string (createdAt_reading req_body w))
              (iso_string (expiresAt_reading req_body w + week)))
    as (Hid & _).
  assert (Hfield : field (JSON_roundtrip
                            (newCart c (VStr s) nitems created_at
                               (iso_string (createdAt_reading req_body w))
                               (iso_string (expiresAt_reading req_body w + week)))) "items"
                   = VArr (List.map (fun x => match x with
                                              | VUndefined => VNull
                                              | _ => JSON_roundtrip x
                                              end) nitems))
    by reflexivity.
  set (cart := JSON_roundtrip (newCart _ _ _ _ _ _)) in *; clearbody cart.
  destruct Hcase as [(_ & Hother & _ & Hrec')
                    |(before & old & after & _ & _ & Hbefore & _ & _ & _ & Hrec')].
  - exists c, cart, stored, [], items, catalog. eexists.
    split; [reflexivity|]. split; [exact Hrec'|].
    split; [apply other_carts_absent; exact Hother|].
    split; [exact Hid|]. split; [exact Hitems|]. split; [exact Hcat|].
    split; [exact Hfield | exact Hstored].
  - exists c, cart, before, after, items, catalog. eexists.
    split; [reflexivity|]. split; [exact Hrec'|].
    split; [apply other_carts_absent; exact Hbefore|].
    split; [exact Hid|]. split; [exact Hitems|]. split; [exact Hcat|].
    split; [exact Hfield | exact Hstored].
Qed.

Lemma stored_items_are_checked_witness :
  exists c cart before after items catalog stored_items,
    field (body (fst (post_carts plain_request fresh_world))) "cart_id" = VStr c /\
    records (carts_file (snd (post_carts plain_request fresh_world)))
    = Some (before ++ cart :: after)%list /\
    Forall (fun x => has_cart_id c x = false) before /\
    field cart "cart_id" = VStr c /\
    field (request_body plain_request) "items" = VArr items /\
    records (products_file fresh_world) = Some catalog /\
    field cart "items" = VArr stored_items /\
    Forall2 (stored_item catalog) items stored_items.
Proof.
  apply (stored_items_are_checked plain_request fresh_world
           (snd (post_carts plain_request fresh_world))
           (fst (post_carts plain_request fresh_world))).
  - reflexivity.
  - right. reflexivity.
  - exact I.
Defined.

(** ** Saving and listing *)

Lemma belongs_to_customer (s : string) (c : value) :
  belongs_to (QStr s) c = true <-> field c "customer_id" = VStr s.
Proof.
  unfold belongs_to, eq_query.
  destruct (field c "customer_id"); split; try discriminate.
  - intros H; apply String.eqb_eq in H; congruence.
  - intros [= ->]; apply String.eqb_refl.
Qed.

(** X10: a cart that has just been accepted is listed for its customer: the
    answer of GET /carts for the customer identifier of the request, as it
    was sent, holds the cart under the identifier that the submission
    returned, and holds only carts of that customer. *)
Theorem saved_cart_is_listed (req_body : value) (w w' : world) (r : response) (s : string) :
  valid_submission req_body w ->
  storage_ready req_body w ->
  field (request_body req_body) "customer_id" = VStr s ->
  post_carts req_body w = (r, w') ->
  exists c found cart,
    field (body r) "cart_id" = VStr c /\
    get_carts (QStr s) w' = (carts_found found, w') /\
    In cart found /\
    field cart "cart_id" = VStr c /\
    field cart "customer_id" = VStr s /\
    field cart "status" = VStr "saved" /\
    Forall (fun x => field x "customer_id" = VStr s) found.
Proof.
  intros Hvalid Hready Hcid Hrun.
  destruct (accepted_submission _ _ _ _ Hvalid Hready Hrun) as (Hst & Hjson).
  destruct Hready as ((st & Hrec & Hreadable) & _).
  destruct (post_carts_stored _ _ _ _ Hrun Hst Hjson)
    as (s0 & items & stored & c & i & created_at & Hs0 & Hblank & _ & Hrec0 & _ & -> & _ & _ & _
        & Hcase).
  cbv zeta in Hs0. assert (s0 = s) as -> by congruence.
  assert (stored = st) as -> by congruence.
  destruct (stored_fields c s items created_at
              (iso_string (createdAt_reading req_body w))
              (iso_string (expiresAt_reading req_body w + week)))
    as (Hf1 & Hf2 & Hf3 & _ & _ & _ & Hread).
  set (cart := JSON_roundtrip (newCart _ _ _ _ _ _)) in *; clearbody cart.
  assert (Hq : query_truthy (QStr s) = true).
  { simpl. apply negb_true_iff, String.eqb_neq. intros ->. apply Hblank. reflexivity. }
  assert (Hlisted : forall stored',
             records (carts_file w') = Some stored' ->
             Forall (fun x => readable x = true) stored' ->
             In cart stored' ->
             exists found, get_carts (QStr s) w' = (carts_found found, w') /\ In cart found
                           /\ Forall (fun x => field x "customer_id" = VStr s) found).
  { intros stored' Hrec' Hall Hin. eexists. split; [|split].
    - apply (get_carts_filter _ _ _ Hq Hrec' Hall).
    - apply filter_In. split; [exact Hin | apply belongs_to_customer; exact Hf2].
    - apply Forall_forall. intros x Hx. apply filter_In in Hx as [_ Hx].
      apply belongs_to_customer; exact Hx. }
  destruct Hcase as [(_ & _ & _ & Hrec')
                    |(before & old & after & _ & -> & _ & _ & _ & _ & Hrec')].
  - destruct (Hlisted _ Hrec') as (found & Hget & Hin & Hall).
    + apply Forall_app. split; [exact Hreadable | repeat constructor; exact Hread].
    + apply in_or_app; right; left; reflexivity.
    + exists c, found, cart. repeat split; assumption.
  - destruct (Hlisted _ Hrec') as (found & Hget & Hin & Hall).
    + apply Forall_app in Hreadable as [Hb Ha]. inversion Ha; subst.
      apply Forall_app. split; [assumption | constructor; assumption].
    + apply in_or_app; right; left; reflexivity.
    + exists c, found, cart. repeat split; assumption.
Qed.

Lemma saved_cart_is_listed_witness :
  exists c found cart,
    field (body (fst (post_carts padded_request stocked_world))) "cart_id" = VStr c /\
    get_carts (QStr " u1 ") (snd (post_carts padded_request stocked_world))
    = (carts_found found, snd (post_carts padded_request stocked_world)) /\
    In cart found /\
    field cart "cart_id" = VStr c /\
    field cart "customer_id" = VStr " u1 " /\
    field cart "status" = VStr "saved" /\
    Forall (fun x => field x "customer_id" = VStr " u1 ") found.
Proof.
  apply (saved_cart_is_listed padded_request stocked_world
           (snd (post_carts padded_request stocked_world))
           (fst (post_carts padded_request stocked_world)) " u1 ").
  - exists " u1 ", [item 1 2], (VArr [product 1 "soap"; product 2 "towel"]).
    repeat split; try reflexivity; intros H; vm_compute in H; discriminate H.
  - split; [exists [alice_cart]; split; [reflexivity | repeat constructor] |].
    split; [reflexivity|]. split; [reflexivity|]. vm_compute. discriminate.
  - reflexivity.
  - reflexivity.
Defined.

(** ** GET /carts *)



(** X12: a [customer_id] that the query string gives more than once, or with
    brackets, reaches the handler as an array or an object: it passes the
    check of line 174 and is equal to no stored string, so the answer is 200
    with no cart, whatever is stored. *)
Theorem repeated_customer_id_finds_nothing (q : query_value) (w : world)
    (stored : list value) :
  (forall s, q <> QStr s) -> q <> QAbsent ->
  records (carts_file w) = Some stored ->
  Forall (fun x => readable x = true) stored ->
  get_carts q w = (carts_found [], w).
Proof.
  intros Hstr Habs Hrec Hall.
  rewrite (get_carts_filter q w stored); [ | | exact Hrec | exact Hall];
    [|destruct q as [|s|l|ps];
      [destruct Habs; reflexivity | destruct (Hstr s); reflexivity
      | reflexivity | reflexivity]].
  replace (List.filter (belongs_to q) stored) with (@nil value); [reflexivity|].
  clear Hrec Hall. induction stored as [|x l IH]; simpl; [reflexivity|].
  assert (Hx : belongs_to q x = false).
  { unfold belongs_to, eq_query. destruct (field x "customer_id"); try reflexivity;
      destruct q as [|s'|l'|ps']; try reflexivity;
      [destruct Habs; reflexivity | destruct (Hstr s'); reflexivity]. }
  rewrite Hx. exact IH.
Qed.

Lemma repeated_customer_id_finds_nothing_witness :
  get_carts (QArr [QStr "alice"; QStr "alice"]) stocked_world = (carts_found [], stocked_world).
Proof.
  apply (repeated_customer_id_finds_nothing (QArr [QStr "alice"; QStr "alice"])
           stocked_world [alice_cart]).
  - intros s H; discriminate H.
  - intros H; discriminate H.
  - reflexivity.
  - repeat constructor.
Defined.

(** ** The catalog *)

(** X13: when the products file cannot be read or is not JSON, a product
    request and a submission with a customer and items are both answered
    500, and nothing changes: only a missing file counts as an empty
    catalog. *)
Theorem unreadable_catalog_is_answered_500 (id_param : string) (req_body : value)
    (w : world) :
  unreadable (products_file w) ->
  names_a_customer req_body ->
  (exists it items, field (request_body req_body) "items" = VArr (it :: items)) ->
  get_product id_param w = (internal_server_error, w)
  /\ post_carts req_body w = (internal_server_error, w).
Proof.
  intros Hfile Hc (it & items & Hitems).
  assert (Hread : exists e, await (readJsonOrEmpty PRODUCTS_FILE) w = (Throw e, w)).
  { simpl. destruct Hfile as [-> | ->]; eauto. }
  destruct Hread as (e & Hread). split.
  - unfold get_product, try_catch, bind. rewrite Hread. reflexivity.
  - destruct (customer_accepted req_body w Hc) as (s & _ & _ & ->).
    unfold try_catch. unfold lift at 1.
    rewrite (bind_step _ _ _ w (VArr (it :: items)))
      by (rewrite (readable_get _ _ (request_body_readable req_body)), Hitems; reflexivity).
    cbn [isArray elements negb orb List.length]. 
    change (Z.of_nat (S (List.length items)) =? 0) with false. cbv iota.
    unfold bind at 1. rewrite Hread. reflexivity.
Qed.

Lemma unreadable_catalog_is_answered_500_witness :
  get_product "1" unreadable_world = (internal_server_error, unreadable_world)
  /\ post_carts plain_request unreadable_world = (internal_server_error, unreadable_world).
Proof.
  apply (unreadable_catalog_is_answered_500 "1" plain_request unreadable_world).
  - right. reflexivity.
  - exists "u1". split; [reflexivity|]. intros H; vm_compute in H; discriminate H.
  - exists (item 1 2), []. reflexivity.
Defined.







(** ** The files *)

(** X16: what [writeJson] writes, [readJsonOrEmpty] reads back: for a JSON
    value and a disk that can be written, the write succeeds, a read of the
    same path then gives the value, and the other file is as it was. *)
Theorem written_data_is_read_back (p : path) (data : value) (w : world) :
  disk_writable w = true ->
  json data = true ->
  exists w1,
    await (writeJson p data) w = (Ok tt, w1)
    /\ await (readJsonOrEmpty p) w1 = (Ok data, w1)
    /\ forall p', p' <> p -> read p' w1 = read p' w.
Proof.
  intros Hdisk Hjson. exists (write p (Document data) w).
  split; [|split].
  - simpl. rewrite Hdisk, (JSON_roundtrip_json _ Hjson).
    destruct data; try reflexivity. discriminate Hjson.
  - destruct p; reflexivity.
  - intros p' Hp. destruct p, p'; try reflexivity; congruence.
Qed.

Lemma written_data_is_read_back_witness :
  exists w1,
    await (writeJson CARTS_FILE (VArr [alice_cart])) fresh_world = (Ok tt, w1)
    /\ await (readJsonOrEmpty CARTS_FILE) w1 = (Ok (VArr [alice_cart]), w1)
    /\ forall p', p' <> CARTS_FILE -> read p' w1 = read p' fresh_world.
Proof.
  apply (written_data_is_read_back CARTS_FILE (VArr [alice_cart]) fresh_world).
  - reflexivity.
  - reflexivity.
Defined.

(** ** The identifier that is returned *)

Lemma append_snoc_assoc (a b : string) (c : ascii) :
  (a ++ (b ++ String c ""))%string = ((a ++ b) ++ String c "")%string.
Proof. induction a as [|x a IH]; simpl; [reflexivity | rewrite IH; reflexivity]. Qed.

Lemma trimEnd_snoc (s : string) (c : ascii) :
  is_white_space c = false ->
  trimEnd (s ++ String c "") = (s ++ String c "")%string.
Proof.
  intros Hc. induction s as [|a s IH]; cbn [append trimEnd].
  - rewrite Hc. reflexivity.
  - rewrite IH. destruct s; reflexivity.
Qed.

Lemma trimEnd_shape (s : string) :
  trimEnd s = "" \/ exists t c, trimEnd s = (t ++ String c "")%string /\ is_white_space c = false.
Proof.
  induction s as [|a s IH]; cbn [trimEnd]; [left; reflexivity|].
  destruct IH as [-> | (t & c & -> & Hc)].
  - destruct (is_white_space a) eqn:Ha; [left; reflexivity|].
    right. exists "", a. split; [reflexivity | exact Ha].
  - right. exists (String a t), c. split; [|exact Hc].
    destruct t; reflexivity.
Qed.

Lemma trimEnd_head (c : ascii) (t : string) :
  is_white_space c = false -> exists t', trimEnd (String c t) = String c t'.
Proof.
  intros Hc. cbn [trimEnd]. destruct (trimEnd t); [rewrite Hc|]; eauto.
Qed.

Lemma trimStart_shape (s : string) :
  trimStart s = "" \/ exists c t, trimStart s = String c t /\ is_white_space c = false.
Proof.
  induction s as [|a s IH]; cbn [trimStart]; [left; reflexivity|].
  destruct (is_white_space a) eqn:Ha; [exact IH|].
  right. exists a, s. auto.
Qed.

(** Trimming what has been trimmed changes nothing. *)
Lemma trim_trim (s : string) : trim (trim s) = trim s.
Proof.
  unfold trim. destruct (trimStart_shape s) as [-> | (c & t & -> & Hc)]; [reflexivity|].
  destruct (trimEnd_head c t Hc) as (t' & Ht). rewrite Ht.
  cbn [trimStart]. rewrite Hc. rewrite <- Ht.
  destruct (trimEnd_shape (String c t)) as [-> | (u & d & -> & Hd)]; [reflexivity|].
  apply trimEnd_snoc; exact Hd.
Qed.

Lemma digit_char_not_white_space (d : Z) : is_white_space (digit_char d) = false.
Proof.
  unfold digit_char. assert (H : 0 <= d mod 10 < 10) by (apply Z.mod_pos_bound; lia).
  assert (Hc : d mod 10 = 0 \/ d mod 10 = 1 \/ d mod 10 = 2 \/ d mod 10 = 3 \/ d mod 10 = 4
               \/ d mod 10 = 5 \/ d mod 10 = 6 \/ d mod 10 = 7 \/ d mod 10 = 8 \/ d mod 10 = 9)
    by lia.
  repeat (destruct Hc as [-> | Hc]; [reflexivity|]). rewrite Hc; reflexivity.
Qed.

Lemma dec_digits_last (fuel : nat) (n : Z) (acc : string) (d : ascii) :
  exists t, dec_digits fuel n (acc ++ String d "") = (t ++ String d "")%string.
Proof.
  revert n acc. induction fuel as [|f IH]; intros n acc; cbn [dec_digits].
  - exists acc; reflexivity.
  - destruct (n <? 10).
    + exists (String (digit_char n) acc); reflexivity.
    + apply (IH (n / 10) (String (digit_char n) acc)).
Qed.

Lemma Z_to_string_last (n : Z) :
  exists t d, Z_to_string n = (t ++ String d "")%string /\ is_white_space d = false.
Proof.
  assert (H : forall f m, exists t d, dec_digits (S f) m "" = (t ++ String d "")%string
                                      /\ is_white_space d = false).
  { intros f m. cbn [dec_digits]. destruct (m <? 10).
    - exists "", (digit_char m). split; [reflexivity | apply digit_char_not_white_space].
    - destruct (dec_digits_last f (m / 10) "" (digit_char m)) as (t & Ht).
      exists t, (digit_char m). split; [exact Ht | apply digit_char_not_white_space]. }
  unfold Z_to_string. destruct (n <? 0).
  - destruct (H (Z.to_nat (Z.log2 (- n))) (- n)) as (t & d & -> & Hd).
    exists (String "-" t), d. split; [reflexivity | exact Hd].
  - apply H.
Qed.

Lemma integer_ToString_last (n : number) :
  exists t d, integer_ToString n = (t ++ String d "")%string /\ is_white_space d = false.
Proof.
  destruct n as [ | [|] | q]; cbn [integer_ToString].
  - exists "Na", "N"%char. split; reflexivity.
  - exists "-Infinit", "y"%char. split; reflexivity.
  - exists "Infinit", "y"%char. split; reflexivity.
  - apply Z_to_string_last.
Qed.

Lemma generated_id_trimmed (t : Z) (r : Q) :
  trim (generated_id t r) = generated_id t r /\ generated_id t r <> "".
Proof.
  split; [|discriminate].
  unfold generated_id.
  destruct (integer_ToString_last
              (plus (Math_floor (times (Fin r) (num 9000))) (num 1000)))
    as (u & d & -> & Hd).
  set (date := remove_dashes _). clearbody date.
  unfold trim. change (trimStart ("CART-" ++ ?x)) with ("CART-" ++ x)%string.
  rewrite (append_snoc_assoc "-"), (append_snoc_assoc date), (append_snoc_assoc "CART-").
  apply trimEnd_snoc; exact Hd.
Qed.

(** X17: the cart identifier in the answer of an accepted submission is not
    blank and has no white space around it: a later request that sends it
    back as its [cart_id] is resolved to this very identifier, without a new
    one being generated. *)
Theorem returned_cart_id_can_be_sent_back (req_body : value) (w w' : world)
    (r : response) :
  post_carts req_body w = (r, w') ->
  status r = 200 \/ status r = 201 ->
  exists c,
    field (body r) "cart_id" = VStr c /\
    forall req2 w2,
      field (request_body req2) "cart_id" = VStr c ->
      resolveCartId (request_body req2) w2 = (Ok c, w2).
Proof.
  intros Hrun Hst.
  destruct (post_carts_cases _ _ _ _ Hrun)
    as [(H400 & _)|[->|(s0 & items & products & _ & _ & _ & _ & _ & _ & Hpersist)]];
    [destruct Hst; congruence | destruct Hst as [Hst|Hst]; discriminate Hst |].
  cbv zeta in Hpersist.
  apply persist_cart_inv in Hpersist
    as (stored & c & w1 & i & ni & ca & _ & Hres & _ & _ & _ & _ & _ & -> & _).
  exists c. split; [reflexivity|].
  assert (Hc : trim c = c /\ c <> "").
  { destruct (resolveCartId_cases _ w (request_body_readable req_body))
      as [(s & _ & Hs & Hres')|(_ & Hres')]; rewrite Hres' in Hres; injection Hres as <- _.
    - split; [apply trim_trim | exact Hs].
    - apply generated_id_trimmed. }
  destruct Hc as (Htrim & Hne).
  intros req2 w2 Hfield.
  destruct (resolveCartId_cases _ w2 (request_body_readable req2))
    as [(s & Hs & _ & ->)|(Hnone & _)].
  - assert (s = c) as -> by congruence. rewrite Htrim. reflexivity.
  - exfalso. specialize (Hnone c Hfield). congruence.
Qed.

Lemma returned_cart_id_can_be_sent_back_witness :
  exists c,
    field (body (fst (post_carts plain_request fresh_world))) "cart_id" = VStr c /\
    forall req2 w2,
      field (request_body req2) "cart_id" = VStr c ->
      resolveCartId (request_body req2) w2 = (Ok c, w2).
Proof.
  apply (returned_cart_id_can_be_sent_back plain_request fresh_world
           (snd (post_carts plain_request fresh_world))
           (fst (post_carts plain_request fresh_world))).
  - reflexivity.
  - right. reflexivity.
Defined.

(** ** The shape of the answers *)

Lemma answers_ret (P : response -> Prop) (r : response) : P r -> answers P (ret r).
Proof. intros H w r' w' [= <- _]. exact H. Qed.

Lemma answers_bind {A} (P : response -> Prop) (m : M A) (f : A -> M response) :
  (forall a, answers P (f a)) -> answers P (bind m f).
Proof.
  intros Hf w r w' H. apply bind_ok in H as (a & w1 & _ & H). exact (Hf a w1 r w' H).
Qed.

Lemma well_formed_failure (code : Z) (err : string) :
  code = 400 \/ code = 404 \/ code = 500 -> answers well_formed (failure code err).
Proof.
  intros Hcode. apply answers_ret. right. split; [reflexivity|]. split; [exact Hcode|].
  exists err; reflexivity.
Qed.

Lemma well_formed_try_catch (m : M response) (w : world) :
  answers well_formed m -> well_formed (fst (try_catch m w)).
Proof.
  intros Hm. unfold try_catch. destruct (m w) as [[r|e] w'] eqn:Hrun; simpl.
  - exact (Hm _ _ _ Hrun).
  - right. split; [reflexivity|]. split; [auto|]. eexists; reflexivity.
Qed.

(** X18: every answer of the four handlers says [success: true] with status
    200 or 201, or [success: false] with status 400, 404 or 500 and an error
    code. *)
Theorem every_answer_is_well_formed (limit_param customer_id_param : query_value)
    (id_param : string) (req_body : value) (w : world) :
  well_formed (fst (get_products limit_param w))
  /\ well_formed (fst (get_product id_param w))
  /\ well_formed (fst (post_carts req_body w))
  /\ well_formed (fst (get_carts customer_id_param w)).
Proof.
  split; [|split; [|split]]; apply well_formed_try_catch.
  - cbv zeta. apply answers_bind; intros sliced. apply answers_bind; intros products.
    apply answers_ret. left. split; [reflexivity | auto].
  - apply answers_bind; intros products. apply answers_bind; intros product.
    destruct (negb (truthy product)); [apply well_formed_failure; auto|].
    apply answers_ret. left. split; [reflexivity | auto].
  - cbv zeta. apply answers_bind; intros customer_id.
    destruct (_ || _ || _); [apply well_formed_failure; auto|].
    apply answers_bind; intros items.
    destruct (_ || _); [apply well_formed_failure; auto|].
    apply answers_bind; intros products. apply answers_bind; intros invalidItems.
    destruct (truthy _).
    + apply answers_ret. right. split; [reflexivity|]. split; [auto|].
      eexists; reflexivity.
    + unfold persist_cart. repeat (apply answers_bind; intros ?).
      apply answers_ret. left. split; [reflexivity|].
      unfold accepted; simpl. destruct (0 <=? _); auto.
  - cbv zeta. destruct (negb (query_truthy customer_id_param));
      [apply well_formed_failure; auto|].
    apply answers_bind; intros carts. apply answers_bind; intros userCarts.
    apply answers_ret. left. split; [reflexivity | auto].
Qed.

(** ** The limit of GET /products *)

Lemma span_dec_digits (f : nat) (n : Z) (acc : string) (a : Z) (c : nat) :
  0 <= n < 2 ^ Z.of_nat (S f) ->
  exists k, span_digits (dec_digits (S f) n acc) a c
            = span_digits acc (a * 10 ^ Z.of_nat (S k) + n) (c + S k).
Proof.
  revert n acc a c. induction f as [|f IH]; intros n acc a c Hn.
  - change (Z.of_nat 1) with 1 in Hn. rewrite Z.pow_1_r in Hn.
    cbn [dec_digits]. assert (Hlt : (n <? 10) = true) by (apply Z.ltb_lt; lia).
    rewrite Hlt, span_digit. exists O.
    rewrite Z.mod_small by lia. change (Z.of_nat 1) with 1. rewrite Z.pow_1_r.
    f_equal; [f_equal; lia | lia].
  - change (dec_digits (S (S f)) n acc)
      with (if n <? 10 then String (digit_char n) acc
            else dec_digits (S f) (n / 10) (String (digit_char n) acc)).
    destruct (n <? 10) eqn:Hlt.
    + rewrite span_digit. exists O. apply Z.ltb_lt in Hlt.
      rewrite Z.mod_small by lia. change (Z.of_nat 1) with 1. rewrite Z.pow_1_r.
      f_equal; [f_equal; lia | lia].
    + apply Z.ltb_ge in Hlt.
      destruct (IH (n / 10) (String (digit_char n) acc) a c) as (k & ->).
      { split; [apply Z.div_pos; lia|].
        replace (Z.of_nat (S (S f))) with (Z.of_nat (S f) + 1) in Hn by lia.
        rewrite Z.pow_add_r, Z.pow_1_r in Hn by lia.
        apply Z.div_lt_upper_bound; lia. }
      rewrite span_digit. exists (S k).
      replace (Z.of_nat (S (S k))) with (Z.of_nat (S k) + 1) by lia.
      rewrite Z.pow_add_r, Z.pow_1_r by lia.
      f_equal; [|lia].
      set (P := 10 ^ Z.of_nat (S k)). clearbody P.
      pose proof (Z.div_mod n 10 ltac:(lia)). lia.
Qed.

Lemma dec_digits_head (f : nat) (n : Z) (acc : string) :
  exists d rest, dec_digits (S f) n acc = String (digit_char d) rest.
Proof.
  revert n acc. induction f as [|f IH]; intros n acc.
  - cbn [dec_digits]. destruct (n <? 10); eauto.
  - change (dec_digits (S (S f)) n acc)
      with (if n <? 10 then String (digit_char n) acc
            else dec_digits (S f) (n / 10) (String (digit_char n) acc)).
    destruct (n <? 10); eauto.
Qed.

Lemma parseInt10_unsigned (d : Z) (rest : string) :
  parseInt10 (String (digit_char d) rest)
  = match span_digits (String (digit_char d) rest) 0 0 with
    | (n, S _, _) => to_double (inject_Z n)
    | _ => NaN
    end.
Proof.
  unfold parseInt10. cbn [trimStart]. rewrite digit_char_not_white_space.
  assert (Hone : forall m, to_double (inject_Z (1 * m)) = to_double (inject_Z m))
    by (intros m; rewrite Z.mul_1_l; reflexivity).
  assert (Hdigit : forall c : ascii,
             is_digit c = true ->
             (let '(sign, ds) := match String c rest with
                                 | String "+" r => (1, r)
                                 | String "-" r => (-1, r)
                                 | _ => (1, String c rest)
                                 end in
              match span_digits ds 0 0 with
              | (m, S _, _) => to_double (inject_Z (sign * m))
              | _ => NaN
              end)
             = match span_digits (String c rest) 0 0 with
               | (m, S _, _) => to_double (inject_Z m)
               | _ => NaN
               end).
  { intros c Hd.
    destruct c as [[|] [|] [|] [|] [|] [|] [|] [|]]; try discriminate Hd; cbv iota;
      destruct (span_digits _ 0 0) as [[m [|k]] r]; first [reflexivity | apply Hone]. }
  apply Hdigit. apply digit_char_spec.
Qed.

Lemma fuel_suffices (n : Z) :
  0 <= n -> n < 2 ^ Z.of_nat (S (Z.to_nat (Z.log2 n))).
Proof.
  intros Hn. rewrite Nat2Z.inj_succ, Z2Nat.id by apply Z.log2_nonneg.
  destruct (Z.eq_dec n 0) as [-> | Hne]; [reflexivity|].
  apply Z.log2_spec. lia.
Qed.

(** Printing an integer in decimal and reading it back with [parseInt]
    gives the double nearest to the integer. *)
Lemma parseInt10_Z_to_string (n : Z) :
  parseInt10 (Z_to_string n) = to_double (inject_Z n).
Proof.
  unfold Z_to_string. destruct (n <? 0) eqn:Hneg.
  - apply Z.ltb_lt in Hneg.
    destruct (span_dec_digits (Z.to_nat (Z.log2 (- n))) (- n) "" 0 0) as (k & Hspan);
      [split; [lia | apply fuel_suffices; lia]|].
    unfold parseInt10. cbn [trimStart]. change (is_white_space "-") with false. cbv iota.
    rewrite Hspan. cbn [span_digits Nat.add]. do 2 f_equal; lia.
  - apply Z.ltb_ge in Hneg.
    destruct (span_dec_digits (Z.to_nat (Z.log2 n)) n "" 0 0) as (k & Hspan);
      [split; [lia | apply fuel_suffices; lia]|].
    destruct (dec_digits_head (Z.to_nat (Z.log2 n)) n "") as (d & rest & Hhead).
    rewrite Hhead, parseInt10_unsigned, <- Hhead, Hspan.
    cbn [span_digits Nat.add]. do 2 f_equal; lia.
Qed.

(** X19: line 59: the limit is never zero and never [NaN]; a [limit]
    parameter that is an integer written in decimal is read as that integer,
    except that 0 gives the default of 10.  A negative limit is kept as it
    is.  The bound is that of the integers a Number holds exactly: beyond it
    the value that [parseInt] reads is rounded. *)
Theorem limit_is_read_in_decimal (limit_param : query_value) (n : Z) :
  Z.abs n <= 9007199254740992 ->
  truthy (VNum (query_limit limit_param)) = true
  /\ query_limit (QStr (Z_to_string n)) = (if n =? 0 then num 10 else num n).
Proof.
  intros Hn. split.
  - unfold query_limit. destruct (truthy (VNum (parseInt10 _))) eqn:Ht; [exact Ht | reflexivity].
  - unfold query_limit. cbn [query_ToString].
    rewrite parseInt10_Z_to_string, to_double_Z by (change (2 ^ 53) with 9007199254740992; exact Hn).
    destruct (Z.eqb_spec n 0) as [-> | Hne]; [reflexivity|].
    assert (Ht : truthy (VNum (num n)) = true); [|rewrite Ht; reflexivity].
    unfold truthy, num. apply negb_true_iff. unfold Qeq_bool, inject_Z; simpl.
    apply Z.eqb_neq. lia.
Qed.

Lemma limit_is_read_in_decimal_witness :
  truthy (VNum (query_limit (QStr "abc"))) = true
  /\ query_limit (QStr (Z_to_string (-5))) = (if -5 =? 0 then num 10 else num (-5)).
Proof.
  apply (limit_is_read_in_decimal (QStr "abc") (-5)). vm_compute. discriminate.
Defined.

End Coverage.
